(** * JSR Hydra: the orchestration loop and the momentum scalper

    A shallow embedding of [backend/app/engine/engine.py] (class
    [TradingEngine]) and [backend/app/strategies/strategy_d.py] (class
    [StrategyD]), and the properties of the candle-change cursor, the SL/TP
    enforcement, the risk gate, trade recording, closure reconciliation and
    the signal evaluator.

    Conventions of the model.
    - A Python float that holds a price of a candle or of a signal is a
      [float]: a number or NaN.  The code compares these prices and never
      tests them for NaN, and every comparison with NaN is false.  The
      numbers are exact rationals ([Q]): rounding and the infinities are not
      modelled, and the properties are stated in a form that does not depend
      on them.  An indicator value, whose NaN the code tests with [pd.isna]
      or treats as a missing value, is an [option Q] with [None] for NaN.
      Lot sizes and the figures of a closure are numbers ([Q]).
    - A pandas timestamp is an integer ([Z]) with its order.
    - A call into a collaborator (broker bridge, risk manager, event bus,
      storage, brain) either returns or raises: [outcome].  Exceptions are
      the subclasses of [Exception], the ones [except Exception] catches.
    - Log calls have no effect on the control flow and are not modelled. *)

From Stdlib Require Import QArith Qabs Qround ZArith Lia Lqa Ascii.
From stdpp Require Import gmap strings list fin_maps sorting.

Local Open Scope Z_scope.

(* ===================================================================== *)
(** ** Python calls: return or raise *)
(* ===================================================================== *)

Module Py.

(** The name of the exception class and its message. *)
Definition exn : Type := string.

Inductive outcome (A : Type) : Type :=
| Ret (a : A)
| Raise (e : exn).
Arguments Ret {A} a.
Arguments Raise {A} e.

(** [x < y], [x <= y] and [x > y] on numbers. *)
Definition Qltb (x y : Q) : bool := negb (Qle_bool y x).
Definition Qleb (x y : Q) : bool := Qle_bool x y.
Definition Qgtb (x y : Q) : bool := Qltb y x.

(** A float: a number or NaN. *)
Inductive float : Type :=
| Num (q : Q)
| NaN.

(** [pd.isna(x)]. *)
Definition isna (x : float) : bool :=
  match x with Num _ => false | NaN => true end.

(** [x < y], [x <= y] and [x > y]: false as soon as one side is NaN. *)
Definition fltb (x y : float) : bool :=
  match x, y with Num a, Num b => Qltb a b | _, _ => false end.
Definition fleb (x y : float) : bool :=
  match x, y with Num a, Num b => Qleb a b | _, _ => false end.
Definition fgtb (x y : float) : bool := fltb y x.

(** [x + y], [x - y], [x * y] and [abs(x)]: NaN as soon as one side is. *)
Definition fadd (x y : float) : float :=
  match x, y with Num a, Num b => Num (a + b) | _, _ => NaN end.
Definition fsub (x y : float) : float :=
  match x, y with Num a, Num b => Num (a - b) | _, _ => NaN end.
Definition fmul (x y : float) : float :=
  match x, y with Num a, Num b => Num (a * b) | _, _ => NaN end.
Definition fabs (x : float) : float :=
  match x with Num a => Num (Qabs a) | NaN => NaN end.

(** [x / y], where the code has tested [y > 0]. *)
Definition fdiv (x y : float) : float :=
  match x, y with Num a, Num b => Num (a / b) | _, _ => NaN end.

(** [d.get(k, 0.0)] on a JSON object with numeric values. *)
Definition get_or_zero (d : gmap string Q) (k : string) : Q :=
  default 0%Q (d !! k).

(** Truth value of a dict: non-empty. *)
Definition dict_truthy (d : gmap string Q) : bool :=
  negb (bool_decide (d = ∅)).

(** [s.iloc[-1]]: the last element, [IndexError] on an empty series. *)
Definition iloc_last {A : Type} (s : list A) : outcome A :=
  match last s with
  | Some x => Ret x
  | None => Raise "IndexError"
  end.

(** [s[a:b]] for negative [a = -i] and [b = -j]: both ends are counted
    from the end of the sequence and clipped at its start. *)
Definition slice_from_end {A : Type} (i j : nat) (s : list A) : list A :=
  let n := length s in
  let start := (n - i)%nat in
  let stop := (n - j)%nat in
  take (stop - start) (drop start s).

End Py.
Export Py.

(* ===================================================================== *)
(** ** Data model *)
(* ===================================================================== *)

(** [OrderDirection]: the code compares it with ["BUY"] and takes every
    other value as a sell. *)
Inductive OrderDirection : Type := BUY | SELL.

Definition is_buy (d : OrderDirection) : bool :=
  match d with BUY => true | SELL => false end.

(** A candle frame as pandas holds it: the index (timestamps) and the
    columns by name.  [len(df)] is the length of the index. *)
Record DataFrame : Type := mkDataFrame {
  df_index : list Z;
  df_columns : gmap string (list float)
}.

Definition df_len (df : DataFrame) : nat := length (df_index df).

(** [df.empty]: one of the two axes has length zero. *)
Definition df_empty (df : DataFrame) : bool :=
  (df_len df =? 0)%nat || bool_decide (df_columns df = ∅).

(** [df['name']]: [KeyError] when the column is missing. *)
Definition df_column (df : DataFrame) (name : string) : outcome (list float) :=
  match df_columns df !! name with
  | Some s => Ret s
  | None => Raise "KeyError"
  end.

(** The value stored per ticket in [_open_trades]. *)
Record TradeInfo : Type := mkTradeInfo {
  trade_id : Z;
  strategy_code : string;
  ti_symbol : string;
  ti_direction : OrderDirection
}.

(** The mutable attributes of [TradingEngine] the loop writes. *)
Record EngineState : Type := mkEngineState {
  _last_candle_time : gmap (string * string) Z;
  _open_trades : gmap Z TradeInfo;
  _cached_master_id : option Z
}.

Definition set_last_candle_time (k : string * string) (t : Z) (s : EngineState)
  : EngineState :=
  {| _last_candle_time := <[k := t]> (_last_candle_time s);
     _open_trades := _open_trades s;
     _cached_master_id := _cached_master_id s |}.

Definition set_open_trades (m : gmap Z TradeInfo) (s : EngineState) : EngineState :=
  {| _last_candle_time := _last_candle_time s;
     _open_trades := m;
     _cached_master_id := _cached_master_id s |}.

Definition set_cached_master_id (i : Z) (s : EngineState) : EngineState :=
  {| _last_candle_time := _last_candle_time s;
     _open_trades := _open_trades s;
     _cached_master_id := Some i |}.

Definition initial_state : EngineState :=
  {| _last_candle_time := ∅; _open_trades := ∅; _cached_master_id := None |}.

(* ===================================================================== *)
(** ** Collaborators and the trace of calls made to them *)
(* ===================================================================== *)

(** What the loop reads of the signal [strategy.run_cycle] returns. *)
Record Signal : Type := mkSignal {
  sig_symbol : string;
  sig_direction : OrderDirection;
  entry_price : float;
  stop_loss : option float;
  take_profit : option float
}.

Record RiskCheckResult : Type := mkRiskCheckResult {
  approved : bool;
  reason : string;
  position_size : Q;
  risk_score : Q
}.

(** The dict [open_position] returns, read with [.get]. *)
Record OrderResult : Type := mkOrderResult {
  or_ticket : option Z;
  or_price : option Q;
  or_time : option Z
}.

Record SymbolConfig : Type := mkSymbolConfig {
  lot_size : Q;
  sl_atr_mult : Q;
  tp_atr_mult : Q
}.

(** [SYMBOL_CONFIGS.get(symbol, SYMBOL_CONFIGS["EURUSD"])]. *)
Definition SYMBOL_CONFIGS (symbol : string) : option SymbolConfig :=
  if String.eqb symbol "EURUSD" then Some (mkSymbolConfig (2 # 100) (15 # 10) 2)
  else if String.eqb symbol "GBPUSD" then Some (mkSymbolConfig (1 # 100) (15 # 10) 2)
  else if String.eqb symbol "USDJPY" then Some (mkSymbolConfig (1 # 100) (15 # 10) 2)
  else if String.eqb symbol "XAUUSD" then Some (mkSymbolConfig (1 # 100) 2 (25 # 10))
  else None.

Definition symbol_config (symbol : string) : SymbolConfig :=
  default (mkSymbolConfig (2 # 100) (15 # 10) 2) (SYMBOL_CONFIGS symbol).

(** The arguments of [TradeCreate(...)]. *)
Record TradeCreate : Type := mkTradeCreate {
  tc_symbol : string;
  tc_direction : OrderDirection;
  tc_lots : Q;
  tc_entry_price : float;
  tc_stop_loss : float;
  tc_take_profit : float;
  tc_strategy_code : string;
  tc_reason : string
}.

(** A row of the trade table, as far as the loop reads it. *)
Record TradeRow : Type := mkTradeRow {
  row_id : Z;
  row_entry_price : Q
}.

(** The events the loop publishes on the bus, with their [data]. *)
Inductive BusEvent : Type :=
| TRADE_REJECTED (strategy symbol reason : string)
| TRADE_OPENED (strategy symbol : string) (direction : OrderDirection)
    (lots : Q) (entry : option Q) (sl tp : float) (ticket : option Z)
    (timestamp : option Z)
| STRATEGY_ERROR (strategy symbol error : string).

(** The two dicts handed to [brain.process_trade_result]. *)
Inductive BrainMsg : Type :=
| BrainOpened (strategy symbol : string) (direction : OrderDirection)
    (lots : Q) (entry : option Q) (ticket : option Z)
    (regime_at_entry : option string)
| BrainClosed (strategy symbol : string) (direction : OrderDirection)
    (entry exit profit : Q) (won : bool) (ticket : Z).

(** The answer of [client.get("/history/deal", ...)]: the status code and
    what [resp.json()] gives. *)
Record HttpResponse : Type := mkHttpResponse {
  status_code : Z;
  json : outcome (option (gmap string Q))
}.

(** One call to a collaborator, with its arguments; and [PopOpenTrade],
    the removal of a ticket from [_open_trades], which the trace records
    among the calls so that its place in their sequence can be stated. *)
Inductive Call : Type :=
| CallGetCandles (symbol tf : string) (count : Z)
| CallRunCycle (strat_key symbol : string)
| CallPreTradeCheck (symbol : string) (direction : OrderDirection)
    (sl_distance : float)
| CallOpenPosition (symbol : string) (direction : OrderDirection)
    (lots : Q) (sl tp : float) (comment : string)
| CallPublish (ev : BusEvent)
| CallBrain (msg : BrainMsg)
| CallDbSession
| CallDbFindMaster
| CallDbCreateMaster
| CallDbCreateTrade (master : Z) (tc : TradeCreate)
| CallDbMarkOpen (trade : Z) (ticket : option Z)
| CallGetOpenPositions
| CallHistoryDeal (ticket : Z)
| CallDbGetTrade (trade : Z)
| CallGetTick (symbol : string)
| CallCloseTrade (trade : Z) (exit_price profit commission swap : Q)
| CallUpdatePerformance (strategy_code : string) (trade : TradeRow)
| PopOpenTrade (ticket : Z).

(** How the world answers each call.  The answers are the inputs of the
    model: nothing is assumed about them. *)
Record Collaborators : Type := mkCollaborators {
  get_candles : string -> string -> Z -> outcome DataFrame;
  run_cycle : string -> string -> outcome (option Signal);
  pre_trade_check : string -> OrderDirection -> float -> outcome RiskCheckResult;
  open_position : string -> OrderDirection -> Q -> float -> float -> string
                  -> outcome (option OrderResult);
  publish : BusEvent -> outcome unit;
  process_trade_result : BrainMsg -> outcome unit;
  db_session : outcome unit;
  db_find_master : outcome (option Z);
  db_create_master : outcome Z;
  create_trade : Z -> TradeCreate -> outcome Z;
  db_mark_open : Z -> option Z -> outcome unit;
  get_open_positions : outcome (list (option Z));
  history_deal : Z -> outcome HttpResponse;
  db_get_trade : Z -> outcome (option TradeRow);
  get_tick : string -> outcome (gmap string Q);
  close_trade : Z -> Q -> Q -> Q -> Q -> outcome unit;
  update_strategy_performance : string -> TradeRow -> outcome unit
}.

(* ===================================================================== *)
(** ** The monad of the loop: engine state, trace of calls, exceptions *)
(* ===================================================================== *)

Definition M (A : Type) : Type :=
  EngineState -> outcome A * EngineState * list Call.

Definition ret {A : Type} (a : A) : M A := fun s => (Ret a, s, []).

Definition raise {A : Type} (e : exn) : M A := fun s => (Raise e, s, []).

Definition bind {A B : Type} (m : M A) (k : A -> M B) : M B :=
  fun s =>
    match m s with
    | (Ret a, s1, t1) =>
        match k a s1 with
        | (r, s2, t2) => (r, s2, t1 ++ t2)
        end
    | (Raise e, s1, t1) => (Raise e, s1, t1)
    end.

(** [try: m except Exception as e: h e]. *)
Definition try_except {A : Type} (m : M A) (h : exn -> M A) : M A :=
  fun s =>
    match m s with
    | (Ret a, s1, t1) => (Ret a, s1, t1)
    | (Raise e, s1, t1) =>
        match h e s1 with
        | (r, s2, t2) => (r, s2, t1 ++ t2)
        end
    end.

(** A call to a collaborator: it is recorded, then it returns or raises. *)
Definition call {A : Type} (c : Call) (answer : outcome A) : M A :=
  fun s => (answer, s, [c]).

Definition lift {A : Type} (o : outcome A) : M A := fun s => (o, s, []).

Definition gets {A : Type} (f : EngineState -> A) : M A :=
  fun s => (Ret (f s), s, []).

Definition modify (f : EngineState -> EngineState) : M unit :=
  fun s => (Ret tt, f s, []).

Notation "'let*' x ':=' m 'in' k" := (bind m (fun x => k))
  (at level 10, x name, m at level 100, k at level 200).
Notation "'run' m 'in' k" := (bind m (fun _ => k))
  (at level 10, m at level 100, k at level 200).

Definition result_of {A : Type} (r : outcome A * EngineState * list Call) : outcome A :=
  fst (fst r).
Definition state_of {A : Type} (r : outcome A * EngineState * list Call) : EngineState :=
  snd (fst r).
Definition trace_of {A : Type} (r : outcome A * EngineState * list Call) : list Call :=
  snd r.

(* ===================================================================== *)
(** ** [_main_loop]: candle-change detection per (symbol, timeframe) *)
(* ===================================================================== *)

Section Loop.

Variable w : Collaborators.

(** The body of [for tf in strategy_timeframes]: the value stored in
    [new_candle_for_tf[tf]]. *)
Definition detect_new_candle (symbol tf : string) : M bool :=
  let candle_key := (symbol, tf) in
  try_except
    (let* candles_tf := call (CallGetCandles symbol tf 200) (get_candles w symbol tf 200) in
     if negb (df_empty candles_tf) && (2 <=? df_len candles_tf)%nat then
       let* latest_candle_time := lift (iloc_last (df_index candles_tf)) in
       let* prev_time := gets (fun s => _last_candle_time s !! candle_key) in
       let new_candle :=
         match prev_time with
         | None => true
         | Some prev => latest_candle_time >? prev
         end in
       run modify (set_last_candle_time candle_key latest_candle_time) in
       ret new_candle
     else ret false)
    (fun _ => ret false).

(* ===================================================================== *)
(** ** [_main_loop]: the turn of one strategy binding *)
(* ===================================================================== *)

(** The lists [all_risk_checks] and [all_trades] of the cycle summary repeat
    the arguments of the calls of the trace and are not kept apart. *)

(** The strategy bindings of [_strategies], as far as the loop reads
    them: the key, [_config.get('timeframe', 'H1')] and [is_active]. *)
Record Binding : Type := mkBinding {
  strat_key : string;
  timeframe : string;
  is_active : bool
}.

(** The entry of [all_signals_summary] for a binding at the end of its
    turn. *)
Inductive SignalStatus : Type :=
| waiting_for_candle
| inactive
| no_signal
| skipped_no_sl_tp
| invalid_sl_tp
| summary_entry (direction : OrderDirection) (entry sl tp : float)
| error (e : exn).

(** A stop or target the signal carries and the loop keeps: the test
    [p is None or p <= 0] is false for it.  A NaN is kept. *)
Definition present (p : option float) : option float :=
  match p with
  | Some x => if fleb x (Num 0) then None else Some x
  | None => None
  end.

(** [if fallback_atr and fallback_atr > 0]. *)
Definition usable_atr (fallback_atr : option Q) : option Q :=
  match fallback_atr with
  | Some a => if negb (Qeq_bool a 0) && Qgtb a 0 then Some a else None
  | None => None
  end.

(** "Final validation: SL and TP must be positive": the test
    [sl_price <= 0 or tp_price <= 0], which is false for NaN. *)
Definition final_validation (sl_price tp_price : float)
  : SignalStatus + float * float :=
  if fleb sl_price (Num 0) || fleb tp_price (Num 0) then inl invalid_sl_tp
  else inr (sl_price, tp_price).

(** "ENFORCE SL/TP: auto-calculate from ATR if missing": the stops the
    order is sent with, or the status the signal is dropped with. *)
Definition enforce_sl_tp (sym_cfg : SymbolConfig) (fallback_atr : option Q)
    (signal : Signal) : SignalStatus + float * float :=
  let entry := entry_price signal in
  match present (stop_loss signal), present (take_profit signal) with
  | Some sl_price, Some tp_price => final_validation sl_price tp_price
  | kept_sl, kept_tp =>
      match usable_atr fallback_atr with
      | Some atr =>
          let sl_price :=
            match kept_sl with
            | Some sl => sl
            | None =>
                if is_buy (sig_direction signal)
                then fsub entry (Num (atr * sl_atr_mult sym_cfg))
                else fadd entry (Num (atr * sl_atr_mult sym_cfg))
            end in
          let tp_price :=
            match kept_tp with
            | Some tp => tp
            | None =>
                if is_buy (sig_direction signal)
                then fadd entry (Num (atr * tp_atr_mult sym_cfg))
                else fsub entry (Num (atr * tp_atr_mult sym_cfg))
            end in
          final_validation sl_price tp_price
      | None => inl skipped_no_sl_tp
      end
  end.

(** [strat_key.split('_', 1)[1] if '_' in strat_key else strat_key]. *)
Fixpoint after_first_underscore (s : string) : option string :=
  match s with
  | EmptyString => None
  | String c rest =>
      if Ascii.eqb c "_"%char then Some rest else after_first_underscore rest
  end.

Definition strategy_code_of (key : string) : string :=
  default key (after_first_underscore key).

(** [_get_or_create_master_id]. *)
Definition _get_or_create_master_id : M Z :=
  let* cached := gets _cached_master_id in
  match cached with
  | Some master_id => ret master_id
  | None =>
      let* master := call CallDbFindMaster (db_find_master w) in
      let* master_id :=
        match master with
        | Some master_id => ret master_id
        | None => call CallDbCreateMaster (db_create_master w)
        end in
      run modify (set_cached_master_id master_id) in
      ret master_id
  end.

(** "Record trade to database": the body of the [try] whose handler logs
    [trade_db_recording_failed].  The entry of [_open_trades] is written
    last, after the commit. *)
Definition record_trade (key : string) (signal : Signal)
    (risk_check : RiskCheckResult) (order_result : OrderResult)
    (sl_price tp_price : float) : M unit :=
  run call CallDbSession (db_session w) in
  let* master_id := _get_or_create_master_id in
  let code := strategy_code_of key in
  let trade_create :=
    {| tc_symbol := sig_symbol signal;
       tc_direction := sig_direction signal;
       tc_lots := position_size risk_check;
       tc_entry_price :=
         match or_price order_result with
         | Some price => Num price
         | None => entry_price signal
         end;
       tc_stop_loss := sl_price;
       tc_take_profit := tp_price;
       tc_strategy_code := code;
       tc_reason := "Signal from " +:+ key |} in
  let* db_trade := call (CallDbCreateTrade master_id trade_create)
                        (create_trade w master_id trade_create) in
  run call (CallDbMarkOpen db_trade (or_ticket order_result))
           (db_mark_open w db_trade (or_ticket order_result)) in
  match or_ticket order_result with
  | Some ticket =>
      if negb (ticket =? 0) then
        modify (fun s =>
          set_open_trades
            (<[ticket := {| trade_id := db_trade;
                            strategy_code := code;
                            ti_symbol := sig_symbol signal;
                            ti_direction := sig_direction signal |}]>
               (_open_trades s)) s)
      else ret tt
  | None => ret tt
  end.

(** The body of [for strat_key, strategy in symbol_strategies.items()]:
    one binding's turn in a cycle.  [fallback_atr] is
    [indicator_values.get("atr")] and [regime] the value of the detected
    regime, both from the H1 candles of the symbol; [new_candle] is
    [new_candle_for_tf.get(tf, False)]. *)
Definition process_binding (b : Binding) (symbol : string)
    (fallback_atr : option Q) (regime : option string) (new_candle : bool)
    : M SignalStatus :=
  let key := strat_key b in
  let sym_cfg := symbol_config symbol in
  if negb new_candle then ret waiting_for_candle
  else
    try_except
      (if negb (is_active b) then ret inactive
       else
         let* signal := call (CallRunCycle key symbol) (run_cycle w key symbol) in
         match signal with
         | None => ret no_signal
         | Some signal =>
             match enforce_sl_tp sym_cfg fallback_atr signal with
             | inl status => ret status
             | inr (sl_price, tp_price) =>
                 let sym := sig_symbol signal in
                 let dir := sig_direction signal in
                 let status :=
                   summary_entry dir (entry_price signal) sl_price tp_price in
                 let sl_distance := fabs (fsub (entry_price signal) sl_price) in
                 let* risk_check :=
                   call (CallPreTradeCheck sym dir sl_distance)
                        (pre_trade_check w sym dir sl_distance) in
                 if negb (approved risk_check) then
                   let rejected := TRADE_REJECTED key sym (reason risk_check) in
                   run call (CallPublish rejected) (publish w rejected) in
                   ret status
                 else
                   let lots := position_size risk_check in
                   let comment := String.substring 0 31 ("JSR_" +:+ key) in
                   let* order_result :=
                     call (CallOpenPosition sym dir lots sl_price tp_price comment)
                          (open_position w sym dir lots sl_price tp_price comment) in
                   match order_result with
                   | None => ret status
                   | Some order_result =>
                       let opened :=
                         TRADE_OPENED key sym dir lots (or_price order_result)
                           sl_price tp_price (or_ticket order_result)
                           (or_time order_result) in
                       run call (CallPublish opened) (publish w opened) in
                       let notice :=
                         BrainOpened key sym dir lots (or_price order_result)
                           (or_ticket order_result) regime in
                       run try_except
                             (call (CallBrain notice) (process_trade_result w notice))
                             (fun _ => ret tt) in
                       run try_except
                             (record_trade key signal risk_check order_result
                                sl_price tp_price)
                             (fun _ => ret tt) in
                       ret status
                   end
             end
         end)
      (fun e =>
         let failed := STRATEGY_ERROR key symbol e in
         run call (CallPublish failed) (publish w failed) in
         ret (error e)).


(* ===================================================================== *)
(** ** [_check_closed_positions]: closure reconciliation *)
(* ===================================================================== *)

(** "Try to get closed position details from MT5 history": [position_data]
    stays [None] when the request or [resp.json()] raises, or the status
    is not 200. *)
Definition fetch_position_data (ticket : Z) : M (option (gmap string Q)) :=
  try_except
    (let* resp := call (CallHistoryDeal ticket) (history_deal w ticket) in
     if status_code resp =? 200 then lift (json resp) else ret None)
    (fun _ => ret None).

(** The four values handed to [TradeService.close_trade]: from the deal
    when [position_data] is truthy, else the exit price from the tick. *)
Definition closing_values (trade_info : TradeInfo)
    (position_data : option (gmap string Q)) : M (Q * Q * Q * Q) :=
  let from_tick :=
    try_except
      (let* tick := call (CallGetTick (ti_symbol trade_info))
                         (get_tick w (ti_symbol trade_info)) in
       let exit_price :=
         if is_buy (ti_direction trade_info)
         then get_or_zero tick "bid"
         else get_or_zero tick "ask" in
       ret (exit_price, 0%Q, 0%Q, 0%Q))
      (fun _ => ret (0%Q, 0%Q, 0%Q, 0%Q)) in
  match position_data with
  | Some deal =>
      if dict_truthy deal then
        ret (get_or_zero deal "price", get_or_zero deal "profit",
             get_or_zero deal "commission", get_or_zero deal "swap")
      else from_tick
  | None => from_tick
  end.

(** The body of the inner [try] of the loop over [closed_tickets]. *)
Definition process_closure (ticket : Z) (trade_info : TradeInfo) : M unit :=
  let tid := trade_id trade_info in
  let code := strategy_code trade_info in
  let* position_data := fetch_position_data ticket in
  run call CallDbSession (db_session w) in
  let* trade_obj := call (CallDbGetTrade tid) (db_get_trade w tid) in
  match trade_obj with
  | None => ret tt
  | Some trade_obj =>
      let* values := closing_values trade_info position_data in
      let '(exit_price, profit, commission, swap) := values in
      run call (CallCloseTrade tid exit_price profit commission swap)
               (close_trade w tid exit_price profit commission swap) in
      run try_except
            (let* closed_trade := call (CallDbGetTrade tid) (db_get_trade w tid) in
             match closed_trade with
             | Some closed_trade =>
                 call (CallUpdatePerformance code closed_trade)
                      (update_strategy_performance w code closed_trade)
             | None => ret tt
             end)
            (fun _ => ret tt) in
      run try_except
            (let net_profit := (profit - commission - swap)%Q in
             let notice :=
               BrainClosed (ti_symbol trade_info +:+ "_" +:+ code)
                 (ti_symbol trade_info) (ti_direction trade_info)
                 (row_entry_price trade_obj) exit_price net_profit
                 (Qgtb net_profit 0) ticket in
             call (CallBrain notice) (process_trade_result w notice))
            (fun _ => ret tt) in
      ret tt
  end.

(** [self._open_trades.pop(ticket)]: the entry is removed and returned,
    and the removal is recorded in the trace; [KeyError] when the ticket is
    not tracked. *)
Definition pop_open_trade (ticket : Z) : M TradeInfo :=
  fun s =>
    match _open_trades s !! ticket with
    | Some trade_info =>
        (Ret trade_info,
         set_open_trades (delete ticket (_open_trades s)) s,
         [PopOpenTrade ticket])
    | None => (Raise "KeyError", s, [])
    end.

(** One turn of [for ticket in closed_tickets]: the entry is popped, before
    the [try], then the closure is processed under its own handler. *)
Definition close_ticket (ticket : Z) : M unit :=
  let* trade_info := pop_open_trade ticket in
  try_except (process_closure ticket trade_info) (fun _ => ret tt).

Fixpoint for_each {A : Type} (body : A -> M unit) (l : list A) : M unit :=
  match l with
  | [] => ret tt
  | x :: rest => run body x in for_each body rest
  end.

(** [closed_tickets = [t for t in self._open_trades if t not in open_tickets]]. *)
Definition closed_tickets (open_trades : gmap Z TradeInfo)
    (open_tickets : gset (option Z)) : list Z :=
  filter (fun t => Some t ∉ open_tickets) (map_to_list open_trades).*1.

Definition _check_closed_positions : M unit :=
  let* tracked := gets _open_trades in
  if bool_decide (tracked = ∅) then ret tt
  else
    try_except
      (let* mt5_positions := call CallGetOpenPositions (get_open_positions w) in
       let open_tickets : gset (option Z) := list_to_set mt5_positions in
       for_each close_ticket (closed_tickets tracked open_tickets))
      (fun _ => ret tt).

End Loop.

(* ===================================================================== *)
(** ** [StrategyD.generate_signal]: the momentum scalper *)
(* ===================================================================== *)

Module StrategyD.

(** The attributes [__init__] sets; [_code] is [StrategyCode.D.value]. *)
Record Config : Type := mkConfig {
  _code : string;
  _bb_period : Z;
  _bb_std : Q;
  _rsi_period : Z;
  _rsi_oversold : Q;
  _rsi_overbought : Q;
  _atr_period : Z
}.

(** The defaults of [config.get] in [__init__]. *)
Definition default_config (code : string) : Config :=
  {| _code := code;
     _bb_period := 20;
     _bb_std := 2;
     _rsi_period := 14;
     _rsi_oversold := 30;
     _rsi_overbought := 70;
     _atr_period := 14 |}.

(** The triggers whose descriptions are collected in [buy_signals] and
    [sell_signals]; the text is rendered from these values. *)
Inductive Trigger : Type :=
| price_below_lower_bb (close : float) (lower : Q)
| rsi_below_oversold (rsi threshold : Q)
| momentum_burst_bullish
| price_above_upper_bb (close : float) (upper : Q)
| rsi_above_overbought (rsi threshold : Q)
| momentum_burst_bearish.

(** The keyword arguments of [StrategySignal(...)]; [reason] is
    ["Momentum scalp: "] followed by the triggers joined with ["; "]. *)
Record StrategySignal : Type := mkStrategySignal {
  direction : OrderDirection;
  confidence : Q;
  sl_price : float;
  tp_price : float;
  reason : list Trigger;
  strategy_code : string
}.

(** "Get latest values": the last row and the last indicator values, the
    latter possibly NaN. *)
Record Latest : Type := mkLatest {
  latest_close : float;
  latest_open : float;
  latest_high : float;
  latest_low : float;
  latest_upper_band : option Q;
  latest_middle_band : option Q;
  latest_lower_band : option Q;
  latest_rsi : option Q;
  latest_atr : option Q
}.

Definition obind {A B : Type} (o : outcome A) (k : A -> outcome B) : outcome B :=
  match o with
  | Ret a => k a
  | Raise e => Raise e
  end.

Notation "'let?' x ':=' o 'in' k" := (obind o (fun x => k))
  (at level 10, x name, o at level 100, k at level 200).

(** The values of a series that are not NaN. *)
Definition numbers (s : list float) : list Q :=
  omap (fun x => match x with Num q => Some q | NaN => None end) s.

(** [series.mean()]: the mean of the values that are not NaN, and NaN when
    there is none. *)
Definition mean (s : list float) : float :=
  match numbers s with
  | [] => NaN
  | qs => Num (foldr Qplus 0%Q qs / inject_Z (Z.of_nat (length qs)))
  end.

(** Python's [min(a, b)]: [b] when [b < a], else [a]. *)
Definition py_min (a b : Q) : Q := if Qltb b a then b else a.

Section Evaluator.

(** [app.indicators]: the three indicator functions, which return a
    series as long as their input or raise. *)
Variable bollinger_bands :
  list float -> Z -> Q
  -> outcome (list (option Q) * list (option Q) * list (option Q)).
Variable rsi : list float -> Z -> outcome (list (option Q)).
Variable atr :
  list float -> list float -> list float -> Z -> outcome (list (option Q)).

Variable self : Config.

(** "Extract OHLC data" up to "Get latest values": every step that can
    raise, in the order of the source.  The [close] and [open] columns
    are returned too, for the momentum check. *)
Definition read_latest (candles_df : DataFrame)
    : outcome (Latest * list float * list float) :=
  let? close := df_column candles_df "close" in
  let? high := df_column candles_df "high" in
  let? low := df_column candles_df "low" in
  let? open_price := df_column candles_df "open" in
  let? bands := bollinger_bands close (_bb_period self) (_bb_std self) in
  let '(upper_band, middle_band, lower_band) := bands in
  let? rsi_values := rsi close (_rsi_period self) in
  let? atr_values := atr high low close (_atr_period self) in
  let? l_close := iloc_last close in
  let? l_open := iloc_last open_price in
  let? l_high := iloc_last high in
  let? l_low := iloc_last low in
  let? l_upper := iloc_last upper_band in
  let? l_middle := iloc_last middle_band in
  let? l_lower := iloc_last lower_band in
  let? l_rsi := iloc_last rsi_values in
  let? l_atr := iloc_last atr_values in
  Ret ({| latest_close := l_close; latest_open := l_open;
          latest_high := l_high; latest_low := l_low;
          latest_upper_band := l_upper; latest_middle_band := l_middle;
          latest_lower_band := l_lower; latest_rsi := l_rsi;
          latest_atr := l_atr |}, close, open_price).

(** "Check momentum burst": [(momentum_buy, momentum_sell)]. *)
Definition momentum (n : nat) (close open_price : list float)
    (l_close l_open l_high l_low : float) : bool * bool :=
  if (6 <=? n)%nat then
    let current_body := fabs (fsub l_close l_open) in
    let candle_range := fsub l_high l_low in
    let body_ratio :=
      if fgtb candle_range (Num 0) then fdiv current_body candle_range
      else Num 0 in
    let recent_bodies :=
      zip_with (fun c o => fabs (fsub c o))
        (slice_from_end 6 1 close) (slice_from_end 6 1 open_price) in
    let avg_body := mean recent_bodies in
    if fgtb current_body (fmul (Num (3 # 2)) avg_body)
       && fgtb body_ratio (Num (6 # 10))
    then if fgtb l_close l_open then (true, false) else (false, true)
    else (false, false)
  else (false, false).

(** [buy_signals] and [sell_signals], for indicator values that are
    not NaN. *)
Definition buy_signals (n : nat) (close open_price : list float) (l : Latest)
    (lower rsi_now : Q) : list Trigger :=
  (if fltb (latest_close l) (Num lower)
   then [price_below_lower_bb (latest_close l) lower] else [])
  ++ (if Qltb rsi_now (_rsi_oversold self)
      then [rsi_below_oversold rsi_now (_rsi_oversold self)] else [])
  ++ (if fst (momentum n close open_price (latest_close l) (latest_open l)
                (latest_high l) (latest_low l))
      then [momentum_burst_bullish] else []).

Definition sell_signals (n : nat) (close open_price : list float) (l : Latest)
    (upper rsi_now : Q) : list Trigger :=
  (if fgtb (latest_close l) (Num upper)
   then [price_above_upper_bb (latest_close l) upper] else [])
  ++ (if Qgtb rsi_now (_rsi_overbought self)
      then [rsi_above_overbought rsi_now (_rsi_overbought self)] else [])
  ++ (if snd (momentum n close open_price (latest_close l) (latest_open l)
                (latest_high l) (latest_low l))
      then [momentum_burst_bearish] else []).

(** Whether a direction has at least one trigger: [bb_buy or rsi_buy or
    momentum_buy], and the same for the sell side. *)
Definition buy_triggered (n : nat) (close open_price : list float) (l : Latest)
    (lower rsi_now : Q) : bool :=
  fltb (latest_close l) (Num lower)
  || Qltb rsi_now (_rsi_oversold self)
  || fst (momentum n close open_price (latest_close l) (latest_open l)
            (latest_high l) (latest_low l)).

Definition sell_triggered (n : nat) (close open_price : list float) (l : Latest)
    (upper rsi_now : Q) : bool :=
  fgtb (latest_close l) (Num upper)
  || Qgtb rsi_now (_rsi_overbought self)
  || snd (momentum n close open_price (latest_close l) (latest_open l)
            (latest_high l) (latest_low l)).

(** From "Tighter stops" to the end of the [try] body.  The test
    [sl_price <= 0 or tp_price <= 0] is false for NaN stops, those of a NaN
    latest close. *)
Definition build_signal (signal_direction : OrderDirection)
    (reasons : list Trigger) (l_close : float) (rsi_now atr_now : Q)
    : option StrategySignal :=
  let sl :=
    if is_buy signal_direction then fsub l_close (Num (atr_now * 1))
    else fadd l_close (Num (atr_now * 1)) in
  let tp :=
    if is_buy signal_direction then fadd l_close (Num (atr_now * (3 # 2)))
    else fsub l_close (Num (atr_now * (3 # 2))) in
  if fleb sl (Num 0) || fleb tp (Num 0) then None
  else
    Some {| direction := signal_direction;
            confidence := py_min (Qabs (rsi_now - 50) / 50) 1;
            sl_price := sl;
            tp_price := tp;
            reason := reasons;
            strategy_code := _code self |}.

(** From "Handle NaN values" on: no step raises any more. *)
Definition evaluate (n : nat) (close open_price : list float) (l : Latest)
    : option StrategySignal :=
  match latest_upper_band l, latest_lower_band l, latest_middle_band l,
        latest_rsi l, latest_atr l with
  | Some upper, Some lower, Some _, Some rsi_now, Some atr_now =>
      match buy_signals n close open_price l lower rsi_now,
            sell_signals n close open_price l upper rsi_now with
      | (_ :: _) as reasons, [] =>
          build_signal BUY reasons (latest_close l) rsi_now atr_now
      | [], (_ :: _) as reasons =>
          build_signal SELL reasons (latest_close l) rsi_now atr_now
      | _, _ => None
      end
  | _, _, _, _, _ => None
  end.

(** The body of the [try]. *)
Definition generate_signal_body (candles_df : DataFrame)
    : outcome (option StrategySignal) :=
  let min_data := Z.max (_bb_period self) (_rsi_period self) + 5 in
  if Z.of_nat (df_len candles_df) <? min_data then Ret None
  else
    let? latest := read_latest candles_df in
    let '(l, close, open_price) := latest in
    Ret (evaluate (df_len candles_df) close open_price l).

(** [generate_signal]: the body under [except Exception: return None]. *)
Definition generate_signal (candles_df : DataFrame)
    : outcome (option StrategySignal) :=
  match generate_signal_body candles_df with
  | Ret signal => Ret signal
  | Raise _ => Ret None
  end.

End Evaluator.

End StrategyD.

(* ===================================================================== *)
(** ** [_setup_bridge] and [_register_strategies]: symbols and bindings *)
(* ===================================================================== *)

Definition TRADING_SYMBOLS : list string :=
  ["EURUSD"; "GBPUSD"; "USDJPY"; "XAUUSD"].

(** "Resolve trading symbols" in [_setup_bridge]: [_symbols] after the
    broker was asked for its symbols.  [current] is [_symbols] before, which
    [__init__] sets to the trading symbols. *)
Definition resolve_symbols (current : list string)
    (available : outcome (list string)) : list string :=
  match available with
  | Ret available_symbols =>
      match filter (fun s => s ∈ available_symbols) TRADING_SYMBOLS with
      | [] => current
      | resolved => resolved
      end
  | Raise _ => current
  end.

(** [d[key] = value] on a dict held in insertion order: the value of a key
    that is there is replaced in place, a new key goes to the end. *)
Fixpoint dict_set {V : Type} (key : string) (value : V)
    (d : list (string * V)) : list (string * V) :=
  match d with
  | [] => [(key, value)]
  | (k, v) :: rest =>
      if String.eqb k key then (k, value) :: rest
      else (k, v) :: dict_set key value rest
  end.

(** What [_register_strategies] passes to the constructor of each strategy,
    as far as the loop reads it later. *)
Record Registration : Type := mkRegistration {
  reg_symbol : string;
  reg_code : string;
  reg_timeframe : string;
  reg_lookback : Z;
  reg_default_lots : Q
}.

(** The body of [for symbol in self._symbols] in [_register_strategies]:
    the four strategies A, B, C and D of the symbol, on M15, with the lot
    size of the symbol. *)
Definition register_symbol (symbol : string)
    (strategies : list (string * Registration)) : list (string * Registration) :=
  let lots := lot_size (symbol_config symbol) in
  let strategies :=
    dict_set (symbol +:+ "_A") (mkRegistration symbol "A" "M15" 200 lots) strategies in
  let strategies :=
    dict_set (symbol +:+ "_B") (mkRegistration symbol "B" "M15" 100 lots) strategies in
  let strategies :=
    dict_set (symbol +:+ "_C") (mkRegistration symbol "C" "M15" 100 lots) strategies in
  dict_set (symbol +:+ "_D") (mkRegistration symbol "D" "M15" 100 lots) strategies.

Definition _register_strategies (symbols : list string)
    (strategies : list (string * Registration)) : list (string * Registration) :=
  foldl (fun registered symbol => register_symbol symbol registered)
    strategies symbols.

(** [k.startswith(p)]. *)
Fixpoint starts_with (p k : string) : bool :=
  match p with
  | EmptyString => true
  | String a p' =>
      match k with
      | EmptyString => false
      | String c k' => Ascii.eqb a c && starts_with p' k'
      end
  end.

(** [symbol_strategies]: the entries of [_strategies] whose key starts with
    the symbol and an underscore. *)
Definition symbol_strategies {V : Type} (symbol : string)
    (strategies : list (string * V)) : list (string * V) :=
  filter (fun entry => starts_with (symbol +:+ "_") entry.1 = true) strategies.

(* ===================================================================== *)
(** ** [_main_loop]: rounding, and the account summary *)
(* ===================================================================== *)

(** Python's [round] to an integer, on the exact value: to the nearest, a
    tie to the even neighbour. *)
Definition round_half_even (x : Q) : Z :=
  let below := Qfloor x in
  match (x - inject_Z below ?= 1 # 2)%Q with
  | Lt => below
  | Gt => below + 1
  | Eq => if Z.even below then below else below + 1
  end.

(** [round(x, ndigits)] for a number. *)
Definition py_round (ndigits : nat) (x : Q) : Q :=
  (inject_Z (round_half_even (x * inject_Z (10 ^ Z.of_nat ndigits)))
   / inject_Z (10 ^ Z.of_nat ndigits))%Q.

(** [round(x, ndigits)] for a float: NaN stays NaN. *)
Definition fround (ndigits : nat) (x : float) : float :=
  match x with
  | Num q => Num (py_round ndigits q)
  | NaN => NaN
  end.

(** [drawdown], as computed from what [get_balance] and [get_equity]
    returned. *)
Definition drawdown (balance equity : float) : float :=
  if fgtb balance (Num 0)
  then fmul (fdiv (fsub balance equity) balance) (Num 100)
  else Num 0.

(** [account_summary["drawdown"]]: [round(drawdown, 2)]. *)
Definition summary_drawdown (balance equity : float) : float :=
  fround 2 (drawdown balance equity).

(* ===================================================================== *)
(** ** [_main_loop]: the loop over the symbols *)
(* ===================================================================== *)

Section Cycle.

Variable w : Collaborators.

(** [app.indicators] and the regime detector: functions of the candles that
    return or raise.  [detect_regime] gives the value of the regime it
    detected, [None] when it detected none. *)
Variable rsi : list float -> Z -> outcome (list (option Q)).
Variable adx :
  list float -> list float -> list float -> Z -> outcome (list (option Q)).
Variable atr :
  list float -> list float -> list float -> Z -> outcome (list (option Q)).
Variable ema : list float -> Z -> outcome (list (option Q)).
Variable detect_regime : DataFrame -> outcome (option string).

(** [indicator_values["atr"]]: [round(float(atr_vals.iloc[-1]), 4)] when
    the series is not empty.  A NaN stays a NaN, which the fallback test
    treats like [None]. *)
Definition rounded_atr (atr_vals : list (option Q)) : option Q :=
  match last atr_vals with
  | Some (Some x) => Some (py_round 4 x)
  | _ => None
  end.

(** "Fetch H1 candles for indicator computation and regime detection":
    [indicator_values.get("atr")] and the regime at the end of the block.
    The indicator values are assigned before the regime is detected, so a
    failure of the detector leaves them in place. *)
Definition h1_indicators (symbol : string) : M (option Q * option string) :=
  try_except
    (let* candles_h1 := call (CallGetCandles symbol "H1" 200)
                             (get_candles w symbol "H1" 200) in
     if negb (df_empty candles_h1) && (50 <=? df_len candles_h1)%nat then
       let* close := lift (df_column candles_h1 "close") in
       let* high := lift (df_column candles_h1 "high") in
       let* low := lift (df_column candles_h1 "low") in
       let* rsi_vals := lift (rsi close 14) in
       let* adx_vals := lift (adx high low close 14) in
       let* atr_vals := lift (atr high low close 14) in
       let* ema_20 := lift (ema close 20) in
       let* ema_50 := lift (ema close 50) in
       let fallback_atr := rounded_atr atr_vals in
       try_except
         (let* regime := lift (detect_regime candles_h1) in
          ret (fallback_atr, regime))
         (fun _ => ret (fallback_atr, None))
     else ret (None, None))
    (fun _ => ret (None, None)).

(** The bindings of a symbol: [symbol_strategies], by the prefix of the
    key. *)
Definition bindings_of (symbol : string) (strategies : list Binding)
  : list Binding :=
  filter (fun b => starts_with (symbol +:+ "_") (strat_key b) = true) strategies.

(** The keys of [strategy_timeframes]: the timeframes of the bindings, each
    once, in the order of their first binding. *)
Fixpoint first_seen (seen timeframes : list string) : list string :=
  match timeframes with
  | [] => []
  | tf :: rest =>
      if bool_decide (tf ∈ seen) then first_seen seen rest
      else tf :: first_seen (tf :: seen) rest
  end.

Definition strategy_timeframes (bindings : list Binding) : list string :=
  first_seen [] (timeframe <$> bindings).

(** [for tf in strategy_timeframes]: the dict [new_candle_for_tf]. *)
Fixpoint detect_timeframes (symbol : string) (timeframes : list string)
    (new_candle_for_tf : gmap string bool) : M (gmap string bool) :=
  match timeframes with
  | [] => ret new_candle_for_tf
  | tf :: rest =>
      let* new_candle := detect_new_candle w symbol tf in
      detect_timeframes symbol rest (<[tf := new_candle]> new_candle_for_tf)
  end.

(** "Run strategies for this symbol": the entries written to
    [all_signals_summary], in order. *)
Fixpoint run_bindings (symbol : string) (fallback_atr : option Q)
    (regime : option string) (new_candle_for_tf : gmap string bool)
    (bindings : list Binding) : M (list (string * SignalStatus)) :=
  match bindings with
  | [] => ret []
  | b :: rest =>
      let new_candle := default false (new_candle_for_tf !! timeframe b) in
      let* status := process_binding w b symbol fallback_atr regime new_candle in
      let* others := run_bindings symbol fallback_atr regime new_candle_for_tf rest in
      ret ((strat_key b, status) :: others)
  end.

(** The body of [for symbol in self._symbols]. *)
Definition symbol_turn (strategies : list Binding) (symbol : string)
  : M (list (string * SignalStatus)) :=
  run try_except
        (let* tick_data := call (CallGetTick symbol) (get_tick w symbol) in ret tt)
        (fun _ => ret tt) in
  let* h1 := h1_indicators symbol in
  let '(fallback_atr, regime) := h1 in
  let mine := bindings_of symbol strategies in
  let* new_candle_for_tf :=
    detect_timeframes symbol (strategy_timeframes mine) ∅ in
  run_bindings symbol fallback_atr regime new_candle_for_tf mine.

(** "LOOP OVER ALL SYMBOLS". *)
Fixpoint symbol_loop (strategies : list Binding) (symbols : list string)
  : M (list (string * SignalStatus)) :=
  match symbols with
  | [] => ret []
  | symbol :: rest =>
      let* entries := symbol_turn strategies symbol in
      let* others := symbol_loop strategies rest in
      ret (entries ++ others)
  end.

(** A cycle from the loop over the symbols to the check for closed
    positions. *)
Definition trading_pass (strategies : list Binding) (symbols : list string)
  : M (list (string * SignalStatus)) :=
  let* all_signals_summary := symbol_loop strategies symbols in
  run _check_closed_positions w in
  ret all_signals_summary.

End Cycle.

(* ===================================================================== *)
(** ** Runs over several cycles, and concrete worlds *)
(* ===================================================================== *)

(** The latest timestamp of a fetch the detector accepts: the fetch
    returned, the frame is not empty and has at least two rows. *)
Definition accepted_latest (fetched : outcome DataFrame) : option Z :=
  match fetched with
  | Ret df =>
      if negb (df_empty df) && (2 <=? df_len df)%nat then last (df_index df)
      else None
  | Raise _ => None
  end.

(** The detection of one (symbol, timeframe) key over successive cycles,
    each cycle with the world of its time. *)
Fixpoint detect_cycles (worlds : list Collaborators) (symbol tf : string)
    (s : EngineState) : EngineState :=
  match worlds with
  | [] => s
  | w :: rest =>
      detect_cycles rest symbol tf (state_of (detect_new_candle w symbol tf s))
  end.

(** The timestamps the feed delivers for a key over those cycles. *)
Definition feed_stamps (worlds : list Collaborators) (symbol tf : string) : list Z :=
  omap (fun w => accepted_latest (get_candles w symbol tf 200)) worlds.

(** Reconciliation run [n] times against the same world. *)
Fixpoint reconcile_times (w : Collaborators) (n : nat) (s : EngineState)
    : EngineState * list Call :=
  match n with
  | O => (s, [])
  | S k =>
      let r := _check_closed_positions w s in
      let '(s', t') := reconcile_times w k (state_of r) in
      (s', trace_of r ++ t')
  end.

(** The tickets whose closure processing starts in a trace, in order: the
    processing of a closure opens with the history request for its ticket. *)
Definition closures_started (trace : list Call) : list Z :=
  omap (fun c => match c with CallHistoryDeal t => Some t | _ => None end) trace.

(** A world for the scenarios: the feed, the strategy, the risk manager, the
    order manager, the broker's position list, the deal history and the tick
    answer as given; the bus and the brain accept everything; storage works
    when [storage_up] and raises otherwise. *)
Definition scenario (candles : outcome DataFrame) (signal : option Signal)
    (risk : RiskCheckResult) (order : option OrderResult) (storage_up : bool)
    (positions : list (option Z)) (deal : outcome HttpResponse)
    (tick : outcome (gmap string Q)) : Collaborators :=
  let storage {A : Type} (a : A) : outcome A :=
    if storage_up then Ret a else Raise "OperationalError" in
  {| get_candles := fun _ _ _ => candles;
     run_cycle := fun _ _ => Ret signal;
     pre_trade_check := fun _ _ _ => Ret risk;
     open_position := fun _ _ _ _ _ _ => Ret order;
     publish := fun _ => Ret tt;
     process_trade_result := fun _ => Ret tt;
     db_session := storage tt;
     db_find_master := storage (Some 1);
     db_create_master := storage 1;
     create_trade := fun _ _ => storage 501;
     db_mark_open := fun _ _ => storage tt;
     get_open_positions := Ret positions;
     history_deal := fun _ => deal;
     db_get_trade := fun t => storage (Some (mkTradeRow t (11 # 10)));
     get_tick := fun _ => tick;
     close_trade := fun _ _ _ _ _ => storage tt;
     update_strategy_performance := fun _ _ => storage tt |}.

Definition frame (stamps : list Z) : DataFrame :=
  {| df_index := stamps;
     df_columns := {[ "close" := (fun _ => Num 1) <$> stamps ]} |}.

Definition approval : RiskCheckResult := mkRiskCheckResult true "ok" (1 # 100) 0.

Definition feed_world (stamps : list Z) : Collaborators :=
  scenario (Ret (frame stamps)) None approval None true [] (Raise "offline")
    (Raise "offline").

Definition with_cursor (symbol tf : string) (t : Z) : EngineState :=
  set_last_candle_time (symbol, tf) t initial_state.

(** A binding of the scalper on EURUSD and two signals of its strategy: one
    that carries no stop-loss, one that carries both prices. *)
Definition eurusd_d : Binding := mkBinding "EURUSD_D" "M15" true.

Definition bare_signal : Signal :=
  {| sig_symbol := "EURUSD"; sig_direction := BUY; entry_price := Num (11 # 10);
     stop_loss := None; take_profit := Some (Num (12 # 10)) |}.

Definition full_signal : Signal :=
  {| sig_symbol := "EURUSD"; sig_direction := BUY; entry_price := Num (11 # 10);
     stop_loss := Some (Num (1 # 1)); take_profit := Some (Num (12 # 10)) |}.

(** The same signal with a NaN for its stop-loss. *)
Definition nan_stop_signal : Signal :=
  {| sig_symbol := "EURUSD"; sig_direction := BUY; entry_price := Num (11 # 10);
     stop_loss := Some NaN; take_profit := Some (Num (12 # 10)) |}.

Definition rejection : RiskCheckResult :=
  mkRiskCheckResult false "kill switch active" 0 (1 # 1).

Definition filled (ticket : Z) : OrderResult :=
  {| or_ticket := Some ticket; or_price := Some (11 # 10); or_time := Some 1000 |}.

(** The worlds of the trading scenarios: the strategy returns [signal], the
    risk manager answers [risk], the order manager fills with ticket 7. *)
Definition trading_world (signal : Signal) (risk : RiskCheckResult)
    (storage_up : bool) : Collaborators :=
  scenario (Ret (frame [100; 200])) (Some signal) risk (Some (filled 7))
    storage_up [] (Raise "offline") (Raise "offline").

(** The turn of the binding in a world whose order manager fills the order
    with ticket 7 and whose storage is down. *)
Definition storage_down_world : Collaborators :=
  trading_world full_signal approval false.

Definition storage_down_turn : outcome SignalStatus * EngineState * list Call :=
  process_binding storage_down_world eurusd_d "EURUSD" None None true
    initial_state.

(** Two tracked trades, of which the broker still reports ticket 8 only; the
    deal history is unreachable and the tick is 1.2000 / 1.2002. *)
Definition two_trades : EngineState :=
  set_open_trades
    (<[7 := mkTradeInfo 501 "D" "EURUSD" BUY]>
       (<[8 := mkTradeInfo 502 "A" "EURUSD" SELL]> ∅))
    initial_state.

Definition quote : gmap string Q :=
  <["bid" := 12000 # 10000]> (<["ask" := 12002 # 10000]> ∅).

Definition closing_world : Collaborators :=
  scenario (Ret (frame [100; 200])) None approval None true [Some 8]
    (Raise "offline") (Ret quote).



(** Stub indicators for the scalper scenarios: bands 12 / 10 / 9, ATR 1 and
    the given RSI on the last bar; and a window of [n] flat bars at [price]. *)
Definition flat_bands (close : list float) (period : Z) (std_dev : Q)
    : outcome (list (option Q) * list (option Q) * list (option Q)) :=
  Ret ([Some (12 # 1)], [Some (10 # 1)], [Some (9 # 1)]).

Definition flat_rsi (value : Q) (close : list float) (period : Z)
    : outcome (list (option Q)) :=
  Ret [Some value].

Definition flat_atr (high low close : list float) (period : Z)
    : outcome (list (option Q)) :=
  Ret [Some (1 # 1)].

Definition flat_window (n : nat) (price : Q) : DataFrame :=
  {| df_index := Z.of_nat <$> seq 0 n;
     df_columns :=
       <["open" := replicate n (Num price)]>
         (<["high" := replicate n (Num price)]>
            (<["low" := replicate n (Num price)]>
               (<["close" := replicate n (Num price)]> ∅))) |}.

(** A flat window whose closes are all NaN. *)
Definition nan_close_window (n : nat) (price : Q) : DataFrame :=
  {| df_index := Z.of_nat <$> seq 0 n;
     df_columns :=
       <["open" := replicate n (Num price)]>
         (<["high" := replicate n (Num price)]>
            (<["low" := replicate n (Num price)]>
               (<["close" := replicate n NaN]> ∅))) |}.

(** A window that lost its [close] column. *)
Definition headless_window : DataFrame :=
  {| df_index := Z.of_nat <$> seq 0 25;
     df_columns := <["open" := replicate 25 (Num (8 # 1))]> ∅ |}.

(** The signal the scalper returns on the flat window with an RSI of 45:
    the close 8 is below the lower band 9 and the ATR is 1. *)
Definition flat_buy_signal : StrategyD.StrategySignal :=
  {| StrategyD.direction := BUY;
     StrategyD.confidence := StrategyD.py_min (Qabs ((45 # 1) - 50) / 50) 1;
     StrategyD.sl_price := Num ((8 # 1) - (1 # 1) * 1);
     StrategyD.tp_price := Num ((8 # 1) + (1 # 1) * (3 # 2));
     StrategyD.reason := [StrategyD.price_below_lower_bb (Num (8 # 1)) (9 # 1)];
     StrategyD.strategy_code := "D" |}.

Definition flat_latest (rsi_now : Q) : StrategyD.Latest :=
  StrategyD.mkLatest (Num (8 # 1)) (Num (8 # 1)) (Num (8 # 1)) (Num (8 # 1))
    (Some (12 # 1)) (Some (10 # 1)) (Some (9 # 1)) (Some rsi_now) (Some (1 # 1)).

(** A world with another bus, and a world with another brain. *)
Definition with_bus (bus : BusEvent -> outcome unit) (w : Collaborators)
  : Collaborators :=
  {| get_candles := get_candles w;
     run_cycle := run_cycle w;
     pre_trade_check := pre_trade_check w;
     open_position := open_position w;
     publish := bus;
     process_trade_result := process_trade_result w;
     db_session := db_session w;
     db_find_master := db_find_master w;
     db_create_master := db_create_master w;
     create_trade := create_trade w;
     db_mark_open := db_mark_open w;
     get_open_positions := get_open_positions w;
     history_deal := history_deal w;
     db_get_trade := db_get_trade w;
     get_tick := get_tick w;
     close_trade := close_trade w;
     update_strategy_performance := update_strategy_performance w |}.

Definition with_brain (brain : BrainMsg -> outcome unit) (w : Collaborators)
  : Collaborators :=
  {| get_candles := get_candles w;
     run_cycle := run_cycle w;
     pre_trade_check := pre_trade_check w;
     open_position := open_position w;
     publish := publish w;
     process_trade_result := brain;
     db_session := db_session w;
     db_find_master := db_find_master w;
     db_create_master := db_create_master w;
     create_trade := create_trade w;
     db_mark_open := db_mark_open w;
     get_open_positions := get_open_positions w;
     history_deal := history_deal w;
     db_get_trade := db_get_trade w;
     get_tick := get_tick w;
     close_trade := close_trade w;
     update_strategy_performance := update_strategy_performance w |}.

Definition with_strategy (strategy : string -> string -> outcome (option Signal))
    (w : Collaborators) : Collaborators :=
  {| get_candles := get_candles w;
     run_cycle := strategy;
     pre_trade_check := pre_trade_check w;
     open_position := open_position w;
     publish := publish w;
     process_trade_result := process_trade_result w;
     db_session := db_session w;
     db_find_master := db_find_master w;
     db_create_master := db_create_master w;
     create_trade := create_trade w;
     db_mark_open := db_mark_open w;
     get_open_positions := get_open_positions w;
     history_deal := history_deal w;
     db_get_trade := db_get_trade w;
     get_tick := get_tick w;
     close_trade := close_trade w;
     update_strategy_performance := update_strategy_performance w |}.

(** The strategy of every binding raises. *)
Definition broken_strategy_world : Collaborators :=
  with_strategy (fun _ _ => Raise "ValueError")
    (trading_world full_signal approval true).

(** The bus refuses [TRADE_OPENED] and accepts every other event. *)
Definition deaf_to_openings (ev : BusEvent) : outcome unit :=
  match ev with
  | TRADE_OPENED _ _ _ _ _ _ _ _ _ => Raise "ConnectionError"
  | _ => Ret tt
  end.

(** The order manager returns no result. *)
Definition unfilled_world : Collaborators :=
  scenario (Ret (frame [100; 200])) (Some full_signal) approval None true []
    (Raise "offline") (Raise "offline").

(** The calls by which a closure takes effect outside the engine: the
    write of the closure, the performance update and the notice to the
    brain. *)
Definition closing_effect (c : Call) : Prop :=
  match c with
  | CallCloseTrade _ _ _ _ _ => True
  | CallUpdatePerformance _ _ => True
  | CallBrain _ => True
  | _ => False
  end.

(** A deal as the history returns it, and the worlds that answer with it or
    cannot reach the storage. *)
Definition deal_7 : gmap string Q :=
  <["price" := 11050 # 10000]> (<["profit" := 5 # 1]> ∅).

Definition deal_world : Collaborators :=
  scenario (Ret (frame [100; 200])) None approval None true [Some 8]
    (Ret (mkHttpResponse 200 (Ret (Some deal_7)))) (Ret quote).

Definition storage_down_closing_world : Collaborators :=
  scenario (Ret (frame [100; 200])) None approval None false [Some 8]
    (Raise "offline") (Ret quote).

(* ===================================================================== *)
(** ** Vocabulary of the properties *)
(* ===================================================================== *)

(** Every call [m] makes, from any state, satisfies [P]. *)
Definition calls_satisfy {A : Type} (P : Call -> Prop) (m : M A) : Prop :=
  forall s, Forall P (trace_of (m s)).

(** [m] leaves the part [f] of the engine state as it found it. *)
Definition preserves {X A : Type} (f : EngineState -> X) (m : M A) : Prop :=
  forall s, f (state_of (m s)) = f s.

(** A price the loop takes as missing: [None], or a number that is not
    strictly positive. *)
Definition lacking (p : option float) : Prop :=
  match p with
  | None => True
  | Some (Num x) => (x <= 0)%Q
  | Some NaN => False
  end.

(** No ATR for the fallback: [None] (which stands for a NaN too), or a
    number that is not strictly positive. *)
Definition no_atr (a : option Q) : Prop :=
  match a with
  | None => True
  | Some x => (x <= 0)%Q
  end.

(** Two floats are the same value: the same number, or both NaN. *)
Definition feq (x y : float) : Prop :=
  match x, y with
  | Num a, Num b => (a == b)%Q
  | NaN, NaN => True
  | _, _ => False
  end.

(** A strictly positive number. *)
Definition positive (x : float) : Prop :=
  match x with
  | Num q => (0 < q)%Q
  | NaN => False
  end.

(** A price for which the test [x <= 0] is false: a strictly positive
    number, or NaN. *)
Definition not_le_zero (x : float) : Prop :=
  match x with
  | Num q => (0 < q)%Q
  | NaN => True
  end.

(** Both stops of an order are strictly positive numbers. *)
Definition positive_stops (c : Call) : Prop :=
  match c with
  | CallOpenPosition _ _ _ sl tp _ => positive sl /\ positive tp
  | _ => True
  end.

(** For both stops of an order the test [<= 0] is false. *)
Definition guarded_stops (c : Call) : Prop :=
  match c with
  | CallOpenPosition _ _ _ sl tp _ => not_le_zero sl /\ not_le_zero tp
  | _ => True
  end.

(** The prices of a signal that are given are numbers. *)
Definition number_prices (signal : Signal) : Prop :=
  isna (entry_price signal) = false /\
  (forall sl, stop_loss signal = Some sl -> isna sl = false) /\
  (forall tp, take_profit signal = Some tp -> isna tp = false).

(** The history request is the first call of a closure, and the only one
    for it. *)
Definition no_history_request (c : Call) : Prop :=
  match c with CallHistoryDeal _ => False | _ => True end.

(** The steps of a trace that belong to the closure of a ticket by the
    ticket they carry: its removal from [_open_trades], the history request
    that opens the processing and the notice to the brain that ends it. *)
Definition closure_event (ticket : Z) (c : Call) : bool :=
  match c with
  | PopOpenTrade t => t =? ticket
  | CallHistoryDeal t => t =? ticket
  | CallBrain (BrainClosed _ _ _ _ _ _ _ t) => t =? ticket
  | _ => false
  end.

Definition closure_events (ticket : Z) (trace : list Call) : list Call :=
  List.filter (closure_event ticket) trace.

(** The notice to the brain for the closure of a ticket. *)
Definition closure_notice (ticket : Z) (trade_info : TradeInfo)
    (row : TradeRow) (exit_price net_profit : Q) : Call :=
  CallBrain
    (BrainClosed (ti_symbol trade_info +:+ "_" +:+ strategy_code trade_info)
       (ti_symbol trade_info) (ti_direction trade_info)
       (row_entry_price row) exit_price net_profit (Qgtb net_profit 0) ticket).

(** The record after the given tickets are popped, in order. *)
Definition pop_all (m : gmap Z TradeInfo) (tickets : list Z) : gmap Z TradeInfo :=
  foldl (fun m t => delete t m) m tickets.

(** What remains after a reconciliation against the broker's list: the
    tickets the broker still reports. *)
Definition reconciled (positions : list (option Z)) (m : gmap Z TradeInfo)
  : gmap Z TradeInfo :=
  pop_all m (closed_tickets m (list_to_set positions)).


(** [m] returns from any state, with a value that satisfies [Q]. *)
Definition returns_with {A : Type} (Q : A -> Prop) (m : M A) : Prop :=
  forall s, exists a, result_of (m s) = Ret a /\ Q a.

(** A call that places no order. *)
Definition no_order (c : Call) : Prop :=
  match c with CallOpenPosition _ _ _ _ _ _ => False | _ => True end.

(* ===================================================================== *)
(** * Properties *)
(* ===================================================================== *)

(** ** The model on concrete inputs *)

Example strategy_code_of_key : strategy_code_of "EURUSD_D" = "D".
Proof. reflexivity. Qed.

Example strategy_code_of_plain : strategy_code_of "XAUUSD" = "XAUUSD".
Proof. reflexivity. Qed.

Example slice_last_five :
  slice_from_end 6 1 [1; 2; 3; 4; 5; 6; 7] = [2; 3; 4; 5; 6].
Proof. reflexivity. Qed.

Example slice_of_short_series : slice_from_end 6 1 [1; 2; 3] = [1; 2].
Proof. reflexivity. Qed.

Example gold_has_wider_stops : sl_atr_mult (symbol_config "XAUUSD") = 2%Q.
Proof. reflexivity. Qed.

Example unknown_symbol_trades_as_eurusd :
  symbol_config "AUDUSD" = symbol_config "EURUSD".
Proof. reflexivity. Qed.

(** A BUY at 1.1000 without stop-loss, ATR 0.0010 on EURUSD: the stop is
    derived as 1.1000 - 1.5 * 0.0010, the target of the signal is kept. *)
Example stop_derived_from_atr :
  enforce_sl_tp (symbol_config "EURUSD") (Some (10 # 10000)) bare_signal
  = inr (Num ((11 # 10) - (10 # 10000) * (15 # 10)), Num (12 # 10)).
Proof. reflexivity. Qed.

(** A SELL at 0.0010 with ATR 0.0010: the derived target 0.0010 - 2 * 0.0010
    is negative and the signal is dropped by the final validation. *)
Example negative_target_is_invalid :
  enforce_sl_tp (symbol_config "EURUSD") (Some (10 # 10000))
    {| sig_symbol := "EURUSD"; sig_direction := SELL;
       entry_price := Num (10 # 10000); stop_loss := None;
       take_profit := None |}
  = inl invalid_sl_tp.
Proof. reflexivity. Qed.

(** A NaN stop-loss is neither missing nor refused: [nan <= 0] is false
    in both tests, and the signal passes with it. *)
Example nan_stop_passes_the_enforcement :
  enforce_sl_tp (symbol_config "EURUSD") None
    {| sig_symbol := "EURUSD"; sig_direction := BUY;
       entry_price := Num (11 # 10); stop_loss := Some NaN;
       take_profit := Some (Num (12 # 10)) |}
  = inr (NaN, Num (12 # 10)).
Proof. reflexivity. Qed.

(** Stops derived from a NaN entry price are NaN and pass as well. *)
Example nan_entry_gives_nan_stops :
  enforce_sl_tp (symbol_config "EURUSD") (Some (10 # 10000))
    {| sig_symbol := "EURUSD"; sig_direction := BUY;
       entry_price := NaN; stop_loss := None; take_profit := None |}
  = inr (NaN, NaN).
Proof. reflexivity. Qed.

(** Five bars of body 1 and a last bar of body 4 that closes on its high:
    a bullish momentum burst. *)
Example bullish_burst :
  StrategyD.momentum 6 (Num <$> [1; 1; 1; 1; 1; 5]%Q)
    (Num <$> [0; 0; 0; 0; 0; 1]%Q) (Num 5) (Num 1) (Num 5) (Num 1)
  = (true, false).
Proof. reflexivity. Qed.

(** [mean] skips the NaN bodies: with four of the five recent bodies NaN
    the average is the one number left. *)
Example mean_skips_nan :
  StrategyD.mean [NaN; Num 2; NaN; NaN; NaN] = Num (2 / 1).
Proof. reflexivity. Qed.

Example order_comment_is_cut_at_31 :
  String.substring 0 31 ("JSR_" +:+ "EURUSD_D_with_a_very_long_suffix_x")
  = "JSR_EURUSD_D_with_a_very_long_s".
Proof. reflexivity. Qed.

(** ** Comparisons on floats *)

Lemma Qltb_lt (x y : Q) : Qltb x y = true <-> (x < y)%Q.
Proof.
  unfold Qltb. rewrite negb_true_iff.
  split.
  - intros H. apply Qnot_le_lt. intros Hle.
    apply Qle_bool_iff in Hle. congruence.
  - intros H. destruct (Qle_bool y x) eqn:E; [|reflexivity].
    apply Qle_bool_iff in E. exfalso. exact (Qlt_not_le _ _ H E).
Qed.

Lemma Qleb_false_lt (x y : Q) : Qleb x y = false <-> (y < x)%Q.
Proof.
  unfold Qleb. rewrite <- Qltb_lt. unfold Qltb.
  destruct (Qle_bool x y); simpl; split; congruence.
Qed.

Lemma Qleb_le (x y : Q) : Qleb x y = true <-> (x <= y)%Q.
Proof. apply Qle_bool_iff. Qed.

Lemma Qgtb_gt (x y : Q) : Qgtb x y = true <-> (y < x)%Q.
Proof. apply Qltb_lt. Qed.

(** ** The candle-change cursor *)

Section Cursor.

Variable w : Collaborators.
Variables symbol tf : string.

Let fetched := get_candles w symbol tf 200.

(** The detector in closed form: an accepted fetch is compared with the
    cursor and stored; anything else answers "not new" and stores
    nothing. *)
Lemma detect_new_candle_unfold (s : EngineState) :
  detect_new_candle w symbol tf s =
    match accepted_latest fetched with
    | Some t =>
        (Ret (match _last_candle_time s !! (symbol, tf) with
              | None => true
              | Some prev => t >? prev
              end),
         set_last_candle_time (symbol, tf) t s,
         [CallGetCandles symbol tf 200])
    | None => (Ret false, s, [CallGetCandles symbol tf 200])
    end.
Proof.
  unfold detect_new_candle, try_except, bind, call, accepted_latest, fetched.
  destruct (get_candles w symbol tf 200) as [df|e]; [|reflexivity].
  cbv beta iota.
  destruct (negb (df_empty df) && (2 <=? df_len df)%nat); [|reflexivity].
  unfold lift, iloc_last, bind, gets, modify, ret.
  destruct (last (df_index df)) as [t|]; reflexivity.
Qed.

Lemma detect_cursor_accepted (s : EngineState) (t : Z) :
  accepted_latest fetched = Some t ->
  _last_candle_time (state_of (detect_new_candle w symbol tf s)) !! (symbol, tf)
  = Some t.
Proof.
  intros H. rewrite detect_new_candle_unfold, H. simpl.
  apply lookup_insert_eq.
Qed.

Lemma detect_state_refused (s : EngineState) :
  accepted_latest fetched = None ->
  detect_new_candle w symbol tf s = (Ret false, s, [CallGetCandles symbol tf 200]).
Proof. intros H. rewrite detect_new_candle_unfold, H. reflexivity. Qed.

Lemma detect_other_key (s : EngineState) (k : string * string) :
  k <> (symbol, tf) ->
  _last_candle_time (state_of (detect_new_candle w symbol tf s)) !! k
  = _last_candle_time s !! k.
Proof.
  intros Hk. rewrite detect_new_candle_unfold.
  destruct (accepted_latest fetched); simpl; [|reflexivity].
  apply lookup_insert_ne. congruence.
Qed.

End Cursor.

Lemma accepted_latest_frame (df : DataFrame) (t : Z) :
  df_empty df = false -> (2 <= df_len df)%nat -> last (df_index df) = Some t ->
  accepted_latest (Ret df) = Some t.
Proof.
  intros He Hn Hl. unfold accepted_latest. rewrite He.
  apply Nat.leb_le in Hn. rewrite Hn. simpl. exact Hl.
Qed.

Lemma accepted_latest_short (df : DataFrame) :
  (df_len df < 2)%nat -> accepted_latest (Ret df) = None.
Proof.
  intros Hn. unfold accepted_latest.
  apply Nat.leb_gt in Hn. rewrite Hn, andb_false_r. reflexivity.
Qed.

(** The cursor after a run of cycles is the last timestamp the feed
    delivered, or the initial cursor when it delivered none. *)
Lemma cursor_after_cycles (worlds : list Collaborators) (symbol tf : string)
    (s : EngineState) :
  _last_candle_time (detect_cycles worlds symbol tf s) !! (symbol, tf)
  = last (option_list (_last_candle_time s !! (symbol, tf))
          ++ feed_stamps worlds symbol tf).
Proof.
  revert s. induction worlds as [|w rest IH]; intros s.
  - simpl. unfold feed_stamps. simpl. rewrite app_nil_r.
    destruct (_last_candle_time s !! (symbol, tf)); reflexivity.
  - simpl detect_cycles. rewrite IH. unfold feed_stamps. simpl omap.
    destruct (accepted_latest (get_candles w symbol tf 200)) as [t|] eqn:E.
    + rewrite (detect_cursor_accepted w symbol tf s t E).
      rewrite last_app_cons. reflexivity.
    + rewrite (detect_state_refused w symbol tf s E). reflexivity.
Qed.

Lemma sorted_last_prefix (l1 l2 : list Z) (q q' : Z) :
  Sorted Z.le (l1 ++ l2) ->
  last l1 = Some q -> last (l1 ++ l2) = Some q' -> q <= q'.
Proof.
  intros Hs H1 H2.
  apply (Sorted_StronglySorted Z.le) in Hs.
  apply last_app_Some in H2 as [H2|[_ H2]].
  - apply (StronglySorted_app_1_elem_of Z.le l1 l2); auto using last_Some_elem_of.
  - assert (q = q') by congruence. lia.
Qed.

(** C5, as stated, fails: on the first observation of a key with a frame of
    a single candle the detector answers "not new" and records nothing. *)
Lemma first_observation_of_one_candle_is_not_new :
  _last_candle_time initial_state !! ("EURUSD", "M15") = None /\
  get_candles (feed_world [100]) "EURUSD" "M15" 200 = Ret (frame [100]) /\
  last (df_index (frame [100])) = Some 100 /\
  detect_new_candle (feed_world [100]) "EURUSD" "M15" initial_state
  = (Ret false, initial_state, [CallGetCandles "EURUSD" "M15" 200]).
Proof. repeat split. Qed.

(** C5 (amended): a detection whose fetch returned a non-empty frame of at
    least two candles answers "new" and records the latest timestamp when the
    key has no cursor, answers "new" (and records it) when the latest
    timestamp is strictly later than the cursor, and answers "not new" when
    it is equal or earlier.  A fetch that raises, and a frame of fewer than
    two candles, answer "not new" and leave the engine state as it was. *)
Theorem candle_change_policy (w : Collaborators) (symbol tf : string)
    (s : EngineState) :
  let r := detect_new_candle w symbol tf s in
  let cursor := _last_candle_time s !! (symbol, tf) in
  let cursor' := _last_candle_time (state_of r) !! (symbol, tf) in
  (forall df t,
      get_candles w symbol tf 200 = Ret df ->
      df_empty df = false -> (2 <= df_len df)%nat ->
      last (df_index df) = Some t ->
      (cursor = None -> result_of r = Ret true /\ cursor' = Some t) /\
      (forall prev, cursor = Some prev -> prev < t ->
                    result_of r = Ret true /\ cursor' = Some t) /\
      (forall prev, cursor = Some prev -> t <= prev ->
                    result_of r = Ret false)) /\
  (forall df,
      get_candles w symbol tf 200 = Ret df -> (df_len df < 2)%nat ->
      result_of r = Ret false /\ state_of r = s) /\
  (forall e,
      get_candles w symbol tf 200 = Raise e ->
      result_of r = Ret false /\ state_of r = s).
Proof.
  cbv zeta. rewrite detect_new_candle_unfold. split; [|split].
  - intros df t Hget Hne Hlen Hlast.
    rewrite Hget, (accepted_latest_frame df t Hne Hlen Hlast).
    unfold result_of, state_of. simpl.
    split; [|split].
    + intros Hc. rewrite Hc. split; [reflexivity|apply lookup_insert_eq].
    + intros prev Hc Hlt. rewrite Hc. split; [|apply lookup_insert_eq].
      f_equal. apply Z.gtb_lt. exact Hlt.
    + intros prev Hc Hle. rewrite Hc. f_equal.
      rewrite Z.gtb_ltb. apply Z.ltb_ge. exact Hle.
  - intros df Hget Hlen. rewrite Hget, (accepted_latest_short df Hlen).
    split; reflexivity.
  - intros e Hget. rewrite Hget. split; reflexivity.
Qed.

Lemma candle_change_policy_witness :
  result_of (detect_new_candle (feed_world [100; 200]) "EURUSD" "M15"
               initial_state) = Ret true /\
  _last_candle_time
    (state_of (detect_new_candle (feed_world [100; 200]) "EURUSD" "M15"
                 initial_state)) !! ("EURUSD", "M15") = Some 200.
Proof.
  destruct (candle_change_policy (feed_world [100; 200]) "EURUSD" "M15"
              initial_state) as [Hnew _].
  destruct (Hnew (frame [100; 200]) 200) as [Hfirst _].
  - reflexivity.
  - reflexivity.
  - vm_compute. lia.
  - reflexivity.
  - apply Hfirst. reflexivity.
Defined.

(** C3, as stated, fails: a frame whose latest timestamp (100) is earlier
    than the stored cursor (200) moves the cursor back to 100. *)
Lemma cursor_moves_back_on_earlier_frame :
  _last_candle_time (with_cursor "EURUSD" "M15" 200) !! ("EURUSD", "M15")
  = Some 200 /\
  accepted_latest (get_candles (feed_world [50; 100]) "EURUSD" "M15" 200)
  = Some 100 /\
  _last_candle_time
    (detect_cycles [feed_world [50; 100]] "EURUSD" "M15"
       (with_cursor "EURUSD" "M15" 200)) !! ("EURUSD", "M15")
  = Some 100.
Proof. repeat split. Qed.

(** C3 (amended): the loop stores the latest timestamp of every accepted
    fetch, whatever the cursor was.  So the cursor of a key is non-decreasing
    across cycles when the timestamps the feed delivers for the key, from
    the initial cursor on, never go back: the cursor after any cycle is at
    most the cursor after any later cycle. *)
Theorem cursor_monotone_on_monotone_feed (earlier later : list Collaborators)
    (symbol tf : string) (s : EngineState) (q q' : Z) :
  Sorted Z.le (option_list (_last_candle_time s !! (symbol, tf))
               ++ feed_stamps (earlier ++ later) symbol tf) ->
  _last_candle_time (detect_cycles earlier symbol tf s) !! (symbol, tf) = Some q ->
  _last_candle_time (detect_cycles (earlier ++ later) symbol tf s) !! (symbol, tf)
  = Some q' ->
  q <= q'.
Proof.
  intros Hs Hq Hq'.
  rewrite cursor_after_cycles in Hq, Hq'.
  unfold feed_stamps in *. rewrite omap_app in Hs, Hq'.
  rewrite app_assoc in Hs, Hq'.
  exact (sorted_last_prefix _ _ q q' Hs Hq Hq').
Qed.

Lemma cursor_monotone_on_monotone_feed_witness :
  _last_candle_time
    (detect_cycles [feed_world [50; 100]] "EURUSD" "M15"
       (with_cursor "EURUSD" "M15" 90)) !! ("EURUSD", "M15") = Some 100 /\
  _last_candle_time
    (detect_cycles ([feed_world [50; 100]] ++ [feed_world [200; 300]])
       "EURUSD" "M15" (with_cursor "EURUSD" "M15" 90)) !! ("EURUSD", "M15")
  = Some 300 /\
  100 <= 300.
Proof.
  split; [reflexivity|]. split; [reflexivity|].
  apply (cursor_monotone_on_monotone_feed
           [feed_world [50; 100]] [feed_world [200; 300]]
           "EURUSD" "M15" (with_cursor "EURUSD" "M15" 90)).
  - vm_compute. repeat constructor; discriminate.
  - reflexivity.
  - reflexivity.
Defined.

(** ** Invariants of the trace of calls *)

Section TraceRules.

Context {A B : Type} (P : Call -> Prop).

Lemma calls_ret (a : A) : calls_satisfy P (ret a).
Proof. intros s. constructor. Qed.

Lemma calls_raise (e : exn) : calls_satisfy P (raise (A := A) e).
Proof. intros s. constructor. Qed.

Lemma calls_lift (o : outcome A) : calls_satisfy P (lift o).
Proof. intros s. constructor. Qed.

Lemma calls_gets (f : EngineState -> A) : calls_satisfy P (gets f).
Proof. intros s. constructor. Qed.

Lemma calls_modify (f : EngineState -> EngineState) : calls_satisfy P (modify f).
Proof. intros s. constructor. Qed.

Lemma calls_call (c : Call) (o : outcome A) : P c -> calls_satisfy P (call c o).
Proof. intros H s. repeat constructor. exact H. Qed.

Lemma calls_pop (ticket : Z) :
  P (PopOpenTrade ticket) -> calls_satisfy P (pop_open_trade ticket).
Proof.
  intros H s. unfold pop_open_trade.
  destruct (_open_trades s !! ticket); repeat constructor. exact H.
Qed.

Lemma calls_bind (m : M A) (k : A -> M B) :
  calls_satisfy P m -> (forall a, calls_satisfy P (k a)) ->
  calls_satisfy P (bind m k).
Proof.
  intros Hm Hk s. unfold bind. specialize (Hm s).
  destruct (m s) as [[[a|e] s1] t1]; simpl in *; [|exact Hm].
  specialize (Hk a s1). destruct (k a s1) as [[r s2] t2]; simpl in *.
  apply Forall_app. split; assumption.
Qed.

(** After a call, the rest runs on what the call returned. *)
Lemma calls_bind_call (c : Call) (o : outcome A) (k : A -> M B) :
  P c -> (forall a, o = Ret a -> calls_satisfy P (k a)) ->
  calls_satisfy P (bind (call c o) k).
Proof.
  intros Hc Hk s. unfold bind, call. destruct o as [a|e].
  - specialize (Hk a eq_refl s). destruct (k a s) as [[r s2] t2].
    simpl in *. constructor; assumption.
  - repeat constructor. exact Hc.
Qed.

Lemma calls_try_except (m : M A) (h : exn -> M A) :
  calls_satisfy P m -> (forall e, calls_satisfy P (h e)) ->
  calls_satisfy P (try_except m h).
Proof.
  intros Hm Hh s. unfold try_except. specialize (Hm s).
  destruct (m s) as [[[a|e] s1] t1]; simpl in *; [exact Hm|].
  specialize (Hh e s1). destruct (h e s1) as [[r s2] t2]; simpl in *.
  apply Forall_app. split; assumption.
Qed.

End TraceRules.

Lemma calls_for_each {A : Type} (P : Call -> Prop) (body : A -> M unit)
    (l : list A) :
  (forall x, calls_satisfy P (body x)) -> calls_satisfy P (for_each body l).
Proof.
  intros H. induction l as [|x rest IH]; simpl.
  - apply calls_ret.
  - apply calls_bind; [apply H|intros _; exact IH].
Qed.

(** Follows the structure of a computation of the loop, leaving one goal per
    call it makes. *)
Ltac walk_calls :=
  repeat match goal with
         | |- calls_satisfy _ (ret _) => apply calls_ret
         | |- calls_satisfy _ (raise _) => apply calls_raise
         | |- calls_satisfy _ (lift _) => apply calls_lift
         | |- calls_satisfy _ (gets _) => apply calls_gets
         | |- calls_satisfy _ (modify _) => apply calls_modify
         | |- calls_satisfy _ (call _ _) => apply calls_call
         | |- calls_satisfy _ (pop_open_trade _) => apply calls_pop
         | |- calls_satisfy _ (bind _ _) => apply calls_bind; [|intros ?]
         | |- calls_satisfy _ (try_except _ _) =>
             apply calls_try_except; [|intros ?]
         | |- calls_satisfy _ (for_each _ _) => apply calls_for_each; intros ?
         | |- calls_satisfy _ (match ?x with _ => _ end) => destruct x eqn:?
         | |- calls_satisfy _ (let '(_, _) := ?x in _) => destruct x eqn:?
         | |- calls_satisfy _ ((fun _ => _) _) => cbv beta
         end.

(** ** SL/TP enforcement *)

Lemma fleb_zero_false (x : float) : fleb x (Num 0) = false <-> not_le_zero x.
Proof.
  destruct x as [q|]; cbn [fleb not_le_zero]; [apply Qleb_false_lt|tauto].
Qed.

Lemma fleb_zero_true (x : float) :
  fleb x (Num 0) = true <-> exists q, x = Num q /\ (q <= 0)%Q.
Proof.
  destruct x as [q|]; cbn [fleb].
  - rewrite Qleb_le. split; [eauto|]. intros (q' & H & Hq). injection H as ->.
    exact Hq.
  - split; [discriminate|]. intros (q' & H & _). discriminate H.
Qed.

Lemma not_le_zero_number (x : float) :
  not_le_zero x -> isna x = false -> positive x.
Proof. destruct x as [q|]; cbn; [auto|discriminate]. Qed.

Lemma positive_not_le_zero (x : float) : positive x -> not_le_zero x.
Proof. destruct x as [q|]; cbn; [auto|contradiction]. Qed.

Lemma present_None (p : option float) : present p = None <-> lacking p.
Proof.
  unfold present, lacking. destruct p as [[x|]|]; cbn [fleb]; [|split; [discriminate|contradiction]|tauto].
  destruct (Qleb x 0) eqn:E.
  - apply Qleb_le in E. tauto.
  - apply Qleb_false_lt in E. split; [discriminate|].
    intros H. exfalso. exact (Qlt_not_le _ _ E H).
Qed.

Lemma present_kept (p : option float) (x : float) :
  present p = Some x <-> p = Some x /\ not_le_zero x.
Proof.
  unfold present. destruct p as [y|]; [|split; [discriminate|intros [H _]; discriminate H]].
  destruct (fleb y (Num 0)) eqn:E.
  - split; [discriminate|]. intros [H Hx]. injection H as ->.
    apply fleb_zero_false in Hx. congruence.
  - apply fleb_zero_false in E. split.
    + intros H. injection H as ->. auto.
    + intros [H _]. exact H.
Qed.

Lemma usable_atr_None (a : option Q) : no_atr a -> usable_atr a = None.
Proof.
  unfold usable_atr, no_atr. destruct a as [x|]; [|reflexivity].
  intros H. unfold Qgtb, Qltb. apply Qle_bool_iff in H. rewrite H.
  rewrite andb_false_r. reflexivity.
Qed.

Lemma final_validation_guarded (sl tp sl' tp' : float) :
  final_validation sl tp = inr (sl', tp') ->
  sl' = sl /\ tp' = tp /\ not_le_zero sl /\ not_le_zero tp.
Proof.
  unfold final_validation.
  destruct (fleb sl (Num 0)) eqn:Es; [discriminate|].
  destruct (fleb tp (Num 0)) eqn:Et; [discriminate|].
  cbn [orb]. intros H. inversion H. subst.
  apply fleb_zero_false in Es, Et. auto.
Qed.

Lemma enforce_sl_tp_guarded (cfg : SymbolConfig) (a : option Q) (sig : Signal)
    (sl tp : float) :
  enforce_sl_tp cfg a sig = inr (sl, tp) -> not_le_zero sl /\ not_le_zero tp.
Proof.
  unfold enforce_sl_tp. intros H.
  repeat match type of H with
         | context [match ?x with _ => _ end] => destruct x
         end;
    try discriminate;
    apply final_validation_guarded in H;
    destruct H as (-> & -> & Hsl & Htp); split; assumption.
Qed.

Lemma enforce_sl_tp_number_prices (cfg : SymbolConfig) (a : option Q)
    (sig : Signal) (sl tp : float) :
  number_prices sig ->
  enforce_sl_tp cfg a sig = inr (sl, tp) -> positive sl /\ positive tp.
Proof.
  intros (Hentry & Hsl & Htp) H.
  pose proof (enforce_sl_tp_guarded cfg a sig sl tp H) as [Gsl Gtp].
  assert (isna sl = false /\ isna tp = false) as [Nsl Ntp].
  { revert H. unfold enforce_sl_tp.
    destruct (present (stop_loss sig)) as [ksl|] eqn:Esl;
      destruct (present (take_profit sig)) as [ktp|] eqn:Etp;
      try (apply present_kept in Esl as [Esl _]; apply Hsl in Esl);
      try (apply present_kept in Etp as [Etp _]; apply Htp in Etp);
      destruct (usable_atr a) as [atr|];
      try discriminate;
      intros H; apply final_validation_guarded in H as (-> & -> & _ & _);
      destruct (entry_price sig) as [entry|]; try discriminate Hentry;
      destruct (is_buy (sig_direction sig)); cbn; auto. }
  split; apply not_le_zero_number; assumption.
Qed.

Lemma enforce_sl_tp_no_atr (cfg : SymbolConfig) (a : option Q) (sig : Signal) :
  lacking (stop_loss sig) \/ lacking (take_profit sig) ->
  no_atr a ->
  enforce_sl_tp cfg a sig = inl skipped_no_sl_tp.
Proof.
  intros Hp Ha. unfold enforce_sl_tp.
  rewrite (usable_atr_None a Ha).
  destruct Hp as [Hp|Hp]; apply present_None in Hp; rewrite Hp.
  - destruct (present (take_profit sig)); reflexivity.
  - destruct (present (stop_loss sig)); reflexivity.
Qed.

Lemma process_binding_guarded_stops (w : Collaborators) (b : Binding)
    (symbol : string) (fallback_atr : option Q) (regime : option string)
    (new_candle : bool) :
  calls_satisfy guarded_stops
    (process_binding w b symbol fallback_atr regime new_candle).
Proof.
  unfold process_binding, record_trade, _get_or_create_master_id.
  walk_calls; try exact I.
  simpl. eapply enforce_sl_tp_guarded. eassumption.
Qed.

Lemma process_binding_positive_stops (w : Collaborators) (b : Binding)
    (symbol : string) (fallback_atr : option Q) (regime : option string)
    (new_candle : bool) :
  (forall signal,
      run_cycle w (strat_key b) symbol = Ret (Some signal) ->
      number_prices signal) ->
  calls_satisfy positive_stops
    (process_binding w b symbol fallback_atr regime new_candle).
Proof.
  intros Hnum. unfold process_binding. cbv zeta.
  destruct new_candle; cbn [negb]; [|apply calls_ret].
  apply calls_try_except; [|intros e; walk_calls; exact I].
  destruct (is_active b); cbn [negb]; [|apply calls_ret].
  apply calls_bind_call; [exact I|].
  intros [signal|] Hrun; [|apply calls_ret].
  specialize (Hnum signal Hrun).
  destruct (enforce_sl_tp _ _ _) as [status|[sl tp]] eqn:Henf;
    [apply calls_ret|].
  unfold record_trade, _get_or_create_master_id.
  walk_calls; try exact I.
  simpl. eapply enforce_sl_tp_number_prices; eassumption.
Qed.

(** C1: the enforcement lets a NaN through.  The strategy returns a BUY
    at 1.1 with a NaN stop-loss and a take-profit of 1.2; [nan <= 0] is
    false in the test for a missing stop and in the final validation, the
    risk manager approves, and [open_position] is called with the NaN
    stop-loss. *)
Theorem nan_stop_loss_is_submitted :
  process_binding (trading_world nan_stop_signal approval true) eurusd_d
    "EURUSD" (Some (10 # 10000)) None true initial_state
  = (Ret (summary_entry BUY (Num (11 # 10)) NaN (Num (12 # 10))),
     set_open_trades
       {[ 7 := mkTradeInfo 501 "D" "EURUSD" BUY ]}
       (set_cached_master_id 1 initial_state),
     [CallRunCycle "EURUSD_D" "EURUSD";
      CallPreTradeCheck "EURUSD" BUY NaN;
      CallOpenPosition "EURUSD" BUY (1 # 100) NaN (Num (12 # 10)) "JSR_EURUSD_D";
      CallPublish (TRADE_OPENED "EURUSD_D" "EURUSD" BUY (1 # 100)
                     (Some (11 # 10)) NaN (Num (12 # 10)) (Some 7) (Some 1000));
      CallBrain (BrainOpened "EURUSD_D" "EURUSD" BUY (1 # 100) (Some (11 # 10))
                   (Some 7) None);
      CallDbSession; CallDbFindMaster;
      CallDbCreateTrade 1
        {| tc_symbol := "EURUSD"; tc_direction := BUY; tc_lots := 1 # 100;
           tc_entry_price := Num (11 # 10); tc_stop_loss := NaN;
           tc_take_profit := Num (12 # 10); tc_strategy_code := "D";
           tc_reason := "Signal from EURUSD_D" |};
      CallDbMarkOpen 501 (Some 7)]).
Proof. reflexivity. Qed.

(** What the enforcement does ensure.  In a binding's turn, for both stops
    of every call of [open_position] the test [<= 0] is false: each is a
    strictly positive number or NaN, and both are strictly positive numbers
    when the prices the signal gives are numbers.  A signal whose stop-loss
    or take-profit is missing or a number that is not positive, in a cycle
    with no ATR for the symbol, is dropped with the status
    [skipped_no_sl_tp] after the strategy call: neither the risk manager nor
    the order manager is called. *)
Theorem sl_tp_enforced_before_submission (w : Collaborators) (b : Binding)
    (symbol : string) (fallback_atr : option Q) (regime : option string)
    (new_candle : bool) (s : EngineState) :
  let r := process_binding w b symbol fallback_atr regime new_candle s in
  (forall sym dir lots sl tp comment,
      CallOpenPosition sym dir lots sl tp comment ∈ trace_of r ->
      not_le_zero sl /\ not_le_zero tp) /\
  (forall signal,
      new_candle = true -> is_active b = true ->
      run_cycle w (strat_key b) symbol = Ret (Some signal) ->
      lacking (stop_loss signal) \/ lacking (take_profit signal) ->
      no_atr fallback_atr ->
      r = (Ret skipped_no_sl_tp, s, [CallRunCycle (strat_key b) symbol])).
Proof.
  cbv zeta. split.
  - intros sym dir lots sl tp comment Hin.
    pose proof (process_binding_guarded_stops w b symbol fallback_atr regime
                  new_candle s) as Hall.
    rewrite Forall_forall in Hall. exact (Hall _ Hin).
  - intros signal -> Hact Hrun Hmiss Hatr.
    unfold process_binding, try_except, bind, call. simpl negb. cbv iota.
    rewrite Hact. simpl negb. cbv iota. rewrite Hrun.
    rewrite (enforce_sl_tp_no_atr _ _ _ Hmiss Hatr). reflexivity.
Qed.

Lemma sl_tp_enforced_before_submission_witness :
  process_binding (trading_world bare_signal approval true) eurusd_d "EURUSD"
    None None true initial_state
  = (Ret skipped_no_sl_tp, initial_state, [CallRunCycle "EURUSD_D" "EURUSD"]).
Proof.
  apply (proj2 (sl_tp_enforced_before_submission
                  (trading_world bare_signal approval true) eurusd_d "EURUSD"
                  None None true initial_state) bare_signal).
  - reflexivity.
  - reflexivity.
  - reflexivity.
  - left. exact I.
  - exact I.
Defined.

(** ** The risk gate *)

(** Runs the loop's monad one layer further. *)
Ltac run_loop :=
  unfold try_except, bind, call, ret, raise, lift, gets, modify,
    trace_of, state_of, result_of;
  cbn [negb andb orb fst snd app].

(** Decides membership of a call in an explicit trace. *)
Ltac trace_mem :=
  repeat match goal with
         | |- _ /\ _ => split
         | |- _ ∈ _ :: _ => first [apply list_elem_of_here | apply list_elem_of_further]
         | |- _ ∉ _ => let H := fresh in intros H
         | |- forall _, _ => intro
         | H : _ ∈ _ :: _ |- _ =>
             apply elem_of_cons in H; destruct H as [H|H]; [discriminate H|]
         | H : _ ∈ [] |- _ => exact (False_ind _ (proj1 (elem_of_nil _) H))
         end.

(** C4: when the risk manager answers [approved = false] for a signal that
    passed the SL/TP enforcement, the turn publishes [TRADE_REJECTED] with the
    binding, the symbol and the reason of the risk check, and never calls
    [open_position]. *)
Theorem rejected_signal_is_never_submitted (w : Collaborators) (b : Binding)
    (symbol : string) (fallback_atr : option Q) (regime : option string)
    (s : EngineState) (signal : Signal) (sl tp : float)
    (risk_check : RiskCheckResult) :
  is_active b = true ->
  run_cycle w (strat_key b) symbol = Ret (Some signal) ->
  enforce_sl_tp (symbol_config symbol) fallback_atr signal = inr (sl, tp) ->
  pre_trade_check w (sig_symbol signal) (sig_direction signal)
    (fabs (fsub (entry_price signal) sl)) = Ret risk_check ->
  approved risk_check = false ->
  let r := process_binding w b symbol fallback_atr regime true s in
  CallPreTradeCheck (sig_symbol signal) (sig_direction signal)
    (fabs (fsub (entry_price signal) sl)) ∈ trace_of r /\
  CallPublish (TRADE_REJECTED (strat_key b) (sig_symbol signal) (reason risk_check))
    ∈ trace_of r /\
  (forall sym dir lots sl' tp' comment,
      CallOpenPosition sym dir lots sl' tp' comment ∉ trace_of r) /\
  state_of r = s.
Proof.
  intros Hact Hrun Henf Hrisk Happ.
  unfold process_binding. rewrite Hact. run_loop.
  rewrite Hrun. run_loop. rewrite Henf. run_loop.
  rewrite Hrisk. run_loop. rewrite Happ. run_loop.
  destruct (publish w (TRADE_REJECTED _ _ _)) as [[]|e]; run_loop;
    try match goal with
        | |- context [publish w ?ev] => destruct (publish w ev) as [[]|e']
        end;
    run_loop; trace_mem; reflexivity.
Qed.

Lemma rejected_signal_is_never_submitted_witness :
  CallPublish (TRADE_REJECTED "EURUSD_D" "EURUSD" "kill switch active")
    ∈ trace_of (process_binding (trading_world full_signal rejection true)
                  eurusd_d "EURUSD" None None true initial_state) /\
  (forall sym dir lots sl' tp' comment,
      CallOpenPosition sym dir lots sl' tp' comment
        ∉ trace_of (process_binding (trading_world full_signal rejection true)
                      eurusd_d "EURUSD" None None true initial_state)).
Proof.
  destruct (rejected_signal_is_never_submitted
              (trading_world full_signal rejection true) eurusd_d "EURUSD"
              None None initial_state full_signal (Num 1) (Num (12 # 10))
              rejection)
    as (_ & Hpub & Hnone & _).
  - reflexivity.
  - reflexivity.
  - reflexivity.
  - reflexivity.
  - reflexivity.
  - split; [exact Hpub|exact Hnone].
Defined.

(** ** Trade recording *)

(** Splits on every answer the computation in the goal waits for. *)
Ltac split_answers :=
  repeat match goal with
         | |- context [match ?x with _ => _ end] =>
             lazymatch x with
             | context [match _ with _ => _ end] => fail
             | _ => destruct x eqn:?
             end
         end.

(** Finds a call in an explicit trace. *)
Ltac trace_has :=
  solve [repeat first [apply list_elem_of_here | apply list_elem_of_further]].

(** What [record_trade] does to [_open_trades]: nothing when it raises; when
    it returns, the ticket of the order (if it has one that is not zero) is
    bound to the identifier [create_trade] returned for the trade of the
    signal, the row that was then marked open with the ticket. *)
Lemma record_trade_open_trades (w : Collaborators) (key : string)
    (signal : Signal) (risk_check : RiskCheckResult) (order : OrderResult)
    (sl tp : float) (s : EngineState) :
  let r := record_trade w key signal risk_check order sl tp s in
  (forall e, result_of r = Raise e -> _open_trades (state_of r) = _open_trades s) /\
  (forall ticket,
      result_of r = Ret tt -> or_ticket order = Some ticket -> ticket <> 0 ->
      exists master_id trade_create id,
        create_trade w master_id trade_create = Ret id /\
        CallDbCreateTrade master_id trade_create ∈ trace_of r /\
        CallDbMarkOpen id (Some ticket) ∈ trace_of r /\
        tc_symbol trade_create = sig_symbol signal /\
        tc_direction trade_create = sig_direction signal /\
        tc_lots trade_create = position_size risk_check /\
        tc_stop_loss trade_create = sl /\
        tc_take_profit trade_create = tp /\
        tc_strategy_code trade_create = strategy_code_of key /\
        _open_trades (state_of r)
        = <[ticket := {| trade_id := id;
                         strategy_code := strategy_code_of key;
                         ti_symbol := sig_symbol signal;
                         ti_direction := sig_direction signal |}]>
            (_open_trades s)).
Proof.
  cbv zeta. unfold record_trade, _get_or_create_master_id. run_loop.
  split.
  - intros e. split_answers; cbn [fst snd]; intros H;
      try discriminate H; reflexivity.
  - intros ticket. split_answers; cbn [fst snd app]; intros H Ht Hne;
      try discriminate H; try discriminate Ht;
      try (injection Ht as ->);
      try match goal with
          | E : negb (_ =? 0) = false |- _ =>
              apply negb_false_iff, Z.eqb_eq in E; contradiction
          end;
      do 3 eexists;
      (split; [eassumption|]);
      (split; [trace_has|]);
      (split; [trace_has|]);
      repeat split.
Qed.

(** C2, as stated, fails: the order is filled with ticket 7, the storage
    raises, and [_open_trades] has no entry for ticket 7 at the end of the
    turn. *)
Lemma ticket_untracked_when_storage_raises :
  open_position storage_down_world "EURUSD" BUY (1 # 100) (Num (1 # 1))
    (Num (12 # 10)) "JSR_EURUSD_D" = Ret (Some (filled 7)) /\
  CallOpenPosition "EURUSD" BUY (1 # 100) (Num (1 # 1)) (Num (12 # 10))
    "JSR_EURUSD_D"
    ∈ trace_of storage_down_turn /\
  result_of (record_trade storage_down_world "EURUSD_D" full_signal approval
               (filled 7) (Num (1 # 1)) (Num (12 # 10)) initial_state)
  = Raise "OperationalError" /\
  result_of storage_down_turn
  = Ret (summary_entry BUY (Num (11 # 10)) (Num (1 # 1)) (Num (12 # 10))) /\
  _open_trades (state_of storage_down_turn) !! 7 = None.
Proof.
  repeat split.
  vm_compute. do 2 apply list_elem_of_further. apply list_elem_of_here.
Qed.

(** C2 (amended): after an order is filled with a ticket and [TRADE_OPENED]
    is published, the entry of [_open_trades] is written as the last step of
    the database recording.  When the recording returns and the ticket is
    not zero, the ticket is bound to the id of the trade row: the id that
    [create_trade] returned, in this turn, for the trade of the signal
    (symbol, direction, lot size, enforced stops, strategy code), and under
    which the row was marked open with the ticket; the entry carries the
    strategy code, the symbol and the direction of the signal.  When the
    recording raises, the error is swallowed: the turn ends with its summary
    entry, the order stays placed, and [_open_trades] is what it was before
    the turn, so the ticket is not tracked. *)
Theorem ticket_tracked_once_persisted (w : Collaborators) (b : Binding)
    (symbol : string) (fallback_atr : option Q) (regime : option string)
    (s : EngineState) (signal : Signal) (sl tp : float)
    (risk_check : RiskCheckResult) (order : OrderResult) (ticket : Z) :
  let sym := sig_symbol signal in
  let dir := sig_direction signal in
  let lots := position_size risk_check in
  let comment := String.substring 0 31 ("JSR_" +:+ strat_key b) in
  is_active b = true ->
  run_cycle w (strat_key b) symbol = Ret (Some signal) ->
  enforce_sl_tp (symbol_config symbol) fallback_atr signal = inr (sl, tp) ->
  pre_trade_check w sym dir (fabs (fsub (entry_price signal) sl))
  = Ret risk_check ->
  approved risk_check = true ->
  open_position w sym dir lots sl tp comment = Ret (Some order) ->
  or_ticket order = Some ticket ->
  publish w (TRADE_OPENED (strat_key b) sym dir lots (or_price order) sl tp
               (or_ticket order) (or_time order)) = Ret tt ->
  let r := process_binding w b symbol fallback_atr regime true s in
  let recording := record_trade w (strat_key b) signal risk_check order sl tp s in
  result_of r = Ret (summary_entry dir (entry_price signal) sl tp) /\
  CallOpenPosition sym dir lots sl tp comment ∈ trace_of r /\
  (forall e, result_of recording = Raise e ->
             _open_trades (state_of r) = _open_trades s) /\
  (result_of recording = Ret tt -> ticket <> 0 ->
   exists master_id trade_create id,
     create_trade w master_id trade_create = Ret id /\
     CallDbCreateTrade master_id trade_create ∈ trace_of r /\
     CallDbMarkOpen id (Some ticket) ∈ trace_of r /\
     tc_symbol trade_create = sym /\
     tc_direction trade_create = dir /\
     tc_lots trade_create = lots /\
     tc_stop_loss trade_create = sl /\
     tc_take_profit trade_create = tp /\
     tc_strategy_code trade_create = strategy_code_of (strat_key b) /\
     _open_trades (state_of r)
     = <[ticket := {| trade_id := id;
                      strategy_code := strategy_code_of (strat_key b);
                      ti_symbol := sym;
                      ti_direction := dir |}]> (_open_trades s)).
Proof.
  intros sym dir lots comment Hact Hrun Henf Hrisk Happ Hopen Hticket Hpub.
  cbv zeta.
  destruct (record_trade_open_trades w (strat_key b) signal risk_check order
              sl tp s) as [Hfail Hdone].
  specialize (Hdone ticket).
  unfold process_binding. rewrite Hact. run_loop.
  rewrite Hrun. run_loop. rewrite Henf. run_loop.
  fold sym dir. rewrite Hrisk. run_loop. rewrite Happ. run_loop.
  fold lots comment. rewrite Hopen. run_loop. rewrite Hpub. run_loop.
  unfold result_of, state_of, trace_of in Hfail, Hdone.
  destruct (process_trade_result w _) as [[]|e0];
    destruct (record_trade w (strat_key b) signal risk_check order sl tp s)
      as [[[[]|e1] s1] t1];
    cbn [fst snd app] in *;
    (split; [reflexivity|]);
    (split; [do 2 apply list_elem_of_further; apply list_elem_of_here|]);
    (split; [intros e He; first [discriminate He | exact (Hfail e He)]|]);
    intros Hret Hne; try discriminate Hret;
    destruct (Hdone Hret Hticket Hne)
      as (master_id & trade_create & id & Hid & Hcreate & Hmark & Hrest);
    exists master_id, trade_create, id;
    (split; [exact Hid|]);
    (split; [repeat apply list_elem_of_further;
             rewrite ?app_nil_r; exact Hcreate|]);
    (split; [repeat apply list_elem_of_further;
             rewrite ?app_nil_r; exact Hmark|]);
    exact Hrest.
Qed.

Lemma ticket_tracked_once_persisted_witness :
  _open_trades
    (state_of (process_binding (trading_world full_signal approval true)
                 eurusd_d "EURUSD" None None true initial_state))
  = <[7 := {| trade_id := 501; strategy_code := "D";
              ti_symbol := "EURUSD"; ti_direction := BUY |}]> ∅.
Proof.
  destruct (ticket_tracked_once_persisted
              (trading_world full_signal approval true) eurusd_d "EURUSD"
              None None initial_state full_signal (Num 1) (Num (12 # 10))
              approval (filled 7) 7) as (_ & _ & _ & Hdone).
  - reflexivity.
  - reflexivity.
  - reflexivity.
  - reflexivity.
  - reflexivity.
  - reflexivity.
  - reflexivity.
  - reflexivity.
  - destruct Hdone as (master_id & trade_create & id & Hid & _ & _ & _ & _ & _
                       & _ & _ & _ & Hstate); [reflexivity|lia|].
    injection Hid as <-. exact Hstate.
Defined.

(** ** Closure reconciliation *)

Section StateRules.

Context {X A B : Type} (f : EngineState -> X).

Lemma preserves_ret (a : A) : preserves f (ret a).
Proof. intros s. reflexivity. Qed.

Lemma preserves_raise (e : exn) : preserves f (raise (A := A) e).
Proof. intros s. reflexivity. Qed.

Lemma preserves_lift (o : outcome A) : preserves f (lift o).
Proof. intros s. reflexivity. Qed.

Lemma preserves_gets (g : EngineState -> A) : preserves f (gets g).
Proof. intros s. reflexivity. Qed.

Lemma preserves_call (c : Call) (o : outcome A) : preserves f (call c o).
Proof. intros s. reflexivity. Qed.

Lemma preserves_modify (g : EngineState -> EngineState) :
  (forall s, f (g s) = f s) -> preserves f (modify g).
Proof. intros H s. apply H. Qed.

Lemma preserves_pop (ticket : Z) :
  (forall m s, f (set_open_trades m s) = f s) ->
  preserves f (pop_open_trade ticket).
Proof.
  intros H s. unfold pop_open_trade.
  destruct (_open_trades s !! ticket); [apply H|reflexivity].
Qed.

Lemma preserves_bind (m : M A) (k : A -> M B) :
  preserves f m -> (forall a, preserves f (k a)) -> preserves f (bind m k).
Proof.
  intros Hm Hk s. unfold bind. specialize (Hm s).
  destruct (m s) as [[[a|e] s1] t1]; unfold state_of in *; simpl in *;
    [|exact Hm].
  specialize (Hk a s1). destruct (k a s1) as [[r s2] t2].
  unfold state_of in Hk. simpl in *. congruence.
Qed.

Lemma preserves_try_except (m : M A) (h : exn -> M A) :
  preserves f m -> (forall e, preserves f (h e)) ->
  preserves f (try_except m h).
Proof.
  intros Hm Hh s. unfold try_except. specialize (Hm s).
  destruct (m s) as [[[a|e] s1] t1]; unfold state_of in *; simpl in *;
    [exact Hm|].
  specialize (Hh e s1). destruct (h e s1) as [[r s2] t2].
  unfold state_of in Hh. simpl in *. congruence.
Qed.

End StateRules.

Lemma preserves_for_each {X A : Type} (f : EngineState -> X)
    (body : A -> M unit) (l : list A) :
  (forall x, preserves f (body x)) -> preserves f (for_each body l).
Proof.
  intros H. induction l as [|x rest IH]; simpl.
  - apply preserves_ret.
  - apply preserves_bind; [apply H|intros _; exact IH].
Qed.

(** Follows the structure of a computation of the loop, leaving one goal per
    write to the engine state. *)
Ltac walk_state :=
  repeat match goal with
         | |- preserves _ (ret _) => apply preserves_ret
         | |- preserves _ (raise _) => apply preserves_raise
         | |- preserves _ (lift _) => apply preserves_lift
         | |- preserves _ (gets _) => apply preserves_gets
         | |- preserves _ (call _ _) => apply preserves_call
         | |- preserves _ (modify _) => apply preserves_modify; intros ?
         | |- preserves _ (pop_open_trade _) => apply preserves_pop; intros ? ?
         | |- preserves _ (bind _ _) => apply preserves_bind; [|intros ?]
         | |- preserves _ (try_except _ _) =>
             apply preserves_try_except; [|intros ?]
         | |- preserves _ (for_each _ _) => apply preserves_for_each; intros ?
         | |- preserves _ (match ?x with _ => _ end) => destruct x
         | |- preserves _ (let '(_, _) := ?x in _) => destruct x
         | |- preserves _ ((fun _ => _) _) => cbv beta
         end.

(** The three parts of the loop write disjoint parts of the state: the
    detector writes the cursor only, a binding's turn and the reconciliation
    never write it. *)
Lemma detect_new_candle_keeps_trades (w : Collaborators) (symbol tf : string) :
  preserves _open_trades (detect_new_candle w symbol tf).
Proof. unfold detect_new_candle. walk_state. reflexivity. Qed.

Lemma process_binding_keeps_cursor (w : Collaborators) (b : Binding)
    (symbol : string) (fallback_atr : option Q) (regime : option string)
    (new_candle : bool) :
  preserves _last_candle_time
    (process_binding w b symbol fallback_atr regime new_candle).
Proof.
  unfold process_binding, record_trade, _get_or_create_master_id.
  walk_state; reflexivity.
Qed.

Lemma check_closed_positions_keeps_cursor (w : Collaborators) :
  preserves _last_candle_time (_check_closed_positions w).
Proof.
  unfold _check_closed_positions, close_ticket, process_closure,
    fetch_position_data, closing_values.
  walk_state; reflexivity.
Qed.

(** A [try] whose handler is [pass] returns. *)
Lemma try_pass_returns (m : M unit) (s : EngineState) :
  result_of (try_except m (fun _ => ret tt) s) = Ret tt.
Proof.
  unfold try_except, result_of.
  destruct (m s) as [[[[]|e] s1] t1]; reflexivity.
Qed.

Section Reconciliation.

Variable w : Collaborators.

Lemma process_closure_keeps_state (ticket : Z) (info : TradeInfo) :
  preserves (fun s => s) (process_closure w ticket info).
Proof.
  unfold process_closure, fetch_position_data, closing_values.
  walk_state.
Qed.

Lemma closures_started_none (trace : list Call) :
  Forall no_history_request trace -> closures_started trace = [].
Proof.
  induction 1 as [|c rest Hc _ IH]; [reflexivity|].
  destruct c; simpl in Hc; try contradiction; exact IH.
Qed.

Lemma process_closure_starts_once (ticket : Z) (info : TradeInfo)
    (s : EngineState) :
  closures_started (trace_of (process_closure w ticket info s)) = [ticket].
Proof.
  unfold process_closure.
  set (rest := fun position_data : option (gmap string Q) => bind _ _).
  assert (Hrest : forall d, calls_satisfy no_history_request (rest d)).
  { intros d. unfold rest, closing_values. walk_calls; exact I. }
  unfold bind at 1.
  assert (Hfetch : exists d, fetch_position_data w ticket s
                             = (Ret d, s, [CallHistoryDeal ticket])).
  { unfold fetch_position_data. run_loop.
    destruct (history_deal w ticket) as [resp|e]; [|eauto].
    destruct (status_code resp =? 200); [|eauto].
    destruct (json resp); eauto. }
  destruct Hfetch as [d ->].
  specialize (Hrest d s). destruct (rest d s) as [[r s2] t2].
  unfold trace_of in *. cbn [snd app] in *.
  unfold closures_started in *. simpl.
  f_equal. exact (closures_started_none t2 Hrest).
Qed.


Lemma closure_events_app (ticket : Z) (t1 t2 : list Call) :
  closure_events ticket (t1 ++ t2)
  = closure_events ticket t1 ++ closure_events ticket t2.
Proof. apply List.filter_app. Qed.

Lemma closures_started_app (t1 t2 : list Call) :
  closures_started (t1 ++ t2) = closures_started t1 ++ closures_started t2.
Proof. apply omap_app. Qed.

(** The steps of a closure that carry its ticket: the history request,
    then at most one notice to the brain. *)
Lemma process_closure_events_own (ticket : Z) (info : TradeInfo)
    (s : EngineState) :
  exists notices,
    closure_events ticket (trace_of (process_closure w ticket info s))
    = CallHistoryDeal ticket :: notices /\
    (length notices <= 1)%nat.
Proof.
  unfold closure_events, process_closure, fetch_position_data, closing_values.
  run_loop.
  split_answers; cbn [fst snd app List.filter closure_event];
    rewrite ?Z.eqb_refl; eexists; (split; [reflexivity|]); cbn [length]; lia.
Qed.

(** With a storage that answers, the closure is written and the notice is
    sent, with the exit price and the net profit of the write. *)
Lemma process_closure_notice (ticket : Z) (info : TradeInfo) (row : TradeRow)
    (s : EngineState) :
  db_session w = Ret tt ->
  db_get_trade w (trade_id info) = Ret (Some row) ->
  (forall exit_price profit commission swap,
      close_trade w (trade_id info) exit_price profit commission swap = Ret tt) ->
  exists exit_price profit commission swap,
    CallCloseTrade (trade_id info) exit_price profit commission swap
      ∈ trace_of (process_closure w ticket info s) /\
    closure_events ticket (trace_of (process_closure w ticket info s))
    = [CallHistoryDeal ticket;
       closure_notice ticket info row exit_price (profit - commission - swap)].
Proof.
  intros Hsession Hrow Hclose.
  unfold closure_events, closure_notice, process_closure, fetch_position_data,
    closing_values.
  run_loop. rewrite Hsession, Hrow.
  split_answers; cbn [fst snd app List.filter closure_event];
    rewrite ?Z.eqb_refl;
    try match goal with
        | E : close_trade w _ _ _ _ _ = Raise _ |- _ =>
            rewrite Hclose in E; discriminate E
        end;
    do 4 eexists; (split; [trace_has|reflexivity]).
Qed.

(** The closure of another ticket has no step that carries this one. *)
Lemma process_closure_events_other (ticket t : Z) (info : TradeInfo)
    (s : EngineState) :
  t <> ticket ->
  closure_events ticket (trace_of (process_closure w t info s)) = [].
Proof.
  intros Hne. apply Z.eqb_neq in Hne.
  unfold closure_events, process_closure, fetch_position_data, closing_values.
  run_loop.
  split_answers; cbn [fst snd app List.filter closure_event];
    rewrite ?Hne; reflexivity.
Qed.

(** The entry is popped first: the pop is the first step of the turn, and
    the closure is processed from the record without the ticket. *)
Lemma close_ticket_run (ticket : Z) (info : TradeInfo) (s : EngineState) :
  _open_trades s !! ticket = Some info ->
  let s1 := set_open_trades (delete ticket (_open_trades s)) s in
  close_ticket w ticket s
  = (Ret tt, s1,
     PopOpenTrade ticket :: trace_of (process_closure w ticket info s1)).
Proof.
  intros H s1. unfold close_ticket, pop_open_trade, bind.
  rewrite H. fold s1.
  pose proof (process_closure_keeps_state ticket info s1) as Hs.
  unfold try_except, ret.
  destruct (process_closure w ticket info s1) as [[[[]|e] s2] t2];
    unfold state_of, trace_of in *; cbn [fst snd app] in *; subst s2;
    rewrite ?app_nil_r; reflexivity.
Qed.

Lemma pop_all_lookup (tickets : list Z) (m : gmap Z TradeInfo) (k : Z) :
  pop_all m tickets !! k = if decide (k ∈ tickets) then None else m !! k.
Proof.
  revert m. induction tickets as [|t rest IH]; intros m; simpl.
  - destruct (decide (k ∈ [])) as [H|_]; [|reflexivity].
    apply elem_of_nil in H. contradiction.
  - rewrite IH.
    destruct (decide (k ∈ rest)) as [Hin|Hout].
    + rewrite decide_True by (apply elem_of_cons; auto). reflexivity.
    + destruct (decide (k = t)) as [->|Hne].
      * rewrite lookup_delete_eq.
        rewrite decide_True by apply list_elem_of_here. reflexivity.
      * rewrite lookup_delete_ne by congruence.
        rewrite decide_False; [reflexivity|].
        intros [?|?]%elem_of_cons; contradiction.
Qed.

Lemma for_each_close_run (tickets : list Z) :
  forall s,
    NoDup tickets ->
    (forall t, t ∈ tickets -> is_Some (_open_trades s !! t)) ->
    exists trace,
      for_each (close_ticket w) tickets s
      = (Ret tt, set_open_trades (pop_all (_open_trades s) tickets) s, trace)
      /\ closures_started trace = tickets
      /\ (forall ticket, ticket ∉ tickets -> closure_events ticket trace = [])
      /\ (forall ticket info,
             ticket ∈ tickets -> _open_trades s !! ticket = Some info ->
             exists s1,
               closure_events ticket trace
               = PopOpenTrade ticket
                 :: closure_events ticket
                      (trace_of (process_closure w ticket info s1))
               /\ (forall c,
                      c ∈ trace_of (process_closure w ticket info s1) ->
                      c ∈ trace)).
Proof.
  induction tickets as [|t rest IH]; intros s Hnd Hin.
  - exists []. split; [destruct s; reflexivity|]. split; [reflexivity|].
    split; [reflexivity|]. intros ticket info H. apply elem_of_nil in H.
    destruct H.
  - apply NoDup_cons in Hnd as [Hfresh Hnd].
    destruct (Hin t) as [info Hinfo]; [apply list_elem_of_here|].
    pose proof (close_ticket_run t info s Hinfo) as Hrun. cbv zeta in Hrun.
    set (s1 := set_open_trades (delete t (_open_trades s)) s) in *.
    destruct (IH s1 Hnd) as (t2 & Hrest & Hc2 & Hout2 & Hin2).
    { intros k Hk. unfold s1. simpl.
      rewrite lookup_delete_ne by (intros ->; contradiction).
      apply Hin. apply list_elem_of_further. exact Hk. }
    exists ((PopOpenTrade t :: trace_of (process_closure w t info s1)) ++ t2).
    split; [|split; [|split]].
    + simpl. unfold bind. rewrite Hrun, Hrest.
      unfold s1. destruct s; reflexivity.
    + rewrite closures_started_app, Hc2.
      change (closures_started (PopOpenTrade t :: ?l))
        with (closures_started l).
      rewrite process_closure_starts_once. reflexivity.
    + intros ticket Hticket. apply not_elem_of_cons in Hticket as [Hne Hticket].
      rewrite closure_events_app, (Hout2 ticket Hticket), app_nil_r.
      unfold closure_events at 1. cbn [List.filter closure_event].
      assert (E : (t =? ticket) = false) by (apply Z.eqb_neq; congruence).
      rewrite E. apply process_closure_events_other. congruence.
    + intros ticket info' Hticket Hinfo'.
      rewrite closure_events_app.
      destruct (decide (ticket = t)) as [->|Hne].
      * rewrite Hinfo in Hinfo'. injection Hinfo' as <-.
        rewrite (Hout2 t Hfresh), app_nil_r.
        exists s1. split.
        -- unfold closure_events at 1.
           cbn [List.filter closure_event]. rewrite Z.eqb_refl. reflexivity.
        -- intros c Hc. apply elem_of_app. left.
           apply list_elem_of_further. exact Hc.
      * apply elem_of_cons in Hticket as [Hticket|Hticket]; [contradiction|].
        destruct (Hin2 ticket info' Hticket) as (s2 & Hev & Hsub).
        { unfold s1. simpl. rewrite lookup_delete_ne by congruence.
          exact Hinfo'. }
        exists s2. split.
        -- rewrite Hev.
           unfold closure_events at 1. cbn [List.filter closure_event].
           assert (E : (t =? ticket) = false) by (apply Z.eqb_neq; congruence).
           rewrite E.
           fold (closure_events ticket (trace_of (process_closure w t info s1))).
           rewrite process_closure_events_other by congruence. reflexivity.
        -- intros c Hc. apply elem_of_app. right. exact (Hsub c Hc).
Qed.

Section OneBrokerState.

Variable positions : list (option Z).
Hypothesis broker : get_open_positions w = Ret positions.

Let open_tickets : gset (option Z) := list_to_set positions.

Lemma closed_tickets_spec (m : gmap Z TradeInfo) (t : Z) :
  t ∈ closed_tickets m open_tickets
  <-> is_Some (m !! t) /\ Some t ∉ positions.
Proof.
  unfold closed_tickets. rewrite list_elem_of_filter.
  unfold open_tickets. rewrite elem_of_list_to_set.
  rewrite list_elem_of_fmap. split.
  - intros [Hout [[k v] [-> Hkv]]]. split; [|exact Hout].
    apply elem_of_map_to_list in Hkv. simpl. eauto.
  - intros [[v Hv] Hout]. split; [exact Hout|].
    exists (t, v). split; [reflexivity|].
    apply elem_of_map_to_list. exact Hv.
Qed.

Lemma closed_tickets_NoDup (m : gmap Z TradeInfo) :
  NoDup (closed_tickets m open_tickets).
Proof. apply NoDup_filter, NoDup_fst_map_to_list. Qed.

Lemma reconciled_lookup (m : gmap Z TradeInfo) (t : Z) (info : TradeInfo) :
  reconciled positions m !! t = Some info <-> m !! t = Some info /\ Some t ∈ positions.
Proof.
  unfold reconciled. fold open_tickets. rewrite pop_all_lookup.
  destruct (decide (t ∈ closed_tickets m open_tickets)) as [Hin|Hout].
  - apply closed_tickets_spec in Hin as [_ Hout].
    split; [discriminate|tauto].
  - rewrite closed_tickets_spec in Hout. split; [|tauto].
    intros H. split; [exact H|].
    destruct (decide (Some t ∈ positions)) as [Hp|Hp]; [exact Hp|].
    exfalso. apply Hout. eauto.
Qed.

Lemma reconciled_stable (m : gmap Z TradeInfo) :
  closed_tickets (reconciled positions m) open_tickets = [].
Proof.
  destruct (closed_tickets (reconciled positions m) open_tickets) as [|t rest] eqn:E;
    [reflexivity|].
  assert (Hin : t ∈ closed_tickets (reconciled positions m) open_tickets)
    by (rewrite E; apply list_elem_of_here).
  apply closed_tickets_spec in Hin as [[info Hinfo] Hout].
  apply reconciled_lookup in Hinfo as [_ Hp]. contradiction.
Qed.

(** One reconciliation pass against the broker's list. *)
Lemma reconcile_once (s : EngineState) :
  exists trace,
    _check_closed_positions w s
    = (Ret tt, set_open_trades (reconciled positions (_open_trades s)) s, trace)
    /\ closures_started trace = closed_tickets (_open_trades s) open_tickets
    /\ (forall ticket,
           ticket ∉ closed_tickets (_open_trades s) open_tickets ->
           closure_events ticket trace = [])
    /\ (forall ticket info,
           ticket ∈ closed_tickets (_open_trades s) open_tickets ->
           _open_trades s !! ticket = Some info ->
           exists s1,
             closure_events ticket trace
             = PopOpenTrade ticket
               :: closure_events ticket
                    (trace_of (process_closure w ticket info s1))
             /\ (forall c,
                    c ∈ trace_of (process_closure w ticket info s1) ->
                    c ∈ trace)).
Proof.
  unfold _check_closed_positions, bind at 1, gets.
  destruct (bool_decide (_open_trades s = ∅)) eqn:Hempty.
  - apply bool_decide_eq_true in Hempty.
    exists []. unfold reconciled, closed_tickets. rewrite Hempty.
    rewrite map_to_list_empty. split; [|split; [reflexivity|]].
    + simpl. rewrite <- Hempty. destruct s; reflexivity.
    + split; [reflexivity|]. intros ticket info H.
      apply elem_of_nil in H. destruct H.
  - destruct (for_each_close_run (closed_tickets (_open_trades s) open_tickets) s)
      as (t1 & Hrun & Hc & Hout & Hin).
    + apply closed_tickets_NoDup.
    + intros t Ht. apply closed_tickets_spec in Ht. tauto.
    + exists (CallGetOpenPositions :: t1).
      split; [|split; [exact Hc|split]].
      * unfold try_except, bind, call. rewrite broker.
        fold open_tickets. rewrite Hrun. reflexivity.
      * intros ticket Hticket. exact (Hout ticket Hticket).
      * intros ticket info Hticket Hinfo.
        destruct (Hin ticket info Hticket Hinfo) as (s1 & Hev & Hsub).
        exists s1. split; [exact Hev|].
        intros c Hcall. apply list_elem_of_further. exact (Hsub c Hcall).
Qed.

(** Further passes against the same list process nothing. *)
Lemma reconcile_again (n : nat) (s : EngineState) :
  let s1 := set_open_trades (reconciled positions (_open_trades s)) s in
  exists trace,
    reconcile_times w n s1 = (s1, trace) /\ closures_started trace = [] /\
    forall ticket, closure_events ticket trace = [].
Proof.
  intros s1. induction n as [|n (t2 & IH & Hc2 & He2)]; simpl.
  - exists []. repeat split; reflexivity.
  - destruct (reconcile_once s1) as (t1 & Hrun & Hc1 & He1 & _).
    assert (Hstable : closed_tickets (_open_trades s1) open_tickets = []).
    { unfold s1. simpl _open_trades. apply reconciled_stable. }
    assert (Hsame : set_open_trades (reconciled positions (_open_trades s1)) s1 = s1).
    { unfold reconciled at 1. fold open_tickets. rewrite Hstable.
      unfold s1. destruct s; reflexivity. }
    rewrite Hsame in Hrun. rewrite Hrun.
    unfold state_of, trace_of. cbn [fst snd]. rewrite IH.
    exists (t1 ++ t2). split; [reflexivity|]. split.
    + rewrite closures_started_app, Hc1, Hc2, Hstable. reflexivity.
    + intros ticket. rewrite closure_events_app, He2, app_nil_r.
      apply He1. rewrite Hstable. apply not_elem_of_nil.
Qed.

End OneBrokerState.

End Reconciliation.

(** C6: a ticket of [_open_trades] that the broker's list of open positions
    does not contain is popped from the record before its closure is
    processed, and over any number of reconciliation passes against the same
    broker state its closure is processed exactly once and the ticket stays
    out of the record.  Of the steps of all these passes that carry the
    ticket, the first is its removal from the record, the second the history
    request that opens the processing of its closure, and the rest is at
    most one notice to the brain.  When the storage answers (the session
    opens, the trade row is found and [close_trade] returns), the closure is
    written with [close_trade] under the trade id of the entry, and the
    rest is exactly the notice of this closure, with the exit price of the
    write and the net profit [profit - commission - swap] of its figures. *)
Theorem closure_processed_exactly_once (w : Collaborators) (s : EngineState)
    (positions : list (option Z)) (passes : nat) (ticket : Z) (info : TradeInfo) :
  get_open_positions w = Ret positions ->
  _open_trades s !! ticket = Some info ->
  Some ticket ∉ positions ->
  let final := reconcile_times w (S passes) s in
  _open_trades (fst final) !! ticket = None /\
  count_occ Z.eq_dec (closures_started (snd final)) ticket = 1%nat /\
  exists notices,
    closure_events ticket (snd final)
    = PopOpenTrade ticket :: CallHistoryDeal ticket :: notices /\
    (length notices <= 1)%nat /\
    (forall row,
        db_session w = Ret tt ->
        db_get_trade w (trade_id info) = Ret (Some row) ->
        (forall exit_price profit commission swap,
            close_trade w (trade_id info) exit_price profit commission swap
            = Ret tt) ->
        exists exit_price profit commission swap,
          CallCloseTrade (trade_id info) exit_price profit commission swap
            ∈ snd final /\
          notices = [closure_notice ticket info row exit_price
                       (profit - commission - swap)]).
Proof.
  intros Hbroker Hinfo Hclosed. cbv zeta.
  destruct (reconcile_once w positions Hbroker s)
    as (t1 & Hrun & Hc1 & _ & He1).
  destruct (reconcile_again w positions Hbroker passes s)
    as (t2 & Hrest & Hc2 & He2).
  cbv zeta in Hrest.
  simpl reconcile_times. rewrite Hrun.
  unfold state_of, trace_of. cbn [fst snd]. rewrite Hrest. cbn [fst snd].
  assert (Hin : ticket ∈ closed_tickets (_open_trades s) (list_to_set positions)).
  { apply closed_tickets_spec. eauto. }
  split; [|split].
  - simpl. unfold reconciled. rewrite pop_all_lookup.
    rewrite decide_True by exact Hin. reflexivity.
  - rewrite closures_started_app, Hc1, Hc2, app_nil_r.
    apply NoDup_count_occ'.
    + apply NoDup_ListNoDup, closed_tickets_NoDup.
    + apply list_elem_of_In. exact Hin.
  - destruct (He1 ticket info Hin Hinfo) as (s1 & Hev & Hsub).
    rewrite closure_events_app, He2, app_nil_r, Hev.
    destruct (process_closure_events_own w ticket info s1)
      as (notices & Hown & Hlen).
    exists notices. rewrite Hown. split; [reflexivity|]. split; [exact Hlen|].
    intros row Hsession Hrow Hclose.
    destruct (process_closure_notice w ticket info row s1 Hsession Hrow Hclose)
      as (exit_price & profit & commission & swap & Hwrite & Hnotice).
    rewrite Hown in Hnotice. injection Hnotice as ->.
    exists exit_price, profit, commission, swap.
    split; [|reflexivity].
    apply elem_of_app. left. exact (Hsub _ Hwrite).
Qed.

Lemma closure_processed_exactly_once_witness :
  _open_trades (fst (reconcile_times closing_world 3 two_trades)) !! 7 = None /\
  exists exit_price profit commission swap,
    CallCloseTrade 501 exit_price profit commission swap
      ∈ snd (reconcile_times closing_world 3 two_trades) /\
    closure_events 7 (snd (reconcile_times closing_world 3 two_trades))
    = [PopOpenTrade 7; CallHistoryDeal 7;
       closure_notice 7 (mkTradeInfo 501 "D" "EURUSD" BUY)
         (mkTradeRow 501 (11 # 10)) exit_price (profit - commission - swap)].
Proof.
  destruct (closure_processed_exactly_once closing_world two_trades [Some 8]
              2 7 (mkTradeInfo 501 "D" "EURUSD" BUY))
    as (Hgone & _ & notices & Hevents & _ & Hnotice).
  - reflexivity.
  - reflexivity.
  - intros H. apply list_elem_of_singleton in H. discriminate H.
  - split; [exact Hgone|].
    destruct (Hnotice (mkTradeRow 501 (11 # 10)) eq_refl eq_refl
                (fun _ _ _ _ => eq_refl))
      as (exit_price & profit & commission & swap & Hwrite & Hone).
    exists exit_price, profit, commission, swap.
    split; [exact Hwrite|]. rewrite Hevents, Hone. reflexivity.
Defined.

(** The steps of the three passes that carry ticket 7, in full. *)
Example closure_of_ticket_7 :
  closure_events 7 (snd (reconcile_times closing_world 3 two_trades))
  = [PopOpenTrade 7; CallHistoryDeal 7;
     closure_notice 7 (mkTradeInfo 501 "D" "EURUSD" BUY)
       (mkTradeRow 501 (11 # 10)) (12000 # 10000) (0 - 0 - 0)].
Proof. vm_compute. reflexivity. Qed.

(** ** Closing values and the notice to the brain *)

Lemma fetch_position_data_run (w : Collaborators) (ticket : Z) (s : EngineState) :
  exists d, fetch_position_data w ticket s = (Ret d, s, [CallHistoryDeal ticket]).
Proof.
  unfold fetch_position_data. run_loop.
  destruct (history_deal w ticket) as [resp|e]; [|eauto].
  destruct (status_code resp =? 200); [|eauto].
  destruct (json resp); eauto.
Qed.

(** Reads a membership in an explicit trace: the call is one of those
    listed. *)
Ltac trace_inv H :=
  repeat (apply elem_of_cons in H;
          destruct H as [H|H]; [try discriminate H|]);
  try (apply elem_of_nil in H; contradiction).




(** ** The momentum scalper *)

Section Scalper.

Import StrategyD.

Variable bollinger_bands :
  list float -> Z -> Q -> outcome (list (option Q) * list (option Q) * list (option Q)).
Variable rsi : list float -> Z -> outcome (list (option Q)).
Variable atr : list float -> list float -> list float -> Z -> outcome (list (option Q)).
Variable self : Config.

Local Notation "'read'" := (read_latest bollinger_bands rsi atr self).
Local Notation "'signal_of'" := (generate_signal bollinger_bands rsi atr self).

Lemma buy_signals_nil (n : nat) (close open_price : list float) (l : Latest)
    (lower rsi_now : Q) :
  buy_signals self n close open_price l lower rsi_now = []
  <-> buy_triggered self n close open_price l lower rsi_now = false.
Proof.
  unfold buy_signals, buy_triggered.
  destruct (fltb (latest_close l) (Num lower)),
    (Qltb rsi_now (_rsi_oversold self)),
    (fst (momentum n close open_price (latest_close l) (latest_open l)
            (latest_high l) (latest_low l)));
    simpl; split; intros H; first [reflexivity | discriminate H].
Qed.

Lemma sell_signals_nil (n : nat) (close open_price : list float) (l : Latest)
    (upper rsi_now : Q) :
  sell_signals self n close open_price l upper rsi_now = []
  <-> sell_triggered self n close open_price l upper rsi_now = false.
Proof.
  unfold sell_signals, sell_triggered.
  destruct (fgtb (latest_close l) (Num upper)),
    (Qgtb rsi_now (_rsi_overbought self)),
    (snd (momentum n close open_price (latest_close l) (latest_open l)
            (latest_high l) (latest_low l)));
    simpl; split; intros H; first [reflexivity | discriminate H].
Qed.

(** The momentum check never fires in both directions. *)
Lemma momentum_one_sided (n : nat) (close open_price : list float)
    (c o h lo : float) :
  fst (momentum n close open_price c o h lo)
  && snd (momentum n close open_price c o h lo) = false.
Proof.
  unfold momentum. cbv zeta.
  repeat match goal with
         | |- context [match ?x with _ => _ end] => destruct x
         end; reflexivity.
Qed.

(** What [evaluate] answers, by the two trigger lists. *)
Lemma evaluate_conflict (n : nat) (close open_price : list float) (l : Latest)
    (upper lower rsi_now : Q) :
  latest_upper_band l = Some upper ->
  latest_lower_band l = Some lower ->
  latest_rsi l = Some rsi_now ->
  buy_triggered self n close open_price l lower rsi_now = true ->
  sell_triggered self n close open_price l upper rsi_now = true ->
  evaluate self n close open_price l = None.
Proof.
  intros Hu Hl Hr Hbuy Hsell. unfold evaluate. rewrite Hu, Hl, Hr.
  destruct (latest_middle_band l); [|reflexivity].
  destruct (latest_atr l); [|reflexivity].
  destruct (buy_signals self n close open_price l lower rsi_now) eqn:Eb.
  - apply buy_signals_nil in Eb. congruence.
  - destruct (sell_signals self n close open_price l upper rsi_now) eqn:Es;
      [|reflexivity].
    apply sell_signals_nil in Es. congruence.
Qed.

Lemma build_signal_direction (d : OrderDirection) (reasons : list Trigger)
    (c : float) (r a : Q) (signal : StrategySignal) :
  build_signal self d reasons c r a = Some signal -> direction signal = d.
Proof.
  unfold build_signal. destruct (_ || _); [discriminate|].
  intros H. injection H as <-. reflexivity.
Qed.

Lemma evaluate_one_sided (n : nat) (close open_price : list float) (l : Latest)
    (signal : StrategySignal) :
  evaluate self n close open_price l = Some signal ->
  exists upper lower rsi_now,
    latest_upper_band l = Some upper /\
    latest_lower_band l = Some lower /\
    latest_rsi l = Some rsi_now /\
    ((direction signal = BUY /\
      buy_triggered self n close open_price l lower rsi_now = true /\
      sell_triggered self n close open_price l upper rsi_now = false) \/
     (direction signal = SELL /\
      sell_triggered self n close open_price l upper rsi_now = true /\
      buy_triggered self n close open_price l lower rsi_now = false)).
Proof.
  unfold evaluate.
  destruct (latest_upper_band l) as [upper|]; [|discriminate].
  destruct (latest_lower_band l) as [lower|]; [|discriminate].
  destruct (latest_middle_band l) as [middle|]; [|discriminate].
  destruct (latest_rsi l) as [rsi_now|]; [|discriminate].
  destruct (latest_atr l) as [atr_now|]; [|discriminate].
  intros H. exists upper, lower, rsi_now. repeat split.
  destruct (buy_signals self n close open_price l lower rsi_now) eqn:Eb;
    destruct (sell_signals self n close open_price l upper rsi_now) eqn:Es;
    try discriminate H.
  - right. apply build_signal_direction in H.
    apply buy_signals_nil in Eb. repeat split; try assumption.
    destruct (sell_triggered self n close open_price l upper rsi_now) eqn:E;
      [reflexivity|].
    apply sell_signals_nil in E. congruence.
  - left. apply build_signal_direction in H.
    apply sell_signals_nil in Es. repeat split; try assumption.
    destruct (buy_triggered self n close open_price l lower rsi_now) eqn:E;
      [reflexivity|].
    apply buy_signals_nil in E. congruence.
Qed.

(** [generate_signal] is the evaluation of the latest values when the
    window is long enough and they can be read, and [None] otherwise. *)
Lemma generate_signal_cases (candles_df : DataFrame) :
  (signal_of candles_df = Ret None) \/
  (exists l close open_price,
      read candles_df = Ret (l, close, open_price) /\
      signal_of candles_df
      = Ret (evaluate self (df_len candles_df) close open_price l)).
Proof.
  unfold generate_signal, generate_signal_body.
  destruct (_ <? _); [left; reflexivity|].
  destruct (read candles_df) as [[[l close] open_price]|e].
  - right. exists l, close, open_price. split; reflexivity.
  - left. reflexivity.
Qed.

Lemma generate_signal_read (candles_df : DataFrame) (l : Latest)
    (close open_price : list float) :
  read candles_df = Ret (l, close, open_price) ->
  signal_of candles_df = Ret None \/
  signal_of candles_df
  = Ret (evaluate self (df_len candles_df) close open_price l).
Proof.
  intros H. unfold generate_signal, generate_signal_body.
  destruct (_ <? _); [left; reflexivity|].
  rewrite H. right. reflexivity.
Qed.

(** C7: when the latest values can be read and both the buy side and the
    sell side have a trigger (Bollinger band, RSI or momentum burst, in any
    combination), [generate_signal] returns [None]; and a signal it returns
    has the direction of the one side that has a trigger, the other side
    having none. *)
Theorem conflicting_triggers_give_no_signal (candles_df : DataFrame) :
  let n := df_len candles_df in
  (forall l close open_price upper lower rsi_now,
      read candles_df = Ret (l, close, open_price) ->
      latest_upper_band l = Some upper ->
      latest_lower_band l = Some lower ->
      latest_rsi l = Some rsi_now ->
      buy_triggered self n close open_price l lower rsi_now = true ->
      sell_triggered self n close open_price l upper rsi_now = true ->
      signal_of candles_df = Ret None) /\
  (forall signal,
      signal_of candles_df = Ret (Some signal) ->
      exists l close open_price upper lower rsi_now,
        read candles_df = Ret (l, close, open_price) /\
        latest_upper_band l = Some upper /\
        latest_lower_band l = Some lower /\
        latest_rsi l = Some rsi_now /\
        ((direction signal = BUY /\
          buy_triggered self n close open_price l lower rsi_now = true /\
          sell_triggered self n close open_price l upper rsi_now = false) \/
         (direction signal = SELL /\
          sell_triggered self n close open_price l upper rsi_now = true /\
          buy_triggered self n close open_price l lower rsi_now = false))).
Proof.
  cbv zeta. split.
  - intros l close open_price upper lower rsi_now Hread Hu Hl Hr Hbuy Hsell.
    destruct (generate_signal_read candles_df l close open_price Hread)
      as [H|H]; [exact H|].
    rewrite H. f_equal.
    exact (evaluate_conflict _ _ _ l upper lower rsi_now Hu Hl Hr Hbuy Hsell).
  - intros signal Hsig.
    destruct (generate_signal_cases candles_df)
      as [H|(l & close & open_price & Hread & H)]; rewrite H in Hsig.
    + discriminate Hsig.
    + injection Hsig as Hsig.
      destruct (evaluate_one_sided _ _ _ l signal Hsig)
        as (upper & lower & rsi_now & Hu & Hl & Hr & Hside).
      exists l, close, open_price, upper, lower, rsi_now. auto.
Qed.

(** C10: [generate_signal] returns for every window: whatever the body
    raises becomes [None].  In particular a window without one of the four
    OHLC columns, and a window on which an indicator raises, give [None]. *)
Theorem generate_signal_never_raises (candles_df : DataFrame) :
  (exists answer, signal_of candles_df = Ret answer) /\
  (forall e,
      generate_signal_body bollinger_bands rsi atr self candles_df = Raise e ->
      signal_of candles_df = Ret None) /\
  (forall column,
      column ∈ ["close"; "high"; "low"; "open"] ->
      df_columns candles_df !! column = None ->
      signal_of candles_df = Ret None) /\
  (forall close high low e,
      df_columns candles_df !! "close" = Some close ->
      df_columns candles_df !! "high" = Some high ->
      df_columns candles_df !! "low" = Some low ->
      bollinger_bands close (_bb_period self) (_bb_std self) = Raise e \/
      rsi close (_rsi_period self) = Raise e \/
      atr high low close (_atr_period self) = Raise e ->
      signal_of candles_df = Ret None).
Proof.
  unfold generate_signal. split; [|split; [|split]].
  - destruct (generate_signal_body _ _ _ _ _); eauto.
  - intros e ->. reflexivity.
  - intros column Hcol Hmiss.
    unfold generate_signal_body, read_latest, df_column, obind.
    destruct (_ <? _); [reflexivity|].
    repeat (apply elem_of_cons in Hcol; destruct Hcol as [->|Hcol]);
      [ | | | | apply elem_of_nil in Hcol; contradiction];
      rewrite Hmiss;
      repeat match goal with
             | |- context [match df_columns candles_df !! ?c with _ => _ end] =>
                 destruct (df_columns candles_df !! c)
             end; reflexivity.
  - intros close high low e Hc Hh Hl Hfail.
    unfold generate_signal_body, read_latest, df_column, obind.
    destruct (_ <? _); [reflexivity|].
    rewrite Hc, Hh, Hl.
    destruct (df_columns candles_df !! "open"); [|reflexivity].
    destruct Hfail as [Hf|[Hf|Hf]].
    + rewrite Hf. reflexivity.
    + rewrite Hf. destruct (bollinger_bands _ _ _) as [[[u m] lo]|];
        reflexivity.
    + rewrite Hf. destruct (bollinger_bands _ _ _) as [[[u m] lo]|];
        [|reflexivity].
      destruct (rsi _ _); reflexivity.
Qed.

End Scalper.

Lemma conflicting_triggers_give_no_signal_witness :
  StrategyD.generate_signal flat_bands (flat_rsi (80 # 1)) flat_atr
    (StrategyD.default_config "D") (flat_window 25 (8 # 1))
  = Ret None.
Proof.
  destruct (conflicting_triggers_give_no_signal flat_bands (flat_rsi (80 # 1))
              flat_atr (StrategyD.default_config "D") (flat_window 25 (8 # 1)))
    as [Hconflict _].
  apply (Hconflict
           (StrategyD.mkLatest (Num (8 # 1)) (Num (8 # 1)) (Num (8 # 1))
              (Num (8 # 1))
              (Some (12 # 1)) (Some (10 # 1)) (Some (9 # 1))
              (Some (80 # 1)) (Some (1 # 1)))
           (replicate 25 (Num (8 # 1))) (replicate 25 (Num (8 # 1)))
           (12 # 1) (9 # 1) (80 # 1)).
  - reflexivity.
  - reflexivity.
  - reflexivity.
  - reflexivity.
  - reflexivity.
  - reflexivity.
Defined.

Lemma generate_signal_never_raises_witness :
  StrategyD.generate_signal flat_bands (flat_rsi (45 # 1)) flat_atr
    (StrategyD.default_config "D") headless_window
  = Ret None.
Proof.
  destruct (generate_signal_never_raises flat_bands (flat_rsi (45 # 1)) flat_atr
              (StrategyD.default_config "D") headless_window)
    as (_ & _ & Hcolumn & _).
  apply (Hcolumn "close").
  - apply list_elem_of_here.
  - reflexivity.
Defined.

(** ** The 25-bar scenario *)




(* ===================================================================== *)
(** * Further properties of the scalper *)
(* ===================================================================== *)

Section ScalperSignals.

Import StrategyD.

Variable bollinger_bands :
  list float -> Z -> Q -> outcome (list (option Q) * list (option Q) * list (option Q)).
Variable rsi : list float -> Z -> outcome (list (option Q)).
Variable atr : list float -> list float -> list float -> Z -> outcome (list (option Q)).
Variable self : Config.

Local Notation "'read'" := (read_latest bollinger_bands rsi atr self).
Local Notation "'signal_of'" := (generate_signal bollinger_bands rsi atr self).

Lemma py_min_bounds (a : Q) : (0 <= a)%Q -> (0 <= py_min a 1 <= 1)%Q.
Proof.
  intros Ha. unfold py_min. destruct (Qltb 1 a) eqn:E.
  - split; [discriminate|apply Qle_refl].
  - split; [exact Ha|].
    apply Qnot_lt_le. intros H. apply Qltb_lt in H. congruence.
Qed.

Lemma confidence_bounds (r : Q) : (0 <= py_min (Qabs (r - 50) / 50) 1 <= 1)%Q.
Proof.
  apply py_min_bounds. apply Qle_shift_div_l; [reflexivity|].
  rewrite Qmult_0_l. apply Qabs_nonneg.
Qed.

(** What a signal built by [build_signal] holds. *)
Lemma build_signal_inv (d : OrderDirection) (reasons : list Trigger)
    (c : float) (r a : Q) (signal : StrategySignal) :
  build_signal self d reasons c r a = Some signal ->
  direction signal = d /\
  reason signal = reasons /\
  strategy_code signal = _code self /\
  confidence signal = py_min (Qabs (r - 50) / 50) 1 /\
  sl_price signal
  = (if is_buy d then fsub c (Num (a * 1)) else fadd c (Num (a * 1))) /\
  tp_price signal
  = (if is_buy d then fadd c (Num (a * (3 # 2)))
     else fsub c (Num (a * (3 # 2)))) /\
  not_le_zero (sl_price signal) /\ not_le_zero (tp_price signal).
Proof.
  unfold build_signal. cbv zeta.
  destruct (fleb (if is_buy d then _ else _) (Num 0)) eqn:Es; [discriminate|].
  destruct (fleb (if is_buy d then fadd _ _ else _) (Num 0)) eqn:Et;
    [discriminate|].
  cbn [orb]. intros H. injection H as H. subst signal.
  cbn [direction reason strategy_code confidence sl_price tp_price].
  apply fleb_zero_false in Es, Et. repeat split; assumption.
Qed.

(** A signal comes from latest values that are all defined, and is built
    for the one side that has triggers, with these as its reasons. *)
Lemma evaluate_inv (n : nat) (close open_price : list float) (l : Latest)
    (signal : StrategySignal) :
  evaluate self n close open_price l = Some signal ->
  exists upper middle lower rsi_now atr_now,
    latest_upper_band l = Some upper /\
    latest_middle_band l = Some middle /\
    latest_lower_band l = Some lower /\
    latest_rsi l = Some rsi_now /\
    latest_atr l = Some atr_now /\
    reason signal <> [] /\
    build_signal self (direction signal) (reason signal) (latest_close l)
      rsi_now atr_now = Some signal.
Proof.
  unfold evaluate.
  destruct (latest_upper_band l) as [upper|]; [|discriminate].
  destruct (latest_lower_band l) as [lower|]; [|discriminate].
  destruct (latest_middle_band l) as [middle|]; [|discriminate].
  destruct (latest_rsi l) as [rsi_now|]; [|discriminate].
  destruct (latest_atr l) as [atr_now|]; [|discriminate].
  intros H. exists upper, middle, lower, rsi_now, atr_now.
  do 5 (split; [reflexivity|]).
  destruct (buy_signals self n close open_price l lower rsi_now) eqn:Eb;
    destruct (sell_signals self n close open_price l upper rsi_now) eqn:Es;
    try discriminate H;
    destruct (build_signal_inv _ _ _ _ _ _ H) as (-> & -> & _);
    (split; [discriminate|exact H]).
Qed.

(** [generate_signal] answers with a signal only from a window that is long
    enough and whose latest values could be read. *)
Lemma generate_signal_inv (candles_df : DataFrame) (signal : StrategySignal) :
  signal_of candles_df = Ret (Some signal) ->
  Z.max (_bb_period self) (_rsi_period self) + 5 <= Z.of_nat (df_len candles_df) /\
  exists l close open_price,
    read candles_df = Ret (l, close, open_price) /\
    evaluate self (df_len candles_df) close open_price l = Some signal.
Proof.
  unfold generate_signal, generate_signal_body.
  destruct (_ <? _) eqn:Elen; [discriminate|].
  apply Z.ltb_ge in Elen.
  destruct (read candles_df) as [[[l close] open_price]|e]; [|discriminate].
  cbn [obind]. intros H. injection H as H.
  split; [exact Elen|]. exists l, close, open_price. split; [reflexivity|exact H].
Qed.

(** X1: a signal is returned only for a window of at least
    max(bb_period, rsi_period) + 5 bars that has the four OHLC columns and
    whose latest band, RSI and ATR values are all defined (not NaN). *)
Theorem signal_needs_warm_indicators (candles_df : DataFrame)
    (signal : StrategySignal) :
  signal_of candles_df = Ret (Some signal) ->
  Z.max (_bb_period self) (_rsi_period self) + 5 <= Z.of_nat (df_len candles_df) /\
  (forall column, column ∈ ["close"; "high"; "low"; "open"] ->
                  is_Some (df_columns candles_df !! column)) /\
  exists l close open_price,
    read candles_df = Ret (l, close, open_price) /\
    is_Some (latest_upper_band l) /\ is_Some (latest_middle_band l) /\
    is_Some (latest_lower_band l) /\ is_Some (latest_rsi l) /\
    is_Some (latest_atr l).
Proof.
  intros Hsig.
  destruct (generate_signal_inv candles_df signal Hsig)
    as (Hlen & l & close & open_price & Hread & Heval).
  split; [exact Hlen|]. split.
  - intros column Hcol. revert Hread.
    unfold read_latest, df_column, obind.
    repeat (apply elem_of_cons in Hcol; destruct Hcol as [->|Hcol]);
      [ | | | | apply elem_of_nil in Hcol; contradiction];
      repeat match goal with
             | |- context [match df_columns candles_df !! ?c with _ => _ end] =>
                 destruct (df_columns candles_df !! c)
             end; intros H; first [discriminate H | eauto].
  - exists l, close, open_price. split; [exact Hread|].
    destruct (evaluate_inv _ _ _ _ _ Heval)
      as (u & m & lo & r & a & -> & -> & -> & -> & -> & _).
    repeat split; eauto.
Qed.

(** X2: every signal returned has stops for which the test [<= 0] is
    false, a confidence between 0 and 1, the code of the strategy and at
    least one reason.  The stops are strictly positive numbers when the
    latest close is a number; when it is NaN, which the code does not test,
    both stops are NaN. *)
Theorem signal_is_well_formed (candles_df : DataFrame) (signal : StrategySignal)
    (l : Latest) (close open_price : list float) :
  signal_of candles_df = Ret (Some signal) ->
  read candles_df = Ret (l, close, open_price) ->
  not_le_zero (sl_price signal) /\ not_le_zero (tp_price signal) /\
  (isna (latest_close l) = false ->
   positive (sl_price signal) /\ positive (tp_price signal)) /\
  (isna (latest_close l) = true ->
   sl_price signal = NaN /\ tp_price signal = NaN) /\
  (0 <= confidence signal <= 1)%Q /\
  strategy_code signal = _code self /\
  reason signal <> [].
Proof.
  intros Hsig Hread.
  destruct (generate_signal_inv candles_df signal Hsig)
    as (_ & l' & close' & open' & Hread' & Heval).
  rewrite Hread in Hread'. injection Hread' as <- <- <-.
  destruct (evaluate_inv _ _ _ _ _ Heval)
    as (u & m & lo & r & a & _ & _ & _ & _ & _ & Hreason & Hbuild).
  destruct (build_signal_inv _ _ _ _ _ _ Hbuild)
    as (_ & _ & Hcode & Hconf & Hsl & Htp & Gsl & Gtp).
  split; [exact Gsl|]. split; [exact Gtp|].
  split; [|split; [|split; [|split]]].
  - intros Hnum. split; apply not_le_zero_number; try assumption.
    + rewrite Hsl. destruct (latest_close l); [|discriminate Hnum].
      destruct (is_buy _); reflexivity.
    + rewrite Htp. destruct (latest_close l); [|discriminate Hnum].
      destruct (is_buy _); reflexivity.
  - intros Hnan. rewrite Hsl, Htp.
    destruct (latest_close l); [discriminate Hnan|].
    destruct (is_buy _); split; reflexivity.
  - rewrite Hconf. apply confidence_bounds.
  - exact Hcode.
  - exact Hreason.
Qed.

(** X3: the stops of a signal are the latest close moved by the latest ATR:
    one ATR against the direction for the stop-loss, one and a half ATR with
    it for the take-profit.  For a latest close that is a number and an ATR
    that is not negative, the stop-loss is therefore not above and the
    take-profit not below the close for BUY, and the reverse for SELL; with
    an ATR of zero both equal the close. *)
Theorem signal_stops_follow_atr (candles_df : DataFrame) (signal : StrategySignal)
    (l : Latest) (close open_price : list float) (atr_now : Q) :
  signal_of candles_df = Ret (Some signal) ->
  read candles_df = Ret (l, close, open_price) ->
  latest_atr l = Some atr_now ->
  let c := latest_close l in
  (direction signal = BUY ->
   feq (sl_price signal) (fsub c (Num atr_now)) /\
   feq (tp_price signal) (fadd c (Num ((3 # 2) * atr_now)))) /\
  (direction signal = SELL ->
   feq (sl_price signal) (fadd c (Num atr_now)) /\
   feq (tp_price signal) (fsub c (Num ((3 # 2) * atr_now)))) /\
  (isna c = false -> (0 <= atr_now)%Q -> direction signal = BUY ->
   fleb (sl_price signal) c = true /\ fleb c (tp_price signal) = true) /\
  (isna c = false -> (0 <= atr_now)%Q -> direction signal = SELL ->
   fleb (tp_price signal) c = true /\ fleb c (sl_price signal) = true) /\
  ((atr_now == 0)%Q -> feq (sl_price signal) c /\ feq (tp_price signal) c).
Proof.
  intros Hsig Hread Hatr c.
  destruct (generate_signal_inv candles_df signal Hsig)
    as (_ & l' & close' & open' & Hread' & Heval).
  rewrite Hread in Hread'. injection Hread' as <- <- <-.
  destruct (evaluate_inv _ _ _ _ _ Heval)
    as (u & m & lo & r & a & _ & _ & _ & _ & Ha & _ & Hbuild).
  rewrite Hatr in Ha. injection Ha as <-.
  destruct (build_signal_inv _ _ _ _ _ _ Hbuild)
    as (_ & _ & _ & _ & Hsl & Htp & _ & _).
  fold c in Hsl, Htp. rewrite Hsl, Htp.
  destruct c as [q|]; destruct (direction signal);
    cbn [is_buy fsub fadd feq fleb isna];
    repeat split; intros; try discriminate; try exact I;
    try (apply Qleb_le); lra.
Qed.

Lemma sum_nonneg (qs : list Q) :
  Forall (fun q => (0 <= q)%Q) qs -> (0 <= foldr Qplus 0 qs)%Q.
Proof.
  induction 1 as [|q qs Hq _ IH]; cbn [foldr]; [apply Qle_refl|].
  set (others := foldr Qplus 0%Q qs) in *. lra.
Qed.

Lemma numbers_of_bodies_nonneg (close open_price : list float) :
  Forall (fun q => (0 <= q)%Q)
    (numbers (zip_with (fun c o => fabs (fsub c o)) close open_price)).
Proof.
  unfold numbers.
  revert open_price. induction close as [|c close IH]; intros [|o open_price];
    cbn [zip_with omap list_omap]; try apply Forall_nil_2.
  specialize (IH open_price).
  destruct c as [a|], o as [b|]; cbn [fsub fabs]; try exact IH.
  apply Forall_cons. split; [apply Qabs_nonneg|exact IH].
Qed.

Lemma mean_of_bodies_nonneg (close open_price : list float) (avg : Q) :
  mean (zip_with (fun c o => fabs (fsub c o)) close open_price) = Num avg ->
  (0 <= avg)%Q.
Proof.
  unfold mean.
  pose proof (sum_nonneg _ (numbers_of_bodies_nonneg close open_price)) as Hsum.
  destruct (numbers _) as [|b bodies]; [discriminate|].
  intros H. injection H as <-.
  apply Qle_shift_div_l.
  - unfold Qlt. cbn [length]. simpl. lia.
  - rewrite Qmult_0_l. exact Hsum.
Qed.

(** X4: no indicator proposes both directions.  With the lower band not
    above the upper band the two Bollinger triggers exclude each other; with
    the oversold threshold not above the overbought threshold the two RSI
    triggers exclude each other; and a momentum burst is bullish only on a
    candle that closes above its open and bearish only on one that closes
    below it (never on a doji), so it is never both. *)
Theorem triggers_are_one_sided (n : nat) (close open_price : list float)
    (l : Latest) (upper lower rsi_now : Q) :
  let burst := momentum n close open_price (latest_close l) (latest_open l)
                 (latest_high l) (latest_low l) in
  ((lower <= upper)%Q ->
   fltb (latest_close l) (Num lower) && fgtb (latest_close l) (Num upper)
   = false) /\
  ((_rsi_oversold self <= _rsi_overbought self)%Q ->
   Qltb rsi_now (_rsi_oversold self) && Qgtb rsi_now (_rsi_overbought self)
   = false) /\
  (fst burst = true -> fltb (latest_open l) (latest_close l) = true) /\
  (snd burst = true -> fltb (latest_close l) (latest_open l) = true) /\
  fst burst && snd burst = false.
Proof.
  cbv zeta. split; [|split; [|split; [|split]]].
  - intros Hbands.
    destruct (latest_close l) as [c|]; [|reflexivity]. cbn [fltb fgtb].
    destruct (Qltb c lower) eqn:E1; [|reflexivity].
    destruct (Qltb upper c) eqn:E2; [|reflexivity].
    apply Qltb_lt in E1. apply Qltb_lt in E2. lra.
  - intros Hthresholds.
    destruct (Qltb rsi_now (_rsi_oversold self)) eqn:E1; [|reflexivity].
    destruct (Qgtb rsi_now (_rsi_overbought self)) eqn:E2; [|reflexivity].
    apply Qltb_lt in E1. apply Qgtb_gt in E2. lra.
  - unfold momentum. cbv zeta. destruct (6 <=? n)%nat; [|discriminate].
    destruct (_ && _); [|discriminate].
    destruct (fgtb (latest_close l) (latest_open l)) eqn:E; [|discriminate].
    intros _. exact E.
  - unfold momentum. cbv zeta. destruct (6 <=? n)%nat; [|discriminate].
    destruct (mean _) as [avg|] eqn:Eavg.
    2:{ destruct (fabs _); cbn [fmul fgtb fltb andb]; discriminate. }
    apply mean_of_bodies_nonneg in Eavg.
    destruct (latest_close l) as [c|], (latest_open l) as [o|];
      cbn [fsub fabs fmul fgtb fltb andb]; try discriminate.
    destruct (Qltb ((3 # 2) * avg) (Qabs (c - o))) eqn:Ebody; [|discriminate].
    cbn [andb].
    match goal with
    | |- context [if ?ratio then _ else (false, false)] => destruct ratio
    end; [|discriminate].
    destruct (Qltb o c) eqn:E; [discriminate|].
    intros _. apply Qltb_lt in Ebody.
    assert (Hnot : ~ (o < c)%Q).
    { intros H. apply Qltb_lt in H. congruence. }
    assert (Hpos : (0 < Qabs (c - o))%Q) by lra.
    apply Qltb_lt.
    destruct (Qlt_le_dec c o) as [Hlt|Hge]; [exact Hlt|].
    exfalso. rewrite Qabs_pos in Hpos by lra. apply Hnot. lra.
  - apply momentum_one_sided.
Qed.

End ScalperSignals.

Lemma flat_window_gives_buy :
  StrategyD.generate_signal flat_bands (flat_rsi (45 # 1)) flat_atr
    (StrategyD.default_config "D") (flat_window 25 (8 # 1))
  = Ret (Some flat_buy_signal).
Proof. reflexivity. Qed.

(** A window whose latest close is NaN, with an RSI of 20: the RSI trigger
    gives a BUY, and its stops are NaN. *)
Example nan_close_gives_nan_stops :
  StrategyD.generate_signal flat_bands (flat_rsi (20 # 1)) flat_atr
    (StrategyD.default_config "D") (nan_close_window 25 (8 # 1))
  = Ret (Some {| StrategyD.direction := BUY;
                 StrategyD.confidence :=
                   StrategyD.py_min (Qabs ((20 # 1) - 50) / 50) 1;
                 StrategyD.sl_price := NaN;
                 StrategyD.tp_price := NaN;
                 StrategyD.reason :=
                   [StrategyD.rsi_below_oversold (20 # 1) 30];
                 StrategyD.strategy_code := "D" |}).
Proof. reflexivity. Qed.

Lemma signal_needs_warm_indicators_witness :
  20 + 5 <= Z.of_nat (df_len (flat_window 25 (8 # 1))) /\
  is_Some (df_columns (flat_window 25 (8 # 1)) !! "high").
Proof.
  destruct (signal_needs_warm_indicators flat_bands (flat_rsi (45 # 1)) flat_atr
              (StrategyD.default_config "D") (flat_window 25 (8 # 1))
              flat_buy_signal flat_window_gives_buy) as (Hlen & Hcols & _).
  split; [exact Hlen|].
  apply Hcols. apply list_elem_of_further, list_elem_of_here.
Defined.

Lemma signal_is_well_formed_witness :
  positive (StrategyD.sl_price flat_buy_signal) /\
  positive (StrategyD.tp_price flat_buy_signal) /\
  (0 <= StrategyD.confidence flat_buy_signal <= 1)%Q.
Proof.
  destruct (signal_is_well_formed flat_bands (flat_rsi (45 # 1)) flat_atr
              (StrategyD.default_config "D") (flat_window 25 (8 # 1))
              flat_buy_signal (flat_latest (45 # 1))
              (replicate 25 (Num (8 # 1))) (replicate 25 (Num (8 # 1)))
              flat_window_gives_buy eq_refl)
    as (_ & _ & Hnum & _ & Hconf & _).
  destruct (Hnum eq_refl) as [Hsl Htp].
  split; [exact Hsl|]. split; [exact Htp|exact Hconf].
Defined.

Lemma signal_stops_follow_atr_witness :
  fleb (StrategyD.sl_price flat_buy_signal) (Num 8) = true /\
  fleb (Num 8) (StrategyD.tp_price flat_buy_signal) = true.
Proof.
  destruct (signal_stops_follow_atr flat_bands (flat_rsi (45 # 1)) flat_atr
              (StrategyD.default_config "D") (flat_window 25 (8 # 1))
              flat_buy_signal (flat_latest (45 # 1))
              (replicate 25 (Num (8 # 1))) (replicate 25 (Num (8 # 1))) (1 # 1)
              flat_window_gives_buy eq_refl eq_refl)
    as (_ & _ & Hbuy & _).
  apply Hbuy; [reflexivity|discriminate|reflexivity].
Defined.

Lemma triggers_are_one_sided_witness :
  fltb (Num (8 # 1)) (Num (9 # 1)) && fgtb (Num (8 # 1)) (Num (12 # 1)) = false.
Proof.
  destruct (triggers_are_one_sided (StrategyD.default_config "D") 25
              (replicate 25 (Num (8 # 1))) (replicate 25 (Num (8 # 1)))
              (flat_latest (45 # 1)) (12 # 1) (9 # 1) (45 # 1))
    as (Hbands & _).
  apply Hbands. discriminate.
Defined.

(* ===================================================================== *)
(** * Further properties of the SL/TP enforcement *)
(* ===================================================================== *)

(** Every symbol, listed or not, trades with a positive lot size and
    positive ATR multiples. *)
Lemma symbol_config_positive (symbol : string) :
  (0 < lot_size (symbol_config symbol))%Q /\
  (0 < sl_atr_mult (symbol_config symbol))%Q /\
  (0 < tp_atr_mult (symbol_config symbol))%Q.
Proof.
  unfold symbol_config, SYMBOL_CONFIGS.
  repeat match goal with
         | |- context [if ?b then _ else _] => destruct b
         end; repeat split.
Qed.

Lemma usable_atr_positive (fallback_atr : option Q) (a : Q) :
  usable_atr fallback_atr = Some a -> fallback_atr = Some a /\ (0 < a)%Q.
Proof.
  unfold usable_atr. destruct fallback_atr as [x|]; [|discriminate].
  destruct (negb (Qeq_bool x 0)); [|discriminate]. cbn [andb].
  destruct (Qgtb x 0) eqn:E; [|discriminate].
  intros H. injection H as <-. apply Qgtb_gt in E. auto.
Qed.

Lemma present_Some (p : option float) (x : float) :
  positive x -> p = Some x -> present p = Some x.
Proof.
  intros Hpos ->. apply present_kept. split; [reflexivity|].
  apply positive_not_le_zero. exact Hpos.
Qed.

(** X5: stops the loop derives are the entry price moved by the ATR.  For a
    signal that carries neither a usable stop-loss nor a usable take-profit
    and passes the enforcement, on any symbol, the ATR of the cycle is
    positive and the stops are entry -/+ ATR times the symbol's multiples.
    When the entry price is a number both stops are strictly positive
    numbers that bracket it: the stop-loss is not above and the take-profit
    not below the entry for BUY, and the reverse for SELL.  When the entry
    price is NaN, which the loop does not test, both stops are NaN. *)
Theorem derived_stops_bracket_entry (symbol : string) (fallback_atr : option Q)
    (signal : Signal) (sl tp : float) :
  lacking (stop_loss signal) -> lacking (take_profit signal) ->
  enforce_sl_tp (symbol_config symbol) fallback_atr signal = inr (sl, tp) ->
  let entry := entry_price signal in
  let sl_move := sl_atr_mult (symbol_config symbol) in
  let tp_move := tp_atr_mult (symbol_config symbol) in
  exists atr_now,
    fallback_atr = Some atr_now /\ (0 < atr_now)%Q /\
    (sig_direction signal = BUY ->
     sl = fsub entry (Num (atr_now * sl_move)) /\
     tp = fadd entry (Num (atr_now * tp_move))) /\
    (sig_direction signal = SELL ->
     sl = fadd entry (Num (atr_now * sl_move)) /\
     tp = fsub entry (Num (atr_now * tp_move))) /\
    (isna entry = false ->
     positive sl /\ positive tp /\
     (sig_direction signal = BUY ->
      fleb sl entry = true /\ fleb entry tp = true) /\
     (sig_direction signal = SELL ->
      fleb tp entry = true /\ fleb entry sl = true)) /\
    (isna entry = true -> sl = NaN /\ tp = NaN).
Proof.
  intros Hsl Htp. apply present_None in Hsl, Htp. cbv zeta.
  destruct (symbol_config_positive symbol) as (_ & Hms & Hmt).
  unfold enforce_sl_tp. rewrite Hsl, Htp.
  destruct (usable_atr fallback_atr) as [a|] eqn:Ea; [|discriminate].
  apply usable_atr_positive in Ea as [-> Ha].
  intros H. apply final_validation_guarded in H as (-> & -> & Gsl & Gtp).
  exists a. split; [reflexivity|]. split; [exact Ha|].
  assert (0 < a * sl_atr_mult (symbol_config symbol))%Q
    by (apply Qmult_lt_0_compat; assumption).
  assert (0 < a * tp_atr_mult (symbol_config symbol))%Q
    by (apply Qmult_lt_0_compat; assumption).
  destruct (entry_price signal) as [entry|];
    destruct (sig_direction signal);
    cbn [is_buy fsub fadd fleb isna positive not_le_zero] in *;
    repeat split; intros; try discriminate; try assumption;
    try (apply Qleb_le; lra).
Qed.

Lemma derived_stops_bracket_entry_witness :
  fleb (Num ((11 # 10) - (10 # 10000) * (15 # 10))) (Num (11 # 10)) = true /\
  fleb (Num (11 # 10)) (Num ((11 # 10) + (10 # 10000) * 2)) = true.
Proof.
  destruct (derived_stops_bracket_entry "EURUSD" (Some (10 # 10000))
              {| sig_symbol := "EURUSD"; sig_direction := BUY;
                 entry_price := Num (11 # 10); stop_loss := None;
                 take_profit := None |}
              (Num ((11 # 10) - (10 # 10000) * (15 # 10)))
              (Num ((11 # 10) + (10 # 10000) * 2)))
    as (a & _ & _ & _ & _ & Hnum & _).
  - exact I.
  - exact I.
  - reflexivity.
  - destruct (Hnum eq_refl) as (_ & _ & Hbuy & _).
    exact (Hbuy eq_refl).
Defined.

(** X6: a strictly positive stop-loss or take-profit that the signal
    carries is sent on as it is, never replaced by an ATR-derived price and
    never checked against the side of the entry; a signal that carries both
    needs no ATR at all. *)
Theorem carried_stops_are_kept (cfg : SymbolConfig) (fallback_atr : option Q)
    (signal : Signal) :
  (forall x sl tp,
      stop_loss signal = Some x -> positive x ->
      enforce_sl_tp cfg fallback_atr signal = inr (sl, tp) -> sl = x) /\
  (forall y sl tp,
      take_profit signal = Some y -> positive y ->
      enforce_sl_tp cfg fallback_atr signal = inr (sl, tp) -> tp = y) /\
  (forall x y,
      stop_loss signal = Some x -> positive x ->
      take_profit signal = Some y -> positive y ->
      enforce_sl_tp cfg fallback_atr signal = inr (x, y)).
Proof.
  split; [|split].
  - intros x sl tp Hx Hpos.
    assert (Hp : present (stop_loss signal) = Some x)
      by (apply present_Some; auto).
    unfold enforce_sl_tp. rewrite Hp.
    destruct (present (take_profit signal)); [|destruct (usable_atr _)];
      intros H; try discriminate H;
      apply final_validation_guarded in H as (-> & _); reflexivity.
  - intros y sl tp Hy Hpos.
    assert (Hp : present (take_profit signal) = Some y)
      by (apply present_Some; auto).
    unfold enforce_sl_tp. rewrite Hp.
    destruct (present (stop_loss signal)); [|destruct (usable_atr _)];
      intros H; try discriminate H;
      apply final_validation_guarded in H as (_ & -> & _); reflexivity.
  - intros x y Hx Hxpos Hy Hypos.
    assert (Hpx : present (stop_loss signal) = Some x)
      by (apply present_Some; auto).
    assert (Hpy : present (take_profit signal) = Some y)
      by (apply present_Some; auto).
    unfold enforce_sl_tp, final_validation. rewrite Hpx, Hpy.
    apply positive_not_le_zero, fleb_zero_false in Hxpos, Hypos.
    rewrite Hxpos, Hypos. reflexivity.
Qed.

Lemma carried_stops_are_kept_witness :
  enforce_sl_tp (symbol_config "EURUSD") None full_signal
  = inr (Num (1 # 1), Num (12 # 10)).
Proof.
  apply (proj2 (proj2 (carried_stops_are_kept (symbol_config "EURUSD") None
                         full_signal))).
  - reflexivity.
  - reflexivity.
  - reflexivity.
  - reflexivity.
Defined.

(* ===================================================================== *)
(** * Further properties of a binding's turn *)
(* ===================================================================== *)

(** The result of a [try]: what the body returned, or what the handler
    made of the exception. *)
Lemma try_except_result {A : Type} (m : M A) (h : exn -> M A) (s : EngineState) :
  (exists a, result_of (try_except m h s) = Ret a) \/
  (exists e s1, result_of (try_except m h s) = result_of (h e s1)).
Proof.
  unfold try_except, result_of.
  destruct (m s) as [[[a|e] s1] t1]; [left; eauto|].
  right. exists e, s1. destruct (h e s1) as [[r s2] t2]. reflexivity.
Qed.

Section Turn.

Variable w : Collaborators.
Variable b : Binding.
Variable symbol : string.
Variable fallback_atr : option Q.
Variable regime : option string.

Local Notation "'turn'" := (process_binding w b symbol fallback_atr regime).

(** X7: no order without approval.  Every call of [open_position] in a
    turn is for the signal the strategy returned in that turn, after a risk
    check that returned [approved = true], with the lot size the risk
    manager computed, the enforced stops and the comment of the binding. *)
Theorem order_only_after_approval (new_candle : bool) (s : EngineState)
    (sym : string) (dir : OrderDirection) (lots : Q) (sl tp : float) (comment : string) :
  CallOpenPosition sym dir lots sl tp comment ∈ trace_of (turn new_candle s) ->
  exists signal risk_check,
    run_cycle w (strat_key b) symbol = Ret (Some signal) /\
    enforce_sl_tp (symbol_config symbol) fallback_atr signal = inr (sl, tp) /\
    pre_trade_check w (sig_symbol signal) (sig_direction signal)
      (fabs (fsub (entry_price signal) sl)) = Ret risk_check /\
    approved risk_check = true /\
    sym = sig_symbol signal /\ dir = sig_direction signal /\
    lots = position_size risk_check /\
    comment = String.substring 0 31 ("JSR_" +:+ strat_key b).
Proof.
  unfold process_binding, record_trade, _get_or_create_master_id. run_loop.
  split_answers; cbn [fst snd app]; intros Hin; trace_inv Hin;
    injection Hin as -> -> -> -> -> ->;
    match goal with
    | E : negb (approved _) = false |- _ => apply negb_false_iff in E
    end;
    do 2 eexists; repeat split; eassumption.
Qed.

(** X8: a turn raises only when the publication of [STRATEGY_ERROR] itself
    raises: whatever else fails in the turn is caught and reported.  With a
    bus that accepts [STRATEGY_ERROR] events the turn always returns. *)
Theorem turn_raises_only_with_the_bus (new_candle : bool) (s : EngineState) :
  (forall e', result_of (turn new_candle s) = Raise e' ->
              exists e, publish w (STRATEGY_ERROR (strat_key b) symbol e) = Raise e') /\
  ((forall e, publish w (STRATEGY_ERROR (strat_key b) symbol e) = Ret tt) ->
   exists status, result_of (turn new_candle s) = Ret status).
Proof.
  unfold process_binding.
  destruct new_candle; cbn [negb]; [|split; [discriminate|eauto]].
  match goal with
  | |- context [try_except ?body ?handler s] =>
      destruct (try_except_result body handler s) as [[status ->]|(e & s1 & ->)]
  end.
  - split; [discriminate|eauto].
  - run_loop. split.
    + intros e'. destruct (publish w _) as [[]|e0] eqn:E; cbn [fst];
        intros H; [discriminate H|].
      injection H as <-. eauto.
    + intros Hbus. rewrite Hbus. cbn [fst]. eauto.
Qed.

(** X9: a strategy that raises is reported and costs nothing else: the
    turn calls neither the risk manager nor the order manager, publishes
    [STRATEGY_ERROR] with the message, leaves the state as it was and ends
    with the status [error]. *)
Theorem strategy_failure_is_reported (s : EngineState) (e : exn) :
  is_active b = true ->
  run_cycle w (strat_key b) symbol = Raise e ->
  trace_of (turn true s)
  = [CallRunCycle (strat_key b) symbol;
     CallPublish (STRATEGY_ERROR (strat_key b) symbol e)] /\
  state_of (turn true s) = s /\
  (publish w (STRATEGY_ERROR (strat_key b) symbol e) = Ret tt ->
   result_of (turn true s) = Ret (error e)).
Proof.
  intros Hact Hrun. unfold process_binding. rewrite Hact. run_loop.
  rewrite Hrun. run_loop.
  destruct (publish w _) as [[]|e0]; cbn [fst snd];
    repeat split; intros H; first [reflexivity | discriminate H].
Qed.

Section ApprovedSignal.

(** A turn that reaches the order manager: the binding is active, the
    strategy returned [signal], the enforcement gave [sl] and [tp] and the
    risk manager approved. *)
Variable s : EngineState.
Variable signal : Signal.
Variables sl tp : float.
Variable risk_check : RiskCheckResult.

Hypothesis active : is_active b = true.
Hypothesis evaluated : run_cycle w (strat_key b) symbol = Ret (Some signal).
Hypothesis enforced :
  enforce_sl_tp (symbol_config symbol) fallback_atr signal = inr (sl, tp).
Hypothesis checked :
  pre_trade_check w (sig_symbol signal) (sig_direction signal)
    (fabs (fsub (entry_price signal) sl)) = Ret risk_check.
Hypothesis approval_given : approved risk_check = true.

Let sym := sig_symbol signal.
Let dir := sig_direction signal.
Let lots := position_size risk_check.
Let comment := String.substring 0 31 ("JSR_" +:+ strat_key b).
Let status := summary_entry dir (entry_price signal) sl tp.
Let opening : list Call :=
  [CallRunCycle (strat_key b) symbol;
   CallPreTradeCheck sym dir (fabs (fsub (entry_price signal) sl));
   CallOpenPosition sym dir lots sl tp comment].

(** The turn up to the answer of the order manager. *)
Ltac reach_order :=
  unfold process_binding; rewrite active; run_loop;
  rewrite evaluated; run_loop; rewrite enforced; run_loop;
  rewrite checked; run_loop; rewrite approval_given; run_loop.

(** X10: an order the order manager does not fill (it returns [None]) ends
    the turn there: nothing is published, the brain and the storage are not
    called, the state is as it was and the status is the summary entry of
    the signal. *)
Theorem unfilled_order_ends_the_turn :
  open_position w sym dir lots sl tp comment = Ret None ->
  turn true s = (Ret status, s, opening).
Proof.
  intros Hopen. reach_order. fold sym dir lots comment. rewrite Hopen.
  reflexivity.
Qed.

(** X11: the publication of [TRADE_OPENED] is not isolated.  When it
    raises after the order was filled, the brain is not notified, the trade
    is not written to the database and its ticket is not entered in
    [_open_trades]; the failure is reported as a [STRATEGY_ERROR]. *)
Theorem unpublished_fill_is_not_recorded (order : OrderResult) (e : exn) :
  open_position w sym dir lots sl tp comment = Ret (Some order) ->
  publish w (TRADE_OPENED (strat_key b) sym dir lots (or_price order) sl tp
               (or_ticket order) (or_time order)) = Raise e ->
  trace_of (turn true s)
  = opening
    ++ [CallPublish (TRADE_OPENED (strat_key b) sym dir lots (or_price order)
                       sl tp (or_ticket order) (or_time order));
        CallPublish (STRATEGY_ERROR (strat_key b) symbol e)] /\
  state_of (turn true s) = s.
Proof.
  intros Hopen Hpub. reach_order. fold sym dir lots comment. rewrite Hopen.
  run_loop. rewrite Hpub.
  destruct (publish w (STRATEGY_ERROR _ _ _)) as [[]|e0]; split; reflexivity.
Qed.

(** X12: the notification of the brain is isolated.  After a fill whose
    [TRADE_OPENED] event was published, the trade recording runs and the turn
    ends with the summary entry and the state the recording leaves, whether
    [process_trade_result] returns or raises. *)
Theorem brain_failure_does_not_stop_recording (order : OrderResult) :
  open_position w sym dir lots sl tp comment = Ret (Some order) ->
  publish w (TRADE_OPENED (strat_key b) sym dir lots (or_price order) sl tp
               (or_ticket order) (or_time order)) = Ret tt ->
  result_of (turn true s) = Ret status /\
  state_of (turn true s)
  = state_of (record_trade w (strat_key b) signal risk_check order sl tp s) /\
  CallDbSession ∈ trace_of (turn true s).
Proof.
  intros Hopen Hpub. reach_order. fold sym dir lots comment. rewrite Hopen.
  run_loop. rewrite Hpub. run_loop.
  assert (Hdb : CallDbSession
                ∈ trace_of (record_trade w (strat_key b) signal risk_check
                              order sl tp s)).
  { unfold record_trade. run_loop.
    destruct (db_session w) as [[]|e]; [|apply list_elem_of_here].
    match goal with
    | |- context [let (_, _) := ?x in _] => destruct x as [[r1 s1] t1]
    end.
    cbn [snd]. apply list_elem_of_here. }
  unfold trace_of, state_of in *.
  destruct (process_trade_result w _) as [[]|e0];
    destruct (record_trade w (strat_key b) signal risk_check order sl tp s)
      as [[[[]|e1] s1] t1];
    cbn [fst snd app] in *;
    (split; [reflexivity|]); (split; [reflexivity|]);
    repeat (apply list_elem_of_further); rewrite ?app_nil_r; exact Hdb.
Qed.

End ApprovedSignal.

End Turn.

Lemma unfilled_order_ends_the_turn_witness :
  process_binding unfilled_world eurusd_d "EURUSD" None None true initial_state
  = (Ret (summary_entry BUY (Num (11 # 10)) (Num (1 # 1)) (Num (12 # 10))),
     initial_state,
     [CallRunCycle "EURUSD_D" "EURUSD";
      CallPreTradeCheck "EURUSD" BUY (Num (Qabs ((11 # 10) - (1 # 1))));
      CallOpenPosition "EURUSD" BUY (1 # 100) (Num (1 # 1)) (Num (12 # 10))
        "JSR_EURUSD_D"]).
Proof.
  apply (unfilled_order_ends_the_turn unfilled_world eurusd_d "EURUSD" None
           None initial_state full_signal (Num (1 # 1)) (Num (12 # 10)) approval).
  - reflexivity.
  - reflexivity.
  - reflexivity.
  - reflexivity.
  - reflexivity.
  - reflexivity.
Defined.

Lemma unpublished_fill_is_not_recorded_witness :
  _open_trades
    (state_of (process_binding
                 (with_bus deaf_to_openings
                    (trading_world full_signal approval true))
                 eurusd_d "EURUSD" None None true initial_state)) !! 7
  = None.
Proof.
  destruct (unpublished_fill_is_not_recorded
              (with_bus deaf_to_openings (trading_world full_signal approval true))
              eurusd_d "EURUSD" None None initial_state full_signal
              (Num (1 # 1)) (Num (12 # 10)) approval eq_refl eq_refl eq_refl eq_refl eq_refl
              (filled 7) "ConnectionError" eq_refl eq_refl) as [_ Hstate].
  rewrite Hstate. reflexivity.
Defined.

Lemma brain_failure_does_not_stop_recording_witness :
  is_Some
    (_open_trades
       (state_of (process_binding
                    (with_brain (fun _ => Raise "BrainError")
                       (trading_world full_signal approval true))
                    eurusd_d "EURUSD" None None true initial_state)) !! 7).
Proof.
  destruct (brain_failure_does_not_stop_recording
              (with_brain (fun _ => Raise "BrainError")
                 (trading_world full_signal approval true))
              eurusd_d "EURUSD" None None initial_state full_signal
              (Num (1 # 1)) (Num (12 # 10)) approval eq_refl eq_refl eq_refl eq_refl eq_refl
              (filled 7) eq_refl eq_refl) as (_ & Hstate & _).
  rewrite Hstate. vm_compute. eauto.
Defined.

Lemma order_only_after_approval_witness :
  exists signal risk_check,
    run_cycle (trading_world full_signal approval true) "EURUSD_D" "EURUSD"
    = Ret (Some signal) /\
    approved risk_check = true /\
    (1 # 100 = position_size risk_check)%type.
Proof.
  destruct (order_only_after_approval
              (trading_world full_signal approval true) eurusd_d "EURUSD"
              None None true initial_state
              "EURUSD" BUY (1 # 100) (Num (1 # 1)) (Num (12 # 10)) "JSR_EURUSD_D")
    as (signal & rc & Hrun & _ & _ & Happ & _ & _ & Hlots & _).
  - vm_compute. do 2 apply list_elem_of_further. apply list_elem_of_here.
  - exists signal, rc. auto.
Defined.

Lemma turn_raises_only_with_the_bus_witness :
  exists status,
    result_of (process_binding (trading_world full_signal approval false)
                 eurusd_d "EURUSD" None None true initial_state)
    = Ret status.
Proof.
  apply (proj2 (turn_raises_only_with_the_bus
                  (trading_world full_signal approval false) eurusd_d "EURUSD"
                  None None true initial_state)).
  intros e. reflexivity.
Defined.

Lemma strategy_failure_is_reported_witness :
  trace_of (process_binding broken_strategy_world eurusd_d "EURUSD" None None
              true initial_state)
  = [CallRunCycle "EURUSD_D" "EURUSD";
     CallPublish (STRATEGY_ERROR "EURUSD_D" "EURUSD" "ValueError")].
Proof.
  destruct (strategy_failure_is_reported broken_strategy_world eurusd_d
              "EURUSD" None None initial_state "ValueError")
    as (Htrace & _).
  - reflexivity.
  - reflexivity.
  - exact Htrace.
Defined.

(* ===================================================================== *)
(** * Further properties of the trade record *)
(* ===================================================================== *)

(** X13: a turn never drops a tracked trade: every ticket of
    [_open_trades] before the turn is still in it after the turn, whatever
    the collaborators answer. *)
Theorem turn_keeps_tracked_tickets (w : Collaborators) (b : Binding)
    (symbol : string) (fallback_atr : option Q) (regime : option string)
    (new_candle : bool) (s : EngineState) (ticket : Z) :
  is_Some (_open_trades s !! ticket) ->
  is_Some (_open_trades
             (state_of (process_binding w b symbol fallback_atr regime
                          new_candle s)) !! ticket).
Proof.
  intros Htracked.
  unfold process_binding, record_trade, _get_or_create_master_id. run_loop.
  split_answers; cbn [fst snd _open_trades set_open_trades set_cached_master_id];
    try exact Htracked;
    apply lookup_insert_is_Some'; right; exact Htracked.
Qed.

Lemma turn_keeps_tracked_tickets_witness :
  is_Some (_open_trades
             (state_of (process_binding (trading_world full_signal approval true)
                          eurusd_d "EURUSD" None None true two_trades)) !! 8).
Proof.
  apply turn_keeps_tracked_tickets. vm_compute. eauto.
Defined.

(** X14: the master account is looked up once.  After a call of
    [_get_or_create_master_id] that returned an id, the id is cached, and the
    next call returns it without touching the database. *)
Theorem master_id_is_cached (w : Collaborators) (s : EngineState) (id : Z) :
  result_of (_get_or_create_master_id w s) = Ret id ->
  _cached_master_id (state_of (_get_or_create_master_id w s)) = Some id /\
  _get_or_create_master_id w (state_of (_get_or_create_master_id w s))
  = (Ret id, state_of (_get_or_create_master_id w s), []).
Proof.
  unfold _get_or_create_master_id. run_loop.
  destruct (_cached_master_id s) as [cached|] eqn:Ecache.
  - cbn [fst snd]. intros H. injection H as <-. rewrite Ecache.
    split; reflexivity.
  - destruct (db_find_master w) as [[found|]|e]; cbn [fst snd].
    + intros H. injection H as <-. split; reflexivity.
    + destruct (db_create_master w) as [created|e]; cbn [fst snd];
        intros H; [|discriminate H].
      injection H as <-. split; reflexivity.
    + intros H. discriminate H.
Qed.

Lemma master_id_is_cached_witness :
  _get_or_create_master_id (trading_world full_signal approval true)
    (state_of (_get_or_create_master_id
                 (trading_world full_signal approval true) initial_state))
  = (Ret 1,
     state_of (_get_or_create_master_id
                 (trading_world full_signal approval true) initial_state),
     []).
Proof.
  apply (master_id_is_cached (trading_world full_signal approval true)
           initial_state 1).
  reflexivity.
Defined.

(** The key of a binding is cut at its first underscore. *)
Lemma after_first_underscore_app (symbol code : string) :
  after_first_underscore symbol = None ->
  after_first_underscore (symbol +:+ "_" +:+ code) = Some code.
Proof.
  induction symbol as [|c symbol IH]; [reflexivity|].
  simpl. destruct (Ascii.eqb c "_"); [discriminate|]. exact IH.
Qed.

(** X15: the strategy code survives the round trip through the trade
    record.  For a symbol without underscore, the code stored for the key
    symbol_code is code, and the name the closure notice rebuilds from the
    stored symbol and code is the key again.  (The key is cut at its first
    underscore: a symbol that contains one loses its tail to the code.) *)
Theorem strategy_code_round_trip (symbol code : string) :
  after_first_underscore symbol = None ->
  strategy_code_of (symbol +:+ "_" +:+ code) = code /\
  symbol +:+ "_" +:+ strategy_code_of (symbol +:+ "_" +:+ code)
  = symbol +:+ "_" +:+ code.
Proof.
  intros H. unfold strategy_code_of.
  rewrite (after_first_underscore_app symbol code H). split; reflexivity.
Qed.

Lemma strategy_code_round_trip_witness :
  strategy_code_of ("XAUUSD" +:+ "_" +:+ "D") = "D".
Proof.
  apply (proj1 (strategy_code_round_trip "XAUUSD" "D" eq_refl)).
Defined.

Example underscore_in_symbol_shifts_the_code :
  strategy_code_of ("BTC_USD" +:+ "_" +:+ "D") = "USD_D".
Proof. reflexivity. Qed.

Lemma substring_length_le (m : nat) (text : string) :
  (String.length (String.substring 0 m text) <= m)%nat.
Proof.
  revert text. induction m as [|m IH]; intros [|c text]; simpl; try lia.
  specialize (IH text). lia.
Qed.

Lemma substring_short (m : nat) (text : string) :
  (String.length text <= m)%nat -> String.substring 0 m text = text.
Proof.
  revert text. induction m as [|m IH]; intros [|c text]; simpl; intros H;
    try reflexivity; try lia.
  f_equal. apply IH. lia.
Qed.

(** The comment of an order never exceeds the 31 characters the
    broker accepts, and a key of at most 27 characters is carried in full
    after the prefix JSR_. *)
Theorem order_comment_fits (w : Collaborators) (b : Binding) (symbol : string)
    (fallback_atr : option Q) (regime : option string) (new_candle : bool)
    (s : EngineState) (sym : string) (dir : OrderDirection) (lots : Q) (sl tp : float)
    (comment : string) :
  CallOpenPosition sym dir lots sl tp comment
    ∈ trace_of (process_binding w b symbol fallback_atr regime new_candle s) ->
  (String.length comment <= 31)%nat /\
  ((String.length (strat_key b) <= 27)%nat -> comment = "JSR_" +:+ strat_key b).
Proof.
  intros Hin.
  assert (Hcomment : comment = String.substring 0 31 ("JSR_" +:+ strat_key b)).
  { revert Hin.
    unfold process_binding, record_trade, _get_or_create_master_id. run_loop.
    split_answers; cbn [fst snd app]; intros Hin; trace_inv Hin;
      injection Hin as -> -> -> -> -> ->; reflexivity. }
  subst comment. split; [apply substring_length_le|].
  intros Hkey. apply substring_short.
  change (String.length ("JSR_" +:+ strat_key b))
    with (4 + String.length (strat_key b))%nat.
  lia.
Qed.

Lemma order_comment_fits_witness :
  (String.length "JSR_EURUSD_D" <= 31)%nat.
Proof.
  apply (proj1 (order_comment_fits (trading_world full_signal approval true)
                  eurusd_d "EURUSD" None None true initial_state
                  "EURUSD" BUY (1 # 100) (Num (1 # 1)) (Num (12 # 10)) "JSR_EURUSD_D"
                  ltac:(vm_compute; do 2 apply list_elem_of_further;
                        apply list_elem_of_here))).
Defined.

(* ===================================================================== *)
(** * Further properties of the reconciliation *)
(* ===================================================================== *)

(** X16: a reconciliation that learns nothing changes nothing.  With no
    tracked trade it returns without asking the broker; when the request for
    the open positions raises, it returns with the record as it was: no
    ticket is popped and no closure is processed. *)
Theorem blind_reconciliation_changes_nothing (w : Collaborators) (s : EngineState) :
  (_open_trades s = ∅ -> _check_closed_positions w s = (Ret tt, s, [])) /\
  (forall e,
      _open_trades s <> ∅ -> get_open_positions w = Raise e ->
      _check_closed_positions w s = (Ret tt, s, [CallGetOpenPositions])).
Proof.
  unfold _check_closed_positions. run_loop. split.
  - intros ->. reflexivity.
  - intros e Hne Hraise.
    rewrite bool_decide_eq_false_2 by exact Hne. rewrite Hraise. reflexivity.
Qed.

Lemma blind_reconciliation_changes_nothing_witness :
  _check_closed_positions closing_world initial_state
  = (Ret tt, initial_state, []).
Proof.
  apply (proj1 (blind_reconciliation_changes_nothing closing_world
                  initial_state)).
  reflexivity.
Defined.

(** X17: a reconciliation pass keeps exactly the tracked trades the broker
    still reports, each with the entry it had: nothing else is removed,
    nothing is added and no entry is altered. *)
Theorem reconciliation_keeps_open_trades (w : Collaborators) (s : EngineState)
    (positions : list (option Z)) (ticket : Z) (info : TradeInfo) :
  get_open_positions w = Ret positions ->
  _open_trades (state_of (_check_closed_positions w s)) !! ticket = Some info
  <-> _open_trades s !! ticket = Some info /\ Some ticket ∈ positions.
Proof.
  intros Hbroker.
  destruct (reconcile_once w positions Hbroker s) as (trace & -> & _).
  apply reconciled_lookup.
Qed.

Lemma reconciliation_keeps_open_trades_witness :
  _open_trades (state_of (_check_closed_positions closing_world two_trades)) !! 8
  = Some (mkTradeInfo 502 "A" "EURUSD" SELL).
Proof.
  apply (reconciliation_keeps_open_trades closing_world two_trades [Some 8] 8
           (mkTradeInfo 502 "A" "EURUSD" SELL) eq_refl).
  split; [reflexivity|apply list_elem_of_here].
Defined.

(** X18: the closures of a pass are isolated from one another and from
    the collaborators.  When the broker answers, the pass returns, and the
    closure processing starts for every tracked ticket the broker no longer
    reports and for no other, whatever the history, the storage, the feed and
    the brain answer or raise. *)
Theorem every_closure_is_attempted (w : Collaborators) (s : EngineState)
    (positions : list (option Z)) (ticket : Z) :
  get_open_positions w = Ret positions ->
  result_of (_check_closed_positions w s) = Ret tt /\
  (ticket ∈ closures_started (trace_of (_check_closed_positions w s))
   <-> is_Some (_open_trades s !! ticket) /\ Some ticket ∉ positions).
Proof.
  intros Hbroker.
  destruct (reconcile_once w positions Hbroker s)
    as (trace & -> & Hstarted & _).
  split; [reflexivity|].
  unfold trace_of. cbn [snd]. rewrite Hstarted. apply closed_tickets_spec.
Qed.

Lemma every_closure_is_attempted_witness :
  7 ∈ closures_started
        (trace_of (_check_closed_positions storage_down_closing_world two_trades)).
Proof.
  apply (every_closure_is_attempted storage_down_closing_world two_trades
           [Some 8] 7 eq_refl).
  split; [vm_compute; eauto|].
  intros H. apply list_elem_of_singleton in H. discriminate H.
Defined.

Section Closure.

Variable w : Collaborators.
Variable ticket : Z.
Variable info : TradeInfo.
Variable s : EngineState.

Local Notation "'closure'" := (process_closure w ticket info s).

(** X19: a closure whose trade row cannot be read is dropped.  When the
    session cannot be opened, or the lookup of the trade row raises or finds
    nothing, the closure is not written to the database, the strategy
    performance is not updated and the brain is not notified; the ticket was
    popped before, so no later pass comes back to it. *)
Theorem unreadable_trade_drops_the_closure :
  (exists e, db_session w = Raise e) \/
  (exists e, db_get_trade w (trade_id info) = Raise e) \/
  db_get_trade w (trade_id info) = Ret None ->
  forall c, c ∈ trace_of closure -> ~ closing_effect c.
Proof.
  intros Hfail c.
  destruct (fetch_position_data_run w ticket s) as [d Hfetch].
  unfold process_closure, bind at 1. rewrite Hfetch.
  unfold bind at 1, call at 1.
  destruct (db_session w) as [[]|e0] eqn:Esession; cbn [trace_of snd app].
  - unfold bind at 1, call at 1.
    destruct (db_get_trade w (trade_id info)) as [[row|]|e1] eqn:Erow.
    + exfalso. destruct Hfail as [[e H]|[[e H]|H]]; discriminate H.
    + unfold ret. cbn [snd app]. intros Hin. trace_inv Hin;
        subst c; intros Heffect; exact Heffect.
    + cbn [snd app]. intros Hin. trace_inv Hin;
        subst c; intros Heffect; exact Heffect.
  - intros Hin. trace_inv Hin; subst c; intros Heffect; exact Heffect.
Qed.

(** X20: with deal data from the history, the closure is written with the
    price, profit, commission and swap of the deal, a key the deal lacks
    counting as 0.0, and the tick is not asked for. *)
Theorem deal_data_closes_the_trade (deal : gmap string Q) (row : TradeRow) :
  result_of (fetch_position_data w ticket s) = Ret (Some deal) ->
  deal <> ∅ ->
  db_session w = Ret tt ->
  db_get_trade w (trade_id info) = Ret (Some row) ->
  CallCloseTrade (trade_id info) (get_or_zero deal "price")
    (get_or_zero deal "profit") (get_or_zero deal "commission")
    (get_or_zero deal "swap") ∈ trace_of closure /\
  (forall sym, CallGetTick sym ∉ trace_of closure).
Proof.
  intros Hdeal Hne Hsession Hrow.
  destruct (fetch_position_data_run w ticket s) as [d Hfetch].
  rewrite Hfetch in Hdeal. injection Hdeal as ->.
  remember (trace_of closure) as trace eqn:Htrace. revert Htrace.
  unfold process_closure, bind at 1. rewrite Hfetch.
  unfold bind at 1, call at 1. rewrite Hsession.
  unfold bind at 1, call at 1. rewrite Hrow.
  unfold bind at 1, closing_values, dict_truthy.
  rewrite bool_decide_eq_false_2 by exact Hne. cbn [negb]. run_loop.
  split_answers; cbn [fst snd app]; intros ->; split;
    try (do 3 apply list_elem_of_further; apply list_elem_of_here);
    intros sym Hin; trace_inv Hin.
Qed.

(** X21: the brain hears of a closure exactly when the closure was
    written.  If [close_trade] returns, the notice is sent even when the
    performance update fails; if [close_trade] raises, neither the
    performance update nor the notice happens. *)
Theorem notice_follows_the_write (row : TradeRow)
    (exit_price profit commission swap : Q) :
  db_session w = Ret tt ->
  db_get_trade w (trade_id info) = Ret (Some row) ->
  CallCloseTrade (trade_id info) exit_price profit commission swap
    ∈ trace_of closure ->
  (close_trade w (trade_id info) exit_price profit commission swap = Ret tt ->
   CallBrain
     (BrainClosed (ti_symbol info +:+ "_" +:+ strategy_code info)
        (ti_symbol info) (ti_direction info) (row_entry_price row) exit_price
        (profit - commission - swap) (Qgtb (profit - commission - swap) 0)
        ticket) ∈ trace_of closure) /\
  (forall e,
      close_trade w (trade_id info) exit_price profit commission swap = Raise e ->
      forall c, c ∈ trace_of closure ->
                c = CallCloseTrade (trade_id info) exit_price profit commission swap
                \/ ~ closing_effect c).
Proof.
  intros Hsession Hrow.
  unfold process_closure, fetch_position_data, closing_values. run_loop.
  rewrite Hsession, Hrow.
  split_answers; cbn [fst snd app]; intros Hin; trace_inv Hin;
    injection Hin as -> -> -> ->;
    (split;
     [ intros Hclose; try congruence;
       solve [repeat first [apply list_elem_of_here | apply list_elem_of_further]]
     | intros failure Hclose other Hother; try congruence;
       trace_inv Hother; subst other;
       first [left; reflexivity | right; intros Heffect; exact Heffect] ]).
Qed.

End Closure.

Lemma unreadable_trade_drops_the_closure_witness :
  ~ closing_effect CallDbSession.
Proof.
  apply (unreadable_trade_drops_the_closure storage_down_closing_world 7
           (mkTradeInfo 501 "D" "EURUSD" BUY) initial_state).
  - left. exists "OperationalError". reflexivity.
  - vm_compute. apply list_elem_of_further, list_elem_of_here.
Defined.

Lemma deal_data_closes_the_trade_witness :
  CallCloseTrade 501 (11050 # 10000) (5 # 1) 0 0
    ∈ trace_of (process_closure deal_world 7
                  (mkTradeInfo 501 "D" "EURUSD" BUY) initial_state).
Proof.
  apply (deal_data_closes_the_trade deal_world 7
           (mkTradeInfo 501 "D" "EURUSD" BUY) initial_state deal_7
           (mkTradeRow 501 (11 # 10))).
  - reflexivity.
  - intros H. apply (f_equal (fun d => d !! "price")) in H. discriminate H.
  - reflexivity.
  - reflexivity.
Defined.

Lemma notice_follows_the_write_witness :
  CallBrain
    (BrainClosed "EURUSD_D" "EURUSD" BUY (11 # 10) (12000 # 10000)
       (0 - 0 - 0) false 7)
    ∈ trace_of (process_closure closing_world 7
                  (mkTradeInfo 501 "D" "EURUSD" BUY) initial_state).
Proof.
  apply (notice_follows_the_write closing_world 7
           (mkTradeInfo 501 "D" "EURUSD" BUY) initial_state
           (mkTradeRow 501 (11 # 10)) (12000 # 10000) 0 0 0).
  - reflexivity.
  - reflexivity.
  - vm_compute. do 4 apply list_elem_of_further. apply list_elem_of_here.
  - reflexivity.
Defined.

(* ===================================================================== *)
(** * Further properties of the candle-change detection *)
(* ===================================================================== *)

(** X22: a candle is reported as new once.  After a detection that
    accepted a fetch, a detection of the same key on the same fetch answers
    "not new" and leaves the cursor where it is. *)
Theorem same_candle_is_not_new_again (w : Collaborators) (symbol tf : string)
    (s : EngineState) (t : Z) :
  accepted_latest (get_candles w symbol tf 200) = Some t ->
  let s1 := state_of (detect_new_candle w symbol tf s) in
  result_of (detect_new_candle w symbol tf s1) = Ret false /\
  _last_candle_time (state_of (detect_new_candle w symbol tf s1)) !! (symbol, tf)
  = Some t.
Proof.
  intros Hfetch s1.
  assert (Hcursor : _last_candle_time s1 !! (symbol, tf) = Some t)
    by (apply detect_cursor_accepted; exact Hfetch).
  split; [|apply detect_cursor_accepted; exact Hfetch].
  rewrite detect_new_candle_unfold, Hfetch, Hcursor.
  unfold result_of. cbn [fst]. f_equal.
  rewrite Z.gtb_ltb. apply Z.ltb_irrefl.
Qed.

Lemma same_candle_is_not_new_again_witness :
  result_of
    (detect_new_candle (feed_world [100; 200]) "EURUSD" "M15"
       (state_of (detect_new_candle (feed_world [100; 200]) "EURUSD" "M15"
                    initial_state)))
  = Ret false.
Proof.
  apply (same_candle_is_not_new_again (feed_world [100; 200]) "EURUSD" "M15"
           initial_state 200 eq_refl).
Defined.

(** X23: a detection always returns, makes the one request for the candles
    of its key, and writes nothing but the cursor of that key: the cursors of
    the other keys, the tracked trades and the cached master account are as
    before. *)
Theorem detection_is_local (w : Collaborators) (symbol tf : string)
    (s : EngineState) :
  let r := detect_new_candle w symbol tf s in
  (exists new_candle, result_of r = Ret new_candle) /\
  trace_of r = [CallGetCandles symbol tf 200] /\
  (forall key, key <> (symbol, tf) ->
               _last_candle_time (state_of r) !! key = _last_candle_time s !! key) /\
  _open_trades (state_of r) = _open_trades s /\
  _cached_master_id (state_of r) = _cached_master_id s.
Proof.
  cbv zeta. split; [|split; [|split; [|split]]].
  - rewrite detect_new_candle_unfold.
    destruct (accepted_latest _); cbn; eauto.
  - rewrite detect_new_candle_unfold.
    destruct (accepted_latest _); reflexivity.
  - intros key Hkey. apply detect_other_key. exact Hkey.
  - apply detect_new_candle_keeps_trades.
  - rewrite detect_new_candle_unfold.
    destruct (accepted_latest _); reflexivity.
Qed.

Lemma detection_is_local_witness :
  _last_candle_time
    (state_of (detect_new_candle (feed_world [100; 200]) "EURUSD" "M15"
                 (with_cursor "XAUUSD" "M15" 50))) !! ("XAUUSD", "M15")
  = Some 50.
Proof.
  destruct (detection_is_local (feed_world [100; 200]) "EURUSD" "M15"
              (with_cursor "XAUUSD" "M15" 50)) as (_ & _ & Hother & _).
  rewrite Hother; [reflexivity|discriminate].
Defined.

(** Only the detection writes the cursor.  Neither a binding's turn
    nor a reconciliation pass changes [_last_candle_time], whatever the
    collaborators answer. *)
Theorem cursor_is_written_by_detection_only (w : Collaborators) (b : Binding)
    (symbol : string) (fallback_atr : option Q) (regime : option string)
    (new_candle : bool) (s : EngineState) :
  _last_candle_time
    (state_of (process_binding w b symbol fallback_atr regime new_candle s))
  = _last_candle_time s /\
  _last_candle_time (state_of (_check_closed_positions w s))
  = _last_candle_time s.
Proof.
  split.
  - apply process_binding_keeps_cursor.
  - apply check_closed_positions_keeps_cursor.
Qed.

(* ===================================================================== *)
(** * Further properties: symbols, account summary, rounding *)
(* ===================================================================== *)

Lemma TRADING_SYMBOLS_NoDup : NoDup TRADING_SYMBOLS.
Proof.
  unfold TRADING_SYMBOLS.
  repeat (apply NoDup_cons; split;
          [intros H; repeat (apply elem_of_cons in H as [H|H]; [discriminate H|]);
           apply elem_of_nil in H; exact H|]).
  apply NoDup_nil. exact I.
Qed.

(** X24: the symbols the engine trades after the broker was asked.  They
    are never none, have no duplicate and are trading symbols.  When the
    broker lists at least one trading symbol they are exactly the trading
    symbols the broker lists; when it lists none of them, or cannot be
    asked, the engine keeps all four, listed by the broker or not. *)
Theorem resolved_symbols_are_tradable (available : outcome (list string)) :
  let symbols := resolve_symbols TRADING_SYMBOLS available in
  symbols <> [] /\ NoDup symbols /\
  (forall s, s ∈ symbols -> s ∈ TRADING_SYMBOLS) /\
  (forall listed,
      available = Ret listed ->
      (exists s, s ∈ TRADING_SYMBOLS /\ s ∈ listed) ->
      forall s, s ∈ symbols <-> s ∈ TRADING_SYMBOLS /\ s ∈ listed) /\
  (forall listed,
      available = Ret listed ->
      (forall s, s ∈ TRADING_SYMBOLS -> s ∉ listed) ->
      symbols = TRADING_SYMBOLS) /\
  (forall e, available = Raise e -> symbols = TRADING_SYMBOLS).
Proof.
  cbv zeta. unfold resolve_symbols.
  destruct available as [listed|e].
  - destruct (filter (fun s => s ∈ listed) TRADING_SYMBOLS) as [|s0 rest] eqn:E.
    + split; [discriminate|]. split; [apply TRADING_SYMBOLS_NoDup|].
      split; [auto|]. split; [|split; [reflexivity|reflexivity]].
      intros listed' H [s [Hs Hl]]. injection H as <-. exfalso.
      assert (Hin : s ∈ filter (fun s => s ∈ listed) TRADING_SYMBOLS)
        by (apply list_elem_of_filter; auto).
      rewrite E in Hin. apply elem_of_nil in Hin. exact Hin.
    + rewrite <- E. split; [rewrite E; discriminate|].
      split; [apply NoDup_filter, TRADING_SYMBOLS_NoDup|].
      split; [intros s Hs; apply list_elem_of_filter in Hs; tauto|].
      split; [|split; [|intros e H; discriminate H]].
      * intros listed' H _ s. injection H as <-.
        rewrite list_elem_of_filter. tauto.
      * intros listed' H Hnone. injection H as <-. exfalso.
        assert (Hin : s0 ∈ filter (fun s => s ∈ listed) TRADING_SYMBOLS)
          by (rewrite E; apply list_elem_of_here).
        apply list_elem_of_filter in Hin as [Hl Hs]. exact (Hnone s0 Hs Hl).
  - split; [discriminate|]. split; [apply TRADING_SYMBOLS_NoDup|].
    split; [auto|]. split; [intros listed H; discriminate H|].
    split; [intros listed H; discriminate H|reflexivity].
Qed.

Lemma resolved_symbols_are_tradable_witness :
  resolve_symbols TRADING_SYMBOLS (Ret ["AUDUSD"; "NZDUSD"]) = TRADING_SYMBOLS.
Proof.
  destruct (resolved_symbols_are_tradable (Ret ["AUDUSD"; "NZDUSD"]))
    as (_ & _ & _ & _ & Hnone & _).
  apply (Hnone ["AUDUSD"; "NZDUSD"] eq_refl).
  intros s Hs Hl. unfold TRADING_SYMBOLS in Hs.
  repeat (apply elem_of_cons in Hs as [->|Hs];
          [repeat (apply elem_of_cons in Hl as [Hl|Hl]; [discriminate Hl|]);
           apply elem_of_nil in Hl; exact Hl|]).
  apply elem_of_nil in Hs. exact Hs.
Defined.







Example drawdown_of_the_summary :
  feq (summary_drawdown (Num 10000) (Num 9500)) (Num 5).
Proof. reflexivity. Qed.

(** An equity of 10000.4 on a balance of 10000 is a drawdown of -0.004,
    which the summary shows as 0. *)
Example small_gain_rounds_to_zero :
  feq (summary_drawdown (Num 10000) (Num (100004 # 10))) (Num 0).
Proof. reflexivity. Qed.

Lemma round_half_even_pos (y : Q) :
  (0 < round_half_even y)%Z <-> (1 # 2 < y)%Q.
Proof.
  unfold round_half_even. cbv zeta.
  pose proof (Qfloor_le y) as Hlo. pose proof (Qlt_floor y) as Hhi.
  rewrite inject_Z_plus in Hhi.
  change (inject_Z 1) with 1%Q in Hhi.
  set (f := Qfloor y) in *.
  assert (Hpos : (0 < f)%Z <-> (1 <= inject_Z f)%Q).
  { change 1%Q with (inject_Z 1). rewrite <- Zle_Qle. lia. }
  assert (Hpos' : (0 < f + 1)%Z <-> (0 <= inject_Z f)%Q).
  { change 0%Q with (inject_Z 0). rewrite <- Zle_Qle. lia. }
  destruct (Qcompare_spec (y - inject_Z f) (1 # 2)) as [E|E|E].
  - destruct (Z.even f) eqn:Ev.
    + rewrite Hpos. split; intros H; [lra|].
      destruct (Z_lt_le_dec 0 f) as [Hf|Hf]; [apply Hpos; exact Hf|].
      exfalso. rewrite Zle_Qle in Hf. change (inject_Z 0) with 0%Q in Hf. lra.
    + rewrite Hpos'. split; intros H.
      * destruct (Z.eq_dec f 0) as [Hz|Hz]; [rewrite Hz in Ev; discriminate Ev|].
        assert (H1 : (1 <= inject_Z f)%Q).
        { apply Hpos. change 0%Q with (inject_Z 0) in H.
          rewrite <- Zle_Qle in H. lia. }
        lra.
      * lra.
  - rewrite Hpos. split; intros H; [lra|].
    destruct (Z_lt_le_dec 0 f) as [Hf|Hf]; [apply Hpos; exact Hf|].
    exfalso. rewrite Zle_Qle in Hf. change (inject_Z 0) with 0%Q in Hf. lra.
  - rewrite Hpos'. split; intros H; [lra|].
    destruct (Z_lt_le_dec f 0) as [Hf|Hf].
    + exfalso. assert (H1 : (f + 1 <= 0)%Z) by lia.
      rewrite Zle_Qle in H1. rewrite inject_Z_plus in H1.
      change (inject_Z 1) with 1%Q in H1. change (inject_Z 0) with 0%Q in H1.
      lra.
    + rewrite Zle_Qle in Hf. exact Hf.
Qed.

Lemma py_round_4_pos (x : Q) :
  (0 < py_round 4 x)%Q <-> (1 # 20000 < x)%Q.
Proof.
  unfold py_round. change (10 ^ Z.of_nat 4)%Z with 10000%Z.
  set (r := round_half_even (x * inject_Z 10000)).
  assert (Hr : (0 < r)%Z <-> (1 # 20000 < x)%Q).
  { unfold r. rewrite round_half_even_pos.
    change (inject_Z 10000) with 10000%Q. split; intros H; lra. }
  rewrite <- Hr. split; intros H.
  - rewrite Zlt_Qlt. change (inject_Z 0) with 0%Q.
    destruct (Z_lt_le_dec 0 r) as [Hp|Hp]; [rewrite Zlt_Qlt in Hp; exact Hp|].
    exfalso. rewrite Zle_Qle in Hp. change (inject_Z 0) with 0%Q in Hp.
    assert (Hd : (inject_Z r / inject_Z 10000 <= 0)%Q).
    { apply Qle_shift_div_r; [reflexivity|]. lra. }
    lra.
  - rewrite Zlt_Qlt in H. change (inject_Z 0) with 0%Q in H.
    apply Qlt_shift_div_l; [reflexivity|]. lra.
Qed.

Lemma usable_atr_None_iff (a : Q) :
  usable_atr (Some a) = None <-> (a <= 0)%Q.
Proof.
  unfold usable_atr. destruct (Qgtb a 0) eqn:E.
  - apply Qgtb_gt in E.
    destruct (Qeq_bool a 0) eqn:Z0.
    + apply Qeq_bool_iff in Z0. lra.
    + cbn [negb andb]. split; [discriminate|intros H; lra].
  - rewrite andb_false_r. split; [intros _|reflexivity].
    destruct (Qlt_le_dec 0 a) as [H|H]; [|exact H].
    apply Qgtb_gt in H. rewrite H in E. discriminate E.
Qed.

(** X26: the H1 ATR is rounded to four decimals before it serves as the
    fallback for missing stops, half to even.  So a last H1 ATR of at most
    0.00005 is no fallback at all, and a larger one is a fallback, after
    rounding, of at least 0.0001. *)
Theorem small_h1_atr_is_no_fallback (atr_vals : list (option Q)) (x : Q) :
  last atr_vals = Some (Some x) ->
  (usable_atr (rounded_atr atr_vals) = None <-> (x <= 1 # 20000)%Q) /\
  (forall a, usable_atr (rounded_atr atr_vals) = Some a ->
             a = py_round 4 x /\ (1 # 10000 <= a)%Q).
Proof.
  intros Hlast. unfold rounded_atr. rewrite Hlast. split.
  - rewrite usable_atr_None_iff.
    pose proof (py_round_4_pos x) as H.
    split; intros Hx.
    + destruct (Qlt_le_dec (1 # 20000) x) as [Hc|Hc]; [|exact Hc].
      apply H in Hc. lra.
    + destruct (Qlt_le_dec 0 (py_round 4 x)) as [Hc|Hc]; [|exact Hc].
      apply H in Hc. lra.
  - intros a Ha. apply usable_atr_positive in Ha as [Ha Hpos].
    injection Ha as <-. split; [reflexivity|].
    revert Hpos. unfold py_round. change (10 ^ Z.of_nat 4)%Z with 10000%Z.
    set (r := round_half_even (x * inject_Z 10000)). intros Hpos.
    assert (Hr : (1 <= r)%Z).
    { destruct (Z_lt_le_dec 0 r) as [Hp|Hp]; [lia|].
      exfalso. rewrite Zle_Qle in Hp. change (inject_Z 0) with 0%Q in Hp.
      assert (Hd : (inject_Z r / inject_Z 10000 <= 0)%Q).
      { apply Qle_shift_div_r; [reflexivity|]. lra. }
      lra. }
    rewrite Zle_Qle in Hr. change (inject_Z 1) with 1%Q in Hr.
    apply Qle_shift_div_l; [reflexivity|].
    change (inject_Z 10000) with 10000%Q. lra.
Qed.

Lemma small_h1_atr_is_no_fallback_witness :
  usable_atr (rounded_atr [None; Some (1 # 20000)]) = None.
Proof.
  apply (proj1 (small_h1_atr_is_no_fallback [None; Some (1 # 20000)]
                  (1 # 20000) eq_refl)).
  discriminate.
Defined.

Example atr_just_above_the_tie_is_a_fallback :
  usable_atr (rounded_atr [Some (51 # 1000000)]) = Some (py_round 4 (51 # 1000000))
  /\ (py_round 4 (51 # 1000000) == 1 # 10000)%Q.
Proof. split; reflexivity. Qed.

(* ===================================================================== *)
(** * Further properties: the registry and the bindings of a symbol *)
(* ===================================================================== *)

Lemma append_inj_l (s a b : string) : s +:+ a = s +:+ b -> a = b.
Proof.
  induction s as [|c s IH]; simpl; [auto|].
  intros H. injection H as H. auto.
Qed.

Lemma key_eqb (s a b : string) :
  a <> b -> String.eqb (s +:+ a) (s +:+ b) = false.
Proof.
  intros H. apply String.eqb_neq. intros E. apply H.
  exact (append_inj_l s a b E).
Qed.

Lemma dict_set_fresh {V : Type} (key : string) (value : V)
    (d : list (string * V)) :
  key ∉ d.*1 -> dict_set key value d = d ++ [(key, value)].
Proof.
  induction d as [|[k v] d IH]; intros H; [reflexivity|].
  cbn [dict_set]. rewrite fmap_cons in H. apply not_elem_of_cons in H as [Hk Hd].
  cbn [fst] in Hk.
  assert (E : String.eqb k key = false) by (apply String.eqb_neq; congruence).
  rewrite E, (IH Hd). reflexivity.
Qed.

Lemma register_symbol_nil (symbol : string) :
  register_symbol symbol [] =
  [ (symbol +:+ "_A",
     mkRegistration symbol "A" "M15" 200 (lot_size (symbol_config symbol)));
    (symbol +:+ "_B",
     mkRegistration symbol "B" "M15" 100 (lot_size (symbol_config symbol)));
    (symbol +:+ "_C",
     mkRegistration symbol "C" "M15" 100 (lot_size (symbol_config symbol)));
    (symbol +:+ "_D",
     mkRegistration symbol "D" "M15" 100 (lot_size (symbol_config symbol))) ].
Proof.
  unfold register_symbol. cbv zeta.
  repeat (cbn [dict_set]; rewrite key_eqb by discriminate). reflexivity.
Qed.

Lemma register_symbol_keys (symbol k : string) :
  k ∈ (register_symbol symbol []).*1 ->
  exists code, k = symbol +:+ "_" +:+ code.
Proof.
  rewrite register_symbol_nil. cbn [fmap list_fmap fst].
  intros H.
  repeat (apply elem_of_cons in H as [->|H]; [eexists; reflexivity|]).
  apply elem_of_nil in H. destruct H.
Qed.

Lemma register_symbol_fresh (symbol : string)
    (d : list (string * Registration)) :
  (forall code, symbol +:+ "_" +:+ code ∉ d.*1) ->
  register_symbol symbol d = d ++ register_symbol symbol [].
Proof.
  intros Hfresh. rewrite register_symbol_nil.
  unfold register_symbol. cbv zeta.
  assert (Hnot : forall code (l : list (string * Registration)),
             (forall k, k ∈ l.*1 -> String.eqb k (symbol +:+ "_" +:+ code) = false) ->
             symbol +:+ "_" +:+ code ∉ (d ++ l).*1).
  { intros code l Hl. rewrite fmap_app. intros H.
    apply elem_of_app in H as [H|H]; [exact (Hfresh code H)|].
    apply Hl in H. rewrite String.eqb_refl in H. discriminate H. }
  rewrite (dict_set_fresh (symbol +:+ "_A") _ d) by apply (Hfresh "A").
  rewrite (dict_set_fresh (symbol +:+ "_B")).
  2:{ apply (Hnot "B"). cbn [fmap list_fmap fst]. intros k H.
      repeat (apply elem_of_cons in H as [->|H]; [apply key_eqb; discriminate|]).
      apply elem_of_nil in H. destruct H. }
  rewrite <- app_assoc.
  rewrite (dict_set_fresh (symbol +:+ "_C")).
  2:{ apply (Hnot "C"). cbn [fmap list_fmap fst app]. intros k H.
      repeat (apply elem_of_cons in H as [->|H]; [apply key_eqb; discriminate|]).
      apply elem_of_nil in H. destruct H. }
  rewrite <- app_assoc.
  rewrite (dict_set_fresh (symbol +:+ "_D")).
  2:{ apply (Hnot "D"). cbn [fmap list_fmap fst app]. intros k H.
      repeat (apply elem_of_cons in H as [->|H]; [apply key_eqb; discriminate|]).
      apply elem_of_nil in H. destruct H. }
  rewrite <- app_assoc. reflexivity.
Qed.

Ltac step_append :=
  repeat change (String ?c ?s +:+ ?x) with (String c (s +:+ x));
  repeat change (EmptyString +:+ ?x) with x.

Lemma starts_with_self (symbol rest : string) :
  starts_with (symbol +:+ "_") (symbol +:+ "_" +:+ rest) = true.
Proof.
  induction symbol as [|c symbol IH]; [reflexivity|].
  step_append. cbn [starts_with]. rewrite Ascii.eqb_refl. exact IH.
Qed.

Lemma starts_with_own_symbol (symbol other rest : string) :
  after_first_underscore symbol = None ->
  after_first_underscore other = None ->
  starts_with (symbol +:+ "_") (other +:+ "_" +:+ rest) = true ->
  symbol = other.
Proof.
  revert other. induction symbol as [|c symbol IH]; intros [|c' other];
    step_append; cbn [starts_with after_first_underscore].
  - reflexivity.
  - intros _ Hother. destruct (Ascii.eqb c' "_") eqn:E; [discriminate|].
    rewrite (Ascii.eqb_sym "_" c'), E. discriminate.
  - intros Hsym _. destruct (Ascii.eqb c "_") eqn:E; [discriminate|].
    discriminate.
  - intros Hsym Hother.
    destruct (Ascii.eqb c "_"); [discriminate|].
    destruct (Ascii.eqb c' "_"); [discriminate|].
    destruct (Ascii.eqb c c') eqn:E; [|discriminate].
    apply Ascii.eqb_eq in E. subst c'. cbn [andb]. intros H.
    f_equal. exact (IH other Hsym Hother H).
Qed.

Lemma symbol_strategies_self (symbol : string) :
  symbol_strategies symbol (register_symbol symbol [])
  = register_symbol symbol [].
Proof.
  rewrite register_symbol_nil. unfold symbol_strategies.
  rewrite !filter_cons_True by (cbn [fst]; apply (starts_with_self symbol)).
  reflexivity.
Qed.

Lemma symbol_strategies_other (symbol other : string) :
  after_first_underscore symbol = None ->
  after_first_underscore other = None ->
  symbol <> other ->
  symbol_strategies symbol (register_symbol other []) = [].
Proof.
  intros Hs Ho Hne. rewrite register_symbol_nil. unfold symbol_strategies.
  rewrite !filter_cons_False; [reflexivity|..];
    (cbn [fst]; intros H; apply Hne;
     exact (starts_with_own_symbol symbol other _ Hs Ho H)).
Qed.

Lemma register_strategies_fresh (symbols : list string) :
  NoDup symbols ->
  (forall s, s ∈ symbols -> after_first_underscore s = None) ->
  forall d : list (string * Registration),
    (forall s code, s ∈ symbols -> s +:+ "_" +:+ code ∉ d.*1) ->
    _register_strategies symbols d
    = d ++ flat_map (fun s => register_symbol s []) symbols.
Proof.
  unfold _register_strategies.
  induction symbols as [|s rest IH]; intros Hnd Hfree d Hfresh.
  - simpl. rewrite app_nil_r. reflexivity.
  - apply NoDup_cons in Hnd as [Hs Hnd].
    cbn [foldl flat_map].
    rewrite register_symbol_fresh
      by (intros code; apply Hfresh, list_elem_of_here).
    rewrite IH.
    + rewrite <- app_assoc. reflexivity.
    + exact Hnd.
    + intros s' Hs'. apply Hfree, list_elem_of_further, Hs'.
    + intros s' code Hs'. rewrite fmap_app. intros H.
      apply elem_of_app in H as [H|H].
      * exact (Hfresh s' code (list_elem_of_further _ _ _ Hs') H).
      * apply register_symbol_keys in H as [code' H].
        assert (E : s = s').
        { apply (starts_with_own_symbol s s' code).
          - apply Hfree, list_elem_of_here.
          - apply Hfree, list_elem_of_further, Hs'.
          - rewrite H. apply starts_with_self. }
        subst s'. exact (Hs Hs').
Qed.

Lemma symbol_strategies_flat_map (symbol : string) (symbols : list string) :
  after_first_underscore symbol = None ->
  (forall s, s ∈ symbols -> after_first_underscore s = None) ->
  symbol ∉ symbols ->
  symbol_strategies symbol (flat_map (fun s => register_symbol s []) symbols) = [].
Proof.
  intros Hsym. induction symbols as [|s rest IH]; intros Hfree Hnot; [reflexivity|].
  apply not_elem_of_cons in Hnot as [Hne Hnot].
  cbn [flat_map]. unfold symbol_strategies in *. rewrite filter_app.
  rewrite IH; [|intros s' Hs'; apply Hfree, list_elem_of_further, Hs'|exact Hnot].
  rewrite app_nil_r.
  apply (symbol_strategies_other symbol s Hsym); [|exact Hne].
  apply Hfree, list_elem_of_here.
Qed.

(** X27: the turn of a symbol runs the strategies of that symbol and no
    other.  For symbols without duplicate and without underscore, the
    entries of the registry whose key starts with the symbol and an
    underscore are exactly the four that were registered for it: its A, B, C
    and D, in this order, each on M15 and under the symbol itself. *)
Theorem symbol_runs_its_own_strategies (symbols : list string) (symbol : string) :
  NoDup symbols ->
  (forall s, s ∈ symbols -> after_first_underscore s = None) ->
  symbol ∈ symbols ->
  symbol_strategies symbol (_register_strategies symbols [])
  = register_symbol symbol [] /\
  (register_symbol symbol []).*1
  = [symbol +:+ "_A"; symbol +:+ "_B"; symbol +:+ "_C"; symbol +:+ "_D"] /\
  (forall entry, entry ∈ register_symbol symbol [] ->
                 reg_symbol entry.2 = symbol /\ reg_timeframe entry.2 = "M15" /\
                 entry.1 = symbol +:+ "_" +:+ reg_code entry.2).
Proof.
  intros Hnd Hfree Hin. split; [|split].
  - rewrite register_strategies_fresh; [|exact Hnd|exact Hfree|].
    2:{ intros s code _ H. apply elem_of_nil in H. exact H. }
    rewrite app_nil_l.
    induction symbols as [|s rest IH]; [apply elem_of_nil in Hin; destruct Hin|].
    apply NoDup_cons in Hnd as [Hs Hnd].
    cbn [flat_map]. unfold symbol_strategies. rewrite filter_app.
    fold (symbol_strategies symbol (register_symbol s [])).
    fold (symbol_strategies symbol (flat_map (fun s => register_symbol s []) rest)).
    destruct (decide (symbol = s)) as [->|Hne].
    + rewrite symbol_strategies_self.
      rewrite symbol_strategies_flat_map; [apply app_nil_r| | |exact Hs].
      * apply Hfree, list_elem_of_here.
      * intros s' Hs'. apply Hfree, list_elem_of_further, Hs'.
    + rewrite symbol_strategies_other; [| | |exact Hne].
      * apply elem_of_cons in Hin as [Hin|Hin]; [contradiction|].
        apply IH; [exact Hnd| |exact Hin].
        intros s' Hs'. apply Hfree, list_elem_of_further, Hs'.
      * apply Hfree, list_elem_of_further.
        apply elem_of_cons in Hin as [Hin|Hin]; [contradiction|exact Hin].
      * apply Hfree, list_elem_of_here.
  - rewrite register_symbol_nil. reflexivity.
  - rewrite register_symbol_nil. intros entry H.
    repeat (apply elem_of_cons in H as [->|H]; [repeat split|]).
    apply elem_of_nil in H. destruct H.
Qed.

Lemma symbol_runs_its_own_strategies_witness :
  (symbol_strategies "GBPUSD" (_register_strategies TRADING_SYMBOLS [])).*1
  = ["GBPUSD_A"; "GBPUSD_B"; "GBPUSD_C"; "GBPUSD_D"].
Proof.
  assert (Hfree : forall s, s ∈ TRADING_SYMBOLS -> after_first_underscore s = None).
  { intros s Hs. unfold TRADING_SYMBOLS in Hs.
    repeat (apply elem_of_cons in Hs as [->|Hs]; [reflexivity|]).
    apply elem_of_nil in Hs. destruct Hs. }
  assert (Hin : "GBPUSD" ∈ TRADING_SYMBOLS).
  { unfold TRADING_SYMBOLS. apply list_elem_of_further, list_elem_of_here. }
  destruct (symbol_runs_its_own_strategies TRADING_SYMBOLS "GBPUSD"
              TRADING_SYMBOLS_NoDup Hfree Hin) as (Hsel & Hkeys & _).
  rewrite Hsel. exact Hkeys.
Defined.

(** A symbol that contains an underscore takes the strategies of another
    symbol into its turn. *)
Example underscore_symbol_shares_strategies :
  (symbol_strategies "BTC" (_register_strategies ["BTC"; "BTC_USD"] [])).*1
  = ["BTC_A"; "BTC_B"; "BTC_C"; "BTC_D";
     "BTC_USD_A"; "BTC_USD_B"; "BTC_USD_C"; "BTC_USD_D"].
Proof. reflexivity. Qed.

(* ===================================================================== *)
(** * Further properties: a pass over the symbols *)
(* ===================================================================== *)

Section ReturnRules.

Context {A B : Type}.

Lemma returns_ret (Q : A -> Prop) (a : A) : Q a -> returns_with Q (ret a).
Proof. intros H s. exists a. split; [reflexivity|exact H]. Qed.

Lemma returns_weaken (Q Q' : A -> Prop) (m : M A) :
  (forall a, Q a -> Q' a) -> returns_with Q m -> returns_with Q' m.
Proof. intros H Hm s. destruct (Hm s) as (a & Ha & Hq). eauto. Qed.

Lemma returns_bind (Q1 : A -> Prop) (Q2 : B -> Prop) (m : M A) (k : A -> M B) :
  returns_with Q1 m -> (forall a, Q1 a -> returns_with Q2 (k a)) ->
  returns_with Q2 (bind m k).
Proof.
  intros Hm Hk s. unfold returns_with, bind, result_of in *.
  destruct (Hm s) as (a & Ha & Hq).
  destruct (m s) as [[r s1] t1]. cbn [fst] in Ha. subst r.
  destruct (Hk a Hq s1) as (b & Hb & Hq2).
  destruct (k a s1) as [[r s2] t2]. cbn [fst] in *. eauto.
Qed.

Lemma returns_try_except (m : M A) (h : exn -> M A) :
  (forall e, returns_with (fun _ => True) (h e)) ->
  returns_with (fun _ => True) (try_except m h).
Proof.
  intros Hh s. unfold returns_with, try_except, result_of in *.
  destruct (m s) as [[[a|e] s1] t1]; [exists a; auto|].
  destruct (Hh e s1) as (a & Ha & _).
  destruct (h e s1) as [[r s2] t2]. cbn [fst] in *. eauto.
Qed.

End ReturnRules.

Section Pass.

Variable w : Collaborators.
Variable rsi : list float -> Z -> outcome (list (option Q)).
Variable adx : list float -> list float -> list float -> Z -> outcome (list (option Q)).
Variable atr : list float -> list float -> list float -> Z -> outcome (list (option Q)).
Variable ema : list float -> Z -> outcome (list (option Q)).
Variable detect_regime : DataFrame -> outcome (option string).

Local Notation "'pass'" := (trading_pass w rsi adx atr ema detect_regime).
Local Notation "'indicators'" := (h1_indicators w rsi adx atr ema detect_regime).

Lemma h1_indicators_calls (P : Call -> Prop) (symbol : string) :
  P (CallGetCandles symbol "H1" 200) -> calls_satisfy P (indicators symbol).
Proof. intros H. unfold h1_indicators. walk_calls. exact H. Qed.

Lemma detect_timeframes_calls (P : Call -> Prop) (symbol : string)
    (timeframes : list string) (seen : gmap string bool) :
  (forall tf, P (CallGetCandles symbol tf 200)) ->
  calls_satisfy P (detect_timeframes w symbol timeframes seen).
Proof.
  intros H. revert seen.
  induction timeframes as [|tf rest IH]; intros seen; cbn [detect_timeframes].
  - apply calls_ret.
  - apply calls_bind; [|intros new_candle; apply IH].
    unfold detect_new_candle. walk_calls. apply H.
Qed.

Lemma check_closed_positions_calls (P : Call -> Prop) :
  (forall c, no_order c -> P c) -> calls_satisfy P (_check_closed_positions w).
Proof.
  intros H.
  unfold _check_closed_positions, close_ticket, process_closure,
    fetch_position_data, closing_values.
  walk_calls; apply H; exact I.
Qed.

Lemma pass_calls (P : Call -> Prop) (strategies : list Binding)
    (symbols : list string) :
  (forall c, no_order c -> P c) ->
  (forall b symbol fallback_atr regime new_candle,
      calls_satisfy P (process_binding w b symbol fallback_atr regime new_candle)) ->
  calls_satisfy P (pass strategies symbols).
Proof.
  intros Hother Hturn. unfold trading_pass. apply calls_bind.
  - induction symbols as [|symbol rest IH]; cbn [symbol_loop];
      [apply calls_ret|].
    apply calls_bind;
      [|intros entries; apply calls_bind;
        [exact IH|intros others; apply calls_ret]].
    unfold symbol_turn. apply calls_bind.
    + walk_calls. apply Hother. exact I.
    + intros _.
      apply calls_bind; [apply h1_indicators_calls, Hother; exact I|].
      intros [fallback_atr regime].
      apply calls_bind;
        [apply detect_timeframes_calls; intros tf; apply Hother; exact I|].
      intros new_candle_for_tf.
      induction (bindings_of symbol strategies) as [|b others IHb];
        cbn [run_bindings]; [apply calls_ret|].
      cbv zeta. apply calls_bind; [apply Hturn|].
      intros status. apply calls_bind; [exact IHb|intros ?; apply calls_ret].
  - intros summary. apply calls_bind; [|intros _; apply calls_ret].
    apply check_closed_positions_calls. exact Hother.
Qed.

(** X28: over a whole pass - the tick and H1 requests of every symbol, the
    candle detection, the turn of every binding and the check for closed
    positions - the test [<= 0] is false for both stops of every order: each
    is a strictly positive number or NaN.  When the prices of every signal
    the strategies return are numbers, both stops of every order are
    strictly positive.  Outside the turns of the bindings no order is
    placed: the indicator block, the candle detection and the check for
    closed positions never call [open_position]. *)
Theorem pass_orders_carry_stops (strategies : list Binding)
    (symbols : list string) :
  calls_satisfy guarded_stops (pass strategies symbols) /\
  ((forall key symbol signal,
       run_cycle w key symbol = Ret (Some signal) -> number_prices signal) ->
   calls_satisfy positive_stops (pass strategies symbols)) /\
  (forall symbol, calls_satisfy no_order (indicators symbol)) /\
  (forall symbol timeframes seen,
      calls_satisfy no_order (detect_timeframes w symbol timeframes seen)) /\
  calls_satisfy no_order (_check_closed_positions w).
Proof.
  split; [|split; [|split; [|split]]].
  - apply pass_calls.
    + intros [] Hc; try exact I. destruct Hc.
    + intros. apply process_binding_guarded_stops.
  - intros Hnum. apply pass_calls.
    + intros [] Hc; try exact I. destruct Hc.
    + intros. apply process_binding_positive_stops.
      intros signal. apply Hnum.
  - intros symbol. apply h1_indicators_calls. exact I.
  - intros symbol timeframes seen. apply detect_timeframes_calls.
    intros tf. exact I.
  - apply check_closed_positions_calls. auto.
Qed.

Lemma process_binding_returns (b : Binding) (symbol : string)
    (fallback_atr : option Q) (regime : option string) (new_candle : bool) :
  (forall e, publish w (STRATEGY_ERROR (strat_key b) symbol e) = Ret tt) ->
  returns_with (fun _ => True)
    (process_binding w b symbol fallback_atr regime new_candle).
Proof.
  intros Hbus. unfold process_binding. cbv zeta.
  destruct new_candle; cbn [negb]; [|apply returns_ret; exact I].
  apply returns_try_except. intros e.
  apply (returns_bind (fun _ => True)); [|intros _ _; apply returns_ret; exact I].
  intros s. exists tt. unfold call, result_of. cbn [fst].
  split; [apply Hbus|exact I].
Qed.

Lemma detect_timeframes_returns (symbol : string) (timeframes : list string)
    (seen : gmap string bool) :
  returns_with (fun _ => True) (detect_timeframes w symbol timeframes seen).
Proof.
  revert seen.
  induction timeframes as [|tf rest IH]; intros seen; cbn [detect_timeframes].
  - apply returns_ret. exact I.
  - apply (returns_bind (fun _ => True)); [|intros new_candle _; apply IH].
    unfold detect_new_candle. cbv zeta. apply returns_try_except.
    intros e. apply returns_ret. exact I.
Qed.

Lemma run_bindings_returns (symbol : string) (fallback_atr : option Q)
    (regime : option string) (new_candle_for_tf : gmap string bool)
    (bindings : list Binding) :
  (forall b e, b ∈ bindings ->
               publish w (STRATEGY_ERROR (strat_key b) symbol e) = Ret tt) ->
  returns_with (fun entries => entries.*1 = strat_key <$> bindings)
    (run_bindings w symbol fallback_atr regime new_candle_for_tf bindings).
Proof.
  induction bindings as [|b rest IH]; intros Hbus; cbn [run_bindings].
  - apply returns_ret. reflexivity.
  - cbv zeta. apply (returns_bind (fun _ => True)).
    + apply process_binding_returns. intros e.
      apply Hbus, list_elem_of_here.
    + intros status _.
      apply (returns_bind (fun entries => entries.*1 = strat_key <$> rest)).
      * apply IH. intros b' e Hb'. apply Hbus, list_elem_of_further, Hb'.
      * intros others Ho. apply returns_ret.
        rewrite !fmap_cons, Ho. reflexivity.
Qed.

(** X29: a pass does not stop at a failure of its collaborators.  When the
    bus accepts the [STRATEGY_ERROR] events of the bindings, the pass
    returns from any state, whatever the tick and candle requests, the
    indicators, the regime detector, the strategies, the risk manager, the
    broker, the brain and the storage answer or raise; and its summary has
    one entry for each binding of each symbol, symbol by symbol, in the
    order of the registry. *)
Theorem pass_survives_failures (strategies : list Binding)
    (symbols : list string) (s : EngineState) :
  (forall symbol b e,
      symbol ∈ symbols -> b ∈ bindings_of symbol strategies ->
      publish w (STRATEGY_ERROR (strat_key b) symbol e) = Ret tt) ->
  exists summary,
    result_of (pass strategies symbols s) = Ret summary /\
    summary.*1
    = flat_map (fun symbol => strat_key <$> bindings_of symbol strategies) symbols.
Proof.
  intros Hbus. revert s.
  change (returns_with
            (fun summary =>
               summary.*1
               = flat_map (fun symbol => strat_key <$> bindings_of symbol strategies)
                   symbols)
            (pass strategies symbols)).
  unfold trading_pass.
  apply (returns_bind
           (fun summary =>
              summary.*1
              = flat_map (fun symbol => strat_key <$> bindings_of symbol strategies)
                  symbols)).
  - induction symbols as [|symbol rest IH]; cbn [symbol_loop flat_map];
      [apply returns_ret; reflexivity|].
    apply (returns_bind
             (fun entries => entries.*1 = strat_key <$> bindings_of symbol strategies)).
    + unfold symbol_turn.
      apply (returns_bind (fun _ => True)).
      { apply returns_try_except. intros e. apply returns_ret. exact I. }
      intros _ _. apply (returns_bind (fun _ => True)).
      { unfold h1_indicators. apply returns_try_except.
        intros e. apply returns_ret. exact I. }
      intros [fallback_atr regime] _.
      apply (returns_bind (fun _ => True)); [apply detect_timeframes_returns|].
      intros new_candle_for_tf _. apply run_bindings_returns.
      intros b e Hb. apply Hbus; [apply list_elem_of_here|exact Hb].
    + intros entries He.
      apply (returns_bind
               (fun others =>
                  others.*1
                  = flat_map (fun symbol => strat_key <$> bindings_of symbol strategies)
                      rest)).
      * apply IH. intros symbol' b e Hs' Hb.
        apply Hbus; [apply list_elem_of_further, Hs'|exact Hb].
      * intros others Ho. apply returns_ret.
        rewrite fmap_app, He, Ho. reflexivity.
  - intros summary Hs.
    apply (returns_bind (fun _ => True)); [|intros _ _; apply returns_ret; exact Hs].
    unfold _check_closed_positions.
    apply (returns_bind (fun _ => True)); [intros s; eexists; split; [reflexivity|exact I]|].
    intros tracked _. destruct (bool_decide (tracked = ∅)).
    + apply returns_ret. exact I.
    + apply returns_try_except. intros e. apply returns_ret. exact I.
Qed.

End Pass.

Lemma pass_orders_carry_stops_witness :
  Forall positive_stops
    (trace_of
       (trading_pass (trading_world full_signal approval true)
          (fun _ _ => Raise "rsi") (fun _ _ _ _ => Raise "adx")
          (fun _ _ _ _ => Raise "atr") (fun _ _ => Raise "ema")
          (fun _ => Raise "regime")
          [eurusd_d] ["EURUSD"] initial_state)).
Proof.
  apply (proj1 (proj2 (pass_orders_carry_stops
                         (trading_world full_signal approval true)
                         (fun _ _ => Raise "rsi") (fun _ _ _ _ => Raise "adx")
                         (fun _ _ _ _ => Raise "atr") (fun _ _ => Raise "ema")
                         (fun _ => Raise "regime")
                         [eurusd_d] ["EURUSD"]))).
  intros key symbol signal H. injection H as <-.
  split; [reflexivity|].
  split; intros price H; injection H as <-; reflexivity.
Defined.

Lemma pass_survives_failures_witness :
  exists summary,
    result_of
      (trading_pass (feed_world [100; 200])
         (fun _ _ => Raise "rsi") (fun _ _ _ _ => Raise "adx")
         (fun _ _ _ _ => Raise "atr") (fun _ _ => Raise "ema")
         (fun _ => Raise "regime")
         [eurusd_d] ["EURUSD"; "GBPUSD"] initial_state) = Ret summary /\
    summary.*1 = ["EURUSD_D"].
Proof.
  apply (pass_survives_failures (feed_world [100; 200])
           (fun _ _ => Raise "rsi") (fun _ _ _ _ => Raise "adx")
           (fun _ _ _ _ => Raise "atr") (fun _ _ => Raise "ema")
           (fun _ => Raise "regime")
           [eurusd_d] ["EURUSD"; "GBPUSD"] initial_state).
  intros symbol b e _ _. reflexivity.
Defined.

(* ===================================================================== *)
(** * Further properties: the timeframes of a symbol *)
(* ===================================================================== *)

Lemma first_seen_elem (timeframes seen : list string) (tf : string) :
  tf ∈ first_seen seen timeframes <-> tf ∈ timeframes /\ tf ∉ seen.
Proof.
  revert seen. induction timeframes as [|x rest IH]; intros seen;
    cbn [first_seen].
  - split; [intros H; apply elem_of_nil in H; destruct H|].
    intros [H _]. exact H.
  - destruct (bool_decide (x ∈ seen)) eqn:E.
    + apply bool_decide_eq_true in E. rewrite IH. split.
      * intros [H Hn]. split; [apply list_elem_of_further, H|exact Hn].
      * intros [H Hn]. split; [|exact Hn].
        apply elem_of_cons in H as [->|H]; [contradiction|exact H].
    + apply bool_decide_eq_false in E. rewrite elem_of_cons, IH. split.
      * intros [->|[H Hn]]; [split; [apply list_elem_of_here|exact E]|].
        split; [apply list_elem_of_further, H|].
        intros Hs. apply Hn, list_elem_of_further, Hs.
      * intros [H Hn]. apply elem_of_cons in H as [->|H]; [left; reflexivity|].
        destruct (decide (tf = x)) as [->|Hne]; [left; reflexivity|].
        right. split; [exact H|]. intros Hs.
        apply elem_of_cons in Hs as [Hs|Hs]; [exact (Hne Hs)|exact (Hn Hs)].
Qed.

Lemma first_seen_NoDup (timeframes seen : list string) :
  NoDup (first_seen seen timeframes).
Proof.
  revert seen. induction timeframes as [|x rest IH]; intros seen;
    cbn [first_seen]; [apply NoDup_nil; exact I|].
  destruct (bool_decide (x ∈ seen)); [apply IH|].
  apply NoDup_cons. split; [|apply IH].
  rewrite first_seen_elem. intros [_ H]. apply H, list_elem_of_here.
Qed.

Lemma detect_new_candle_run (w : Collaborators) (symbol tf : string)
    (s : EngineState) :
  exists new_candle s1,
    detect_new_candle w symbol tf s
    = (Ret new_candle, s1, [CallGetCandles symbol tf 200]).
Proof.
  rewrite detect_new_candle_unfold.
  destruct (accepted_latest _); eauto.
Qed.

Lemma detect_timeframes_run (w : Collaborators) (symbol : string)
    (timeframes : list string) (seen : gmap string bool) (s : EngineState) :
  exists detected,
    result_of (detect_timeframes w symbol timeframes seen s) = Ret detected /\
    trace_of (detect_timeframes w symbol timeframes seen s)
    = (fun tf => CallGetCandles symbol tf 200) <$> timeframes /\
    (forall tf, is_Some (detected !! tf) <->
                tf ∈ timeframes \/ is_Some (seen !! tf)).
Proof.
  revert seen s. induction timeframes as [|tf rest IH]; intros seen s;
    cbn [detect_timeframes].
  - exists seen. split; [reflexivity|]. split; [reflexivity|].
    intros tf. split; [auto|]. intros [H|H]; [|exact H].
    apply elem_of_nil in H. destruct H.
  - unfold bind.
    destruct (detect_new_candle_run w symbol tf s) as (new_candle & s1 & ->).
    destruct (IH (<[tf := new_candle]> seen) s1) as (detected & Hr & Ht & Hd).
    destruct (detect_timeframes w symbol rest (<[tf := new_candle]> seen) s1)
      as [[r s2] t2].
    unfold result_of, trace_of in *. cbn [fst snd] in *. subst r t2.
    exists detected. split; [reflexivity|]. split; [reflexivity|].
    intros tf'. rewrite Hd, elem_of_cons.
    destruct (decide (tf' = tf)) as [->|Hne].
    + rewrite lookup_insert_eq. split; [auto|]. intros _. right. eauto.
    + rewrite lookup_insert_ne by congruence. tauto.
Qed.

(** X30: the candles of a timeframe are requested once per symbol and
    pass, however many strategies of the symbol run on it: the timeframes to
    detect are those of the symbol's bindings, each once, in the order of
    their first binding; the detection makes exactly one candle request for
    each, always returns, and its result has an entry for the timeframe of
    every binding, so that no binding falls back to the default of
    [new_candle_for_tf.get]. *)
Theorem each_timeframe_is_requested_once (w : Collaborators) (symbol : string)
    (mine : list Binding) (s : EngineState) :
  NoDup (strategy_timeframes mine) /\
  (forall tf, tf ∈ strategy_timeframes mine <->
              exists b, b ∈ mine /\ timeframe b = tf) /\
  trace_of (detect_timeframes w symbol (strategy_timeframes mine) ∅ s)
  = (fun tf => CallGetCandles symbol tf 200) <$> strategy_timeframes mine /\
  exists new_candle_for_tf,
    result_of (detect_timeframes w symbol (strategy_timeframes mine) ∅ s)
    = Ret new_candle_for_tf /\
    forall b, b ∈ mine -> is_Some (new_candle_for_tf !! timeframe b).
Proof.
  assert (Hmem : forall tf, tf ∈ strategy_timeframes mine <->
                            exists b, b ∈ mine /\ timeframe b = tf).
  { intros tf. unfold strategy_timeframes. rewrite first_seen_elem.
    rewrite list_elem_of_fmap. split.
    - intros [(b & -> & Hb) _]. eauto.
    - intros (b & Hb & <-). split; [eauto|].
      intros H. apply elem_of_nil in H. exact H. }
  split; [apply first_seen_NoDup|]. split; [exact Hmem|].
  destruct (detect_timeframes_run w symbol (strategy_timeframes mine) ∅ s)
    as (detected & Hr & Ht & Hd).
  split; [exact Ht|]. exists detected. split; [exact Hr|].
  intros b Hb. apply Hd. left. apply Hmem. eauto.
Qed.

Example four_strategies_one_request :
  trace_of (detect_timeframes (feed_world [100; 200]) "EURUSD"
              (strategy_timeframes
                 [mkBinding "EURUSD_A" "M15" true; mkBinding "EURUSD_B" "M15" true;
                  mkBinding "EURUSD_C" "M15" true; mkBinding "EURUSD_D" "M15" true])
              ∅ initial_state)
  = [CallGetCandles "EURUSD" "M15" 200].
Proof. reflexivity. Qed.
